(** * context-db-mcp: store resolution, ingestion composer, retrieval filter

    A shallow embedding of [src/context_db_mcp/vector_store.py] (and of the
    tool entry points of [server.py]) together with the properties of the
    natural-language specification that were checked against it.

    Conventions of the embedding:
    - a Python [str] is a Rocq [string]; its characters stand for the code
      points U+0000..U+00FF, which is where [lower], [strip] and
      [encode_utf8] below follow CPython; the module [Wide] has the string
      operations of the filename slug on arbitrary code points;
    - a Python [float] is a primitive binary64 [float], so that [<] has the
      IEEE-754 meaning it has in Python (NaN included);
    - [Optional[T]] is [option T], and the [if x:] tests of the source are
      written with the explicit truthiness functions of [Py];
    - the OpenAI client is an oracle: each remote operation is a function of
      the calls issued so far and of its arguments, and every call is
      recorded in the world, oldest first; the answer of the list call is a
      paged listing, whose iteration can raise after the call has answered;
    - dictionaries that the code mutates live in a heap of dict objects and
      are passed by reference. *)

From Stdlib Require Import ZArith String Ascii List Floats Lia.
From stdpp Require Import gmap strings list pretty.


(** ** Python built-ins used by the source *)

Module Py.

(** [bool(s)] for a [str]. *)
Definition str_truthy (s : string) : bool :=
  match s with
  | EmptyString => false
  | String _ _ => true
  end.

(** The value of an [Optional[str]] when it passes an [if x:] test:
    [None] and the empty string are both falsy. *)
Definition present (o : option string) : option string :=
  match o with
  | Some s => if str_truthy s then Some s else None
  | None => None
  end.

(** [x or y] on strings. *)
Definition str_or (s d : string) : string :=
  if str_truthy s then s else d.

Definition in_range (lo hi n : N) : bool :=
  ((lo <=? n) && (n <=? hi))%N.

(** Simple lower-case mapping of one code point below U+0100: A-Z and the
    Latin-1 capitals U+00C0..U+00DE (the multiplication sign U+00D7
    excepted) move up by 32, everything else is unchanged. *)
Definition lower_char (c : ascii) : ascii :=
  let n := N_of_ascii c in
  if in_range 65 90 n || (in_range 192 222 n && negb (n =? 215)%N)
  then ascii_of_N (n + 32)
  else c.

(** [s.lower()] on strings of code points below U+0100, where it maps
    every character to one character. *)
Fixpoint lower (s : string) : string :=
  match s with
  | EmptyString => EmptyString
  | String c s' => String (lower_char c) (lower s')
  end.

(** [s.replace(old, new)] for single-character [old] and [new]. *)
Fixpoint replace (old new : ascii) (s : string) : string :=
  match s with
  | EmptyString => EmptyString
  | String c s' =>
      String (if Ascii.eqb c old then new else c) (replace old new s')
  end.

(** [s[:n]] *)
Fixpoint slice_to (n : nat) (s : string) : string :=
  match n, s with
  | O, _ => EmptyString
  | S _, EmptyString => EmptyString
  | S n', String c s' => String c (slice_to n' s')
  end.

(** [c.isspace()] for a code point below U+0100. *)
Definition isspace (c : ascii) : bool :=
  let n := N_of_ascii c in
  in_range 9 13 n || in_range 28 32 n || (n =? 133)%N || (n =? 160)%N.

(** [s.lstrip()] *)
Fixpoint lstrip (s : string) : string :=
  match s with
  | EmptyString => EmptyString
  | String c s' => if isspace c then lstrip s' else s
  end.

(** [s.rstrip()] *)
Fixpoint rstrip (s : string) : string :=
  match s with
  | EmptyString => EmptyString
  | String c s' =>
      match rstrip s' with
      | EmptyString => if isspace c then EmptyString else String c EmptyString
      | String _ _ as r => String c r
      end
  end.

(** [s.strip()] *)
Definition strip (s : string) : string := rstrip (lstrip s).

(** [sep.join(parts)] *)
Fixpoint join (sep : string) (parts : list string) : string :=
  match parts with
  | [] => EmptyString
  | [p] => p
  | p :: rest => p +:+ sep +:+ join sep rest
  end.

(** [s.encode("utf-8")] for code points below U+0100: one byte below
    U+0080, two bytes above. *)
Fixpoint encode_utf8 (s : string) : list N :=
  match s with
  | EmptyString => []
  | String c s' =>
      let n := N_of_ascii c in
      (if (n <? 128)%N then [n]
       else [N.lor 192 (N.shiftr n 6); N.lor 128 (N.land n 63)])
      ++ encode_utf8 s'
  end.

(** [str(n)] and the [{n}] of an f-string, for an [int]. *)
Definition str_of_int (n : Z) : string := pretty n.

(** The line feed of ["\n"]. *)
Definition LF : string := String (ascii_of_N 10) EmptyString.

(** Every character of the string is white space. *)
Fixpoint all_space (s : string) : bool :=
  match s with
  | EmptyString => true
  | String c s' => isspace c && all_space s'
  end.

End Py.

(** ** Data model *)

(** [Union[str, float, bool]], the value of an attribute. *)
Inductive AttrValue : Type :=
| AStr (s : string)
| ANum (x : float)
| ABool (b : bool).

(** [AttributesType = Dict[str, Union[str, float, bool]]] *)
Abbreviation AttributesType := (gmap string AttrValue).

(** [bool(d)] for a dict. *)
Definition dict_truthy (d : AttributesType) : bool :=
  negb (bool_decide (d = ∅)).

(** The opaque [Dict[str, Any]] forwarded as chunking strategy. *)
Definition ChunkingStrategy : Type := string.

(** The upload triple [(filename, buffer, mime_type)] of [FileTypes]. *)
Definition FileTypes : Type := string * list N * string.

(** Exceptions. Whatever the remote client raises is an [Exception]
    carrying its class name and message. *)
Inductive Exn : Type :=
| ValueError (msg : string)
| ValidationError (msg : string)
| RemoteError (cls msg : string).

(** [str(exc)] *)
Definition str_of_exn (e : Exn) : string :=
  match e with
  | ValueError msg | ValidationError msg | RemoteError _ msg => msg
  end.

Inductive Result (A : Type) : Type :=
| Ok (a : A)
| Raise (e : Exn).
Arguments Ok {A} a.
Arguments Raise {A} e.

(** [config.Settings], the fields read by the store. *)
Module Settings.
Record t : Type := mk {
  default_vector_store_id : option string;
  default_vector_store_name : option string;
  default_max_results : Z
}.
End Settings.

(** [openai.types.VectorStore]; [name] is what
    [getattr(store, "name", None)] reads. *)
Module VectorStore.
Record t : Type := mk {
  id : string;
  name : option string
}.
End VectorStore.

(** The vector store file returned by [upload_and_poll]. *)
Module VectorStoreFile.
Record t : Type := mk {
  id : string;
  status : string;
  attributes : option AttributesType
}.
End VectorStoreFile.

(** One content segment of a search result. *)
Module Content.
Record t : Type := mk {
  type : string;
  text : string
}.
End Content.

(** One search result as returned by the remote search. *)
Module SearchResult.
Record t : Type := mk {
  file_id : string;
  filename : string;
  score : float;
  content : list Content.t;
  attributes : option AttributesType
}.
End SearchResult.

(** A reference to a dict object of the heap. The one dict the code
    mutates, [attributes] of [ingest], and the caller's dict it is copied
    from are objects of the heap; dicts that are only passed on
    ([metadata], [attributes_filter], what the remote returns) are
    values. *)
Definition ref : Type := nat.

Module IngestDocumentRequest.
Record t : Type := mk {
  content : string;
  vector_store_id : option string;
  vector_store_name : option string;
  document_id : option string;
  filename : option string;
  summary : option string;
  attributes : option ref;
  chunking_strategy : option ChunkingStrategy;
  mime_type : string
}.

(** The [model_validator(mode="after")] of the class. *)
Definition ensure_store_reference (self : t) : Result t :=
  if negb (Py.str_truthy (Py.strip (content self)))
  then Raise (ValueError "The document content is empty after stripping whitespace.")
  else Ok self.

(** Construction of the model: the validator runs, and a [ValueError]
    it raises surfaces as pydantic's [ValidationError]. *)
Definition validate (raw : t) : Result t :=
  match ensure_store_reference raw with
  | Ok r => Ok r
  | Raise e => Raise (ValidationError (str_of_exn e))
  end.
End IngestDocumentRequest.

Module IngestDocumentResponse.
Record t : Type := mk {
  vector_store_id : string;
  vector_store_name : option string;
  file_id : string;
  filename : string;
  status : string;
  attributes : option AttributesType
}.
End IngestDocumentResponse.

Module RetrieveRelevantChunksRequest.
Record t : Type := mk {
  query : string;
  vector_store_id : option string;
  max_results : option Z;
  score_threshold : option float;
  attributes_filter : option AttributesType;
  rewrite_query : option bool
}.

(** The field constraint [ge=1, le=50] of [max_results]. *)
Definition check_max_results (self : t) : Result t :=
  match max_results self with
  | None => Ok self
  | Some n =>
      if (n <? 1)%Z
      then Raise (ValidationError "Input should be greater than or equal to 1")
      else if (50 <? n)%Z
      then Raise (ValidationError "Input should be less than or equal to 50")
      else Ok self
  end.

(** The [model_validator(mode="after")] of the class. *)
Definition ensure_query (self : t) : Result t :=
  if negb (Py.str_truthy (Py.strip (query self)))
  then Raise (ValueError "The search query is empty after stripping whitespace.")
  else Ok self.

(** Construction of the model: field constraints first, then the
    validator; either failure surfaces as [ValidationError]. *)
Definition validate (raw : t) : Result t :=
  match check_max_results raw with
  | Raise e => Raise e
  | Ok r =>
      match ensure_query r with
      | Ok r' => Ok r'
      | Raise e => Raise (ValidationError (str_of_exn e))
      end
  end.
End RetrieveRelevantChunksRequest.

Module RetrievedChunk.
Record t : Type := mk {
  file_id : string;
  filename : string;
  score : float;
  text : string;
  attributes : option AttributesType
}.
End RetrievedChunk.

Module RetrieveRelevantChunksResponse.
Record t : Type := mk {
  vector_store_id : string;
  query : string;
  results : list RetrievedChunk.t
}.
End RetrieveRelevantChunksResponse.

Module GetVectorStoreInfoResponse.
Record t : Type := mk {
  vector_store_id : string;
  vector_store_name : option string
}.
End GetVectorStoreInfoResponse.

(** ** The world: remote calls, log, clock and heap *)

(** A call issued to the remote vector-store API, with its arguments.
    [filters] of a search is the dict the source wraps as
    [{"attributes": ...}]; an argument the source leaves out is [None]. *)
Inductive Call : Type :=
| CallRetrieve (vector_store_id : string)
| CallList (limit : Z) (order : string)
| CallCreate (name : string) (metadata : option AttributesType)
| CallUploadAndPoll (vector_store_id : string) (file : FileTypes)
    (attributes : option AttributesType)
    (chunking_strategy : option ChunkingStrategy)
| CallSearch (vector_store_id : string) (query : string)
    (max_num_results : Z) (filters : option AttributesType)
    (rewrite_query : option bool).

Definition is_create (c : Call) : bool :=
  match c with CallCreate _ _ => true | _ => false end.

Definition is_list (c : Call) : bool :=
  match c with CallList _ _ => true | _ => false end.

Inductive Level : Type := DEBUG | INFO | WARNING.

(** An argument of a log call, kept unformatted as [logging] does. *)
Inductive LogArg : Type :=
| ArgStr (s : string)
| ArgAttrs (a : option AttributesType).

(** A record of a logger: level, format string and arguments. *)
Inductive LogRecord : Type :=
| Log (level : Level) (fmt : string) (args : list LogArg).

(** One reading of [datetime.now(timezone.utc)]: the two views of it the
    code takes, [int(t.timestamp())] and [t.isoformat()]. *)
Record Instant : Type := mkInstant {
  unix_seconds : Z;
  isoformat : string
}.

Record World : Type := mkWorld {
  heap : list AttributesType;
  calls : list Call;
  logs : list LogRecord;
  clock : nat -> Instant;
  ticks : nat
}.

(** What [vector_stores.list] answers: a paged listing. Iterating it
    yields the stores of the first page, then fetches the next page and
    goes on with it; the iteration ends with the last page, or breaks with
    the exception of a fetch that fails. The fetches of further pages
    belong to the iteration: they are no calls of the code on the client. *)
Inductive Pages : Type :=
| PagesEnd
| PagesStore (store : VectorStore.t) (rest : Pages)
| PagesBroken (exc : Exn).

(** The listing that yields [stores] and goes on as [rest]. *)
Fixpoint prepend (stores : list VectorStore.t) (rest : Pages) : Pages :=
  match stores with
  | [] => rest
  | store :: stores' => PagesStore store (prepend stores' rest)
  end.

(** The listing that yields [stores] and ends. *)
Definition complete (stores : list VectorStore.t) : Pages :=
  prepend stores PagesEnd.

(** The listing that yields [stores] and then breaks: the fetch of the
    page after them raises [exc]. *)
Definition broken_after (stores : list VectorStore.t) (exc : Exn) : Pages :=
  prepend stores (PagesBroken exc).

(** The remote client [OpenAI(...)]: every operation answers from the
    calls issued before it and its own arguments, with a value or an
    exception. *)
Module OpenAI.
Record t : Type := mk {
  vector_stores_retrieve : list Call -> string -> Result VectorStore.t;
  vector_stores_list : list Call -> Z -> string -> Result Pages;
  vector_stores_create :
    list Call -> string -> option AttributesType -> Result VectorStore.t;
  vector_stores_files_upload_and_poll :
    list Call -> string -> FileTypes -> option AttributesType ->
    option ChunkingStrategy -> Result VectorStoreFile.t;
  vector_stores_search :
    list Call -> string -> string -> Z -> option AttributesType ->
    option bool -> Result (list SearchResult.t)
}.
End OpenAI.

(** ** The monad of the embedding: world passing with exceptions *)

Definition M (A : Type) : Type := World -> Result A * World.

Definition ret {A} (a : A) : M A := fun w => (Ok a, w).

Definition raise {A} (e : Exn) : M A := fun w => (Raise e, w).

(** A computation without effects, from its outcome. *)
Definition lift {A} (r : Result A) : M A := fun w => (r, w).

Definition bind {A B} (m : M A) (k : A -> M B) : M B :=
  fun w =>
    match m w with
    | (Ok a, w') => k a w'
    | (Raise e, w') => (Raise e, w')
    end.

(** [try: m  except Exception as exc: h exc] *)
Definition try_except {A} (m : M A) (h : Exn -> M A) : M A :=
  fun w =>
    match m w with
    | (Ok a, w') => (Ok a, w')
    | (Raise e, w') => h e w'
    end.

Notation "'do' x <- m ; k" := (bind m (fun x => k))
  (at level 10, x name, m at level 100, k at level 200,
   format "'[v' 'do'  x  <-  m ; '/' k ']'").
Notation "'run' m ; k" := (bind m (fun _ => k))
  (at level 10, m at level 100, k at level 200,
   format "'[v' 'run'  m ; '/' k ']'").

Definition when (b : bool) (m : M unit) : M unit :=
  if b then m else ret tt.

Definition set_heap (h : list AttributesType) (w : World) : World :=
  mkWorld h (calls w) (logs w) (clock w) (ticks w).
Definition add_call (c : Call) (w : World) : World :=
  mkWorld (heap w) (calls w ++ [c]) (logs w) (clock w) (ticks w).
Definition add_log (r : LogRecord) (w : World) : World :=
  mkWorld (heap w) (calls w) (logs w ++ [r]) (clock w) (ticks w).
Definition tick (w : World) : World :=
  mkWorld (heap w) (calls w) (logs w) (clock w) (S (ticks w)).

(** [logger.debug/info/warning(fmt, *args)] *)
Definition log (level : Level) (fmt : string) (args : list LogArg) : M unit :=
  fun w => (Ok tt, add_log (Log level fmt args) w).

(** [ctx.info(msg)] as the tool functions write it. [Context.info] is a
    coroutine function and the tool functions are plain [def]s that call
    it without [await]: the call formats the message and builds a
    coroutine object that is never run, so nothing is sent. *)
Definition ctx_info (msg : string) : M unit := ret tt.

(** [datetime.now(timezone.utc)]: each reading advances the clock. *)
Definition now : M Instant :=
  fun w => (Ok (clock w (ticks w)), tick w).

(** The contents of the dict object behind a reference. Requests only
    hold references to allocated objects; a dangling one reads as empty. *)
Definition deref (h : list AttributesType) (r : ref) : AttributesType :=
  default ∅ (h !! r).

(** [dict(d)]: a new dict object with the given contents. *)
Definition dict_new (d : AttributesType) : M ref :=
  fun w => (Ok (length (heap w)), set_heap (heap w ++ [d]) w).

(** The current contents of a dict object. *)
Definition dict_read (r : ref) : M AttributesType :=
  fun w => (Ok (deref (heap w) r), w).

(** [d.setdefault(key, value)]: inserts only when the key is missing. *)
Definition dict_setdefault (r : ref) (key : string) (value : AttrValue) : M unit :=
  fun w =>
    let d := deref (heap w) r in
    match d !! key with
    | Some _ => (Ok tt, w)
    | None => (Ok tt, set_heap (<[r := <[key := value]> d]> (heap w)) w)
    end.

(** A remote call: record it, then answer from the oracle. *)
Definition remote {A} (c : Call) (answer : list Call -> Result A) : M A :=
  fun w => (answer (calls w), add_call c w).

(** ** [class OpenAIContextStore] *)

Module OpenAIContextStore.

(** The instance: [self._settings] and [self._client]. *)
Record t : Type := mk {
  _settings : Settings.t;
  _client : OpenAI.t
}.

(** [self._client.vector_stores.retrieve(vector_store_id)] *)
Definition client_retrieve (self : t) (vector_store_id : string)
  : M VectorStore.t :=
  remote (CallRetrieve vector_store_id)
    (fun past => OpenAI.vector_stores_retrieve (_client self) past vector_store_id).

(** [self._client.vector_stores.list(limit=..., order=...)] *)
Definition client_list (self : t) (limit : Z) (order : string)
  : M Pages :=
  remote (CallList limit order)
    (fun past => OpenAI.vector_stores_list (_client self) past limit order).

(** [self._client.vector_stores.create(name=..., metadata=...)] *)
Definition client_create (self : t) (name : string)
    (metadata : option AttributesType) : M VectorStore.t :=
  remote (CallCreate name metadata)
    (fun past => OpenAI.vector_stores_create (_client self) past name metadata).

(** [self._client.vector_stores.files.upload_and_poll(...)] *)
Definition client_upload_and_poll (self : t) (vector_store_id : string)
    (file : FileTypes) (attributes : option AttributesType)
    (chunking_strategy : option ChunkingStrategy) : M VectorStoreFile.t :=
  remote (CallUploadAndPoll vector_store_id file attributes chunking_strategy)
    (fun past =>
       OpenAI.vector_stores_files_upload_and_poll (_client self) past
         vector_store_id file attributes chunking_strategy).

(** [self._client.vector_stores.search(vector_store_id, **search_kwargs)] *)
Definition client_search (self : t) (vector_store_id query : string)
    (max_num_results : Z) (filters : option AttributesType)
    (rewrite_query : option bool) : M (list SearchResult.t) :=
  remote (CallSearch vector_store_id query max_num_results filters rewrite_query)
    (fun past =>
       OpenAI.vector_stores_search (_client self) past
         vector_store_id query max_num_results filters rewrite_query).

(** [getattr(store, "name", None) == name] *)
Definition name_matches (store : VectorStore.t) (name : string) : bool :=
  match VectorStore.name store with
  | Some n => String.eqb n name
  | None => false
  end.

(** The loop [for store in pages: if ... == name: return store] and the
    [return None] after it: the first store of that name the iteration
    yields, nothing when the iteration ends without one, and the
    exception of the iteration when it breaks before one. *)
Fixpoint first_named (pages : Pages) (name : string)
  : Result (option VectorStore.t) :=
  match pages with
  | PagesEnd => Ok None
  | PagesStore store rest =>
      if name_matches store name then Ok (Some store) else first_named rest name
  | PagesBroken exc => Raise exc
  end.

(** Only the call of [list] sits in the [try]; the loop over its answer
    runs after it. *)

Definition _find_vector_store_by_name (self : t) (name : string)
  : M (option VectorStore.t) :=
  do listed <-
    try_except
      (do pages <- client_list self 100 "desc"; ret (Some pages))
      (fun exc =>
         run log WARNING "Failed to list vector stores: %s" [ArgStr (str_of_exn exc)];
         ret None);
  match listed with
  | None => ret None
  | Some pages => lift (first_named pages name)
  end.

Definition ensure_vector_store (self : t)
    (vector_store_id vector_store_name : option string)
    (metadata : option AttributesType) : M VectorStore.t :=
  match Py.present vector_store_id with
  | Some id =>
      run log DEBUG "Using provided vector store id %s" [ArgStr id];
      client_retrieve self id
  | None =>
      match Py.present vector_store_name with
      | None =>
          match Py.present (Settings.default_vector_store_id (_settings self)) with
          | Some fallback_id =>
              run log DEBUG "Falling back to configured vector store id %s"
                    [ArgStr fallback_id];
              client_retrieve self fallback_id
          | None =>
              match Py.present (Settings.default_vector_store_name (_settings self)) with
              | Some fallback_name =>
                  run log DEBUG "Attempting to locate default vector store named %s"
                        [ArgStr fallback_name];
                  do existing <- _find_vector_store_by_name self fallback_name;
                  match existing with
                  | Some store => ret store
                  | None =>
                      run log INFO "Creating default vector store named %s"
                            [ArgStr fallback_name];
                      client_create self fallback_name metadata
                  end
              | None =>
                  raise (ValueError
                    "No vector store identifier was provided and no defaults are configured.")
              end
          end
      | Some name =>
          run log DEBUG "Attempting to locate vector store named %s" [ArgStr name];
          do existing_store <- _find_vector_store_by_name self name;
          match existing_store with
          | Some store => ret store
          | None =>
              run log INFO "Creating vector store named %s" [ArgStr name];
              client_create self name metadata
          end
      end
  end.

Definition _prepare_upload (filename content mime_type : string) : FileTypes :=
  (filename, Py.encode_utf8 content, mime_type).

Definition _derive_filename (request : IngestDocumentRequest.t) : M string :=
  match Py.present (IngestDocumentRequest.document_id request) with
  | Some document_id => ret (document_id +:+ ".txt")
  | None =>
      match Py.present (IngestDocumentRequest.summary request) with
      | Some summary =>
          let slug :=
            Py.slice_to 40 (Py.replace " " "-" (Py.lower summary)) in
          do t <- now;
          ret (Py.str_or slug "context" +:+ "-"
               +:+ Py.str_of_int (unix_seconds t) +:+ ".txt")
      | None =>
          do t <- now;
          ret ("context-" +:+ Py.str_of_int (unix_seconds t) +:+ ".txt")
      end
  end.

(** [dict(request.attributes or {})]: a fresh dict object holding the
    entries of the caller's dict, or nothing. *)
Definition copy_attributes (request : IngestDocumentRequest.t) : M ref :=
  match IngestDocumentRequest.attributes request with
  | None => dict_new ∅
  | Some r =>
      do d <- dict_read r;
      if dict_truthy d then dict_new d else dict_new ∅
  end.

(** [attributes or None], evaluated when the upload is issued. *)
Definition or_none (d : AttributesType) : option AttributesType :=
  if dict_truthy d then Some d else None.

Definition ingest (self : t) (request : IngestDocumentRequest.t)
  : M IngestDocumentResponse.t :=
  let metadata : option AttributesType :=
    match Py.present (IngestDocumentRequest.vector_store_name request) with
    | Some _ => Some ∅
    | None => None
    end in
  do vector_store <-
    ensure_vector_store self
      (IngestDocumentRequest.vector_store_id request)
      (IngestDocumentRequest.vector_store_name request)
      metadata;
  do filename <-
    match Py.present (IngestDocumentRequest.filename request) with
    | Some f => ret f
    | None => _derive_filename request
    end;
  do attributes <- copy_attributes request;
  run match Py.present (IngestDocumentRequest.document_id request) with
      | Some document_id =>
          dict_setdefault attributes "document_id" (AStr document_id)
      | None => ret tt
      end;
  run match Py.present (IngestDocumentRequest.summary request) with
      | Some summary => dict_setdefault attributes "summary" (AStr summary)
      | None => ret tt
      end;
  do t <- now;
  run dict_setdefault attributes "ingested_at" (AStr (isoformat t));
  let upload :=
    _prepare_upload filename
      (IngestDocumentRequest.content request)
      (IngestDocumentRequest.mime_type request) in
  let upload_kwargs := IngestDocumentRequest.chunking_strategy request in
  run log INFO "Uploading document %s to vector store %s"
        [ArgStr filename; ArgStr (VectorStore.id vector_store)];
  do composed <- dict_read attributes;
  do vector_store_file <-
    client_upload_and_poll self (VectorStore.id vector_store) upload
      (or_none composed) upload_kwargs;
  run when (negb (String.eqb (VectorStoreFile.status vector_store_file) "completed"))
        (log WARNING "Vector store file %s completed with status %s"
           [ArgStr (VectorStoreFile.id vector_store_file);
            ArgStr (VectorStoreFile.status vector_store_file)]);
  ret (IngestDocumentResponse.mk
         (VectorStore.id vector_store)
         (VectorStore.name vector_store)
         (VectorStoreFile.id vector_store_file)
         filename
         (VectorStoreFile.status vector_store_file)
         (VectorStoreFile.attributes vector_store_file)).

(** ["\n\n".join(chunk.text for chunk in result.content if chunk.type == "text")] *)
Definition assemble_text (content : list Content.t) : string :=
  Py.join (Py.LF +:+ Py.LF)
    (map Content.text
       (List.filter (fun chunk => String.eqb (Content.type chunk) "text") content)).

(** [result.score < request.score_threshold], guarded by
    [request.score_threshold is not None]. *)
Definition below_threshold (score_threshold : option float)
    (result : SearchResult.t) : bool :=
  match score_threshold with
  | Some threshold => (SearchResult.score result <? threshold)%float
  | None => false
  end.

Definition to_chunk (result : SearchResult.t) : RetrievedChunk.t :=
  RetrievedChunk.mk
    (SearchResult.file_id result)
    (SearchResult.filename result)
    (SearchResult.score result)
    (assemble_text (SearchResult.content result))
    (SearchResult.attributes result).

(** The loop of [retrieve] over [search_results], appending to
    [collected]. *)
Fixpoint collect (score_threshold : option float)
    (search_results : list SearchResult.t)
    (collected : list RetrievedChunk.t) : list RetrievedChunk.t :=
  match search_results with
  | [] => collected
  | result :: rest =>
      if below_threshold score_threshold result
      then collect score_threshold rest collected
      else collect score_threshold rest (collected ++ [to_chunk result])
  end.

Definition retrieve (self : t) (request : RetrieveRelevantChunksRequest.t)
  : M RetrieveRelevantChunksResponse.t :=
  do vector_store <-
    ensure_vector_store self
      (RetrieveRelevantChunksRequest.vector_store_id request) None None;
  let max_results :=
    match RetrieveRelevantChunksRequest.max_results request with
    | Some n =>
        if (n =? 0)%Z
        then Settings.default_max_results (_settings self)
        else n
    | None => Settings.default_max_results (_settings self)
    end in
  let filters :=
    match RetrieveRelevantChunksRequest.attributes_filter request with
    | Some f => if dict_truthy f then Some f else None
    | None => None
    end in
  run log DEBUG "Searching vector store %s for query %s"
        [ArgStr (VectorStore.id vector_store);
         ArgStr (RetrieveRelevantChunksRequest.query request)];
  do search_results <-
    client_search self (VectorStore.id vector_store)
      (RetrieveRelevantChunksRequest.query request) max_results filters
      (RetrieveRelevantChunksRequest.rewrite_query request);
  let collected :=
    collect (RetrieveRelevantChunksRequest.score_threshold request)
      search_results [] in
  ret (RetrieveRelevantChunksResponse.mk
         (VectorStore.id vector_store)
         (RetrieveRelevantChunksRequest.query request)
         collected).

Definition get_vector_store_info (self : t) (vector_store_id : option string)
  : M GetVectorStoreInfoResponse.t :=
  do vector_store <- ensure_vector_store self vector_store_id None None;
  ret (GetVectorStoreInfoResponse.mk
         (VectorStore.id vector_store)
         (VectorStore.name vector_store)).

End OpenAIContextStore.

(** ** [server.py]: the three tools *)

Module Server.

(** The arguments of a tool call as they arrive: the fields of the
    request model, and the names of any further keys. *)
Record ToolArguments (A : Type) : Type := mkArguments {
  fields : A;
  extra : list string
}.
Arguments mkArguments {A} fields extra.
Arguments fields {A} _.
Arguments extra {A} _.

(** [ConfigDict(extra="forbid")]: unknown keys fail the validation. *)
Definition forbid_extra {A} (args : ToolArguments A) : Result A :=
  match extra args with
  | [] => Ok (fields args)
  | _ :: _ => Raise (ValidationError "Extra inputs are not permitted")
  end.

Definition ingest_document (store : OpenAIContextStore.t)
    (request : IngestDocumentRequest.t) : M IngestDocumentResponse.t :=
  run ctx_info "Ingesting document into vector store...";
  do result <- OpenAIContextStore.ingest store request;
  run ctx_info
        ("Stored file " +:+ IngestDocumentResponse.file_id result
         +:+ " in vector store " +:+ IngestDocumentResponse.vector_store_id result
         +:+ " with status " +:+ IngestDocumentResponse.status result);
  run log DEBUG "Attributes applied to file %s: %s"
        [ArgStr (IngestDocumentResponse.file_id result);
         ArgAttrs (IngestDocumentResponse.attributes result)];
  ret result.

Definition retrieve_relevant_chunks (store : OpenAIContextStore.t)
    (request : RetrieveRelevantChunksRequest.t)
  : M RetrieveRelevantChunksResponse.t :=
  run ctx_info "Retrieving relevant chunks from vector store...";
  do result <- OpenAIContextStore.retrieve store request;
  run ctx_info
        ("Found "
         +:+ Py.str_of_int
               (Z.of_nat (length (RetrieveRelevantChunksResponse.results result)))
         +:+ " relevant chunks from vector store "
         +:+ RetrieveRelevantChunksResponse.vector_store_id result);
  ret result.

Definition get_vector_store_info (store : OpenAIContextStore.t)
    (vector_store_id : option string) : M GetVectorStoreInfoResponse.t :=
  run ctx_info "Retrieving vector store information...";
  do result <- OpenAIContextStore.get_vector_store_info store vector_store_id;
  run ctx_info
        ("Vector store ID: " +:+ GetVectorStoreInfoResponse.vector_store_id result
         +:+ ", Name: "
         +:+ match Py.present (GetVectorStoreInfoResponse.vector_store_name result) with
             | Some n => n
             | None => "N/A"
             end);
  ret result.

(** A call of the tool [ingest_document]: the request model is built
    from the arguments, then the tool function runs. *)
Definition call_ingest_document (store : OpenAIContextStore.t)
    (args : ToolArguments IngestDocumentRequest.t) : M IngestDocumentResponse.t :=
  match forbid_extra args with
  | Raise e => raise e
  | Ok raw =>
      match IngestDocumentRequest.validate raw with
      | Raise e => raise e
      | Ok request => ingest_document store request
      end
  end.

(** A call of the tool [retrieve_relevant_chunks]. *)
Definition call_retrieve_relevant_chunks (store : OpenAIContextStore.t)
    (args : ToolArguments RetrieveRelevantChunksRequest.t)
  : M RetrieveRelevantChunksResponse.t :=
  match forbid_extra args with
  | Raise e => raise e
  | Ok raw =>
      match RetrieveRelevantChunksRequest.validate raw with
      | Raise e => raise e
      | Ok request => retrieve_relevant_chunks store request
      end
  end.

End Server.

(** ** Observations on worlds, and the wording of the specification *)

(** The calls issued between two worlds, given the earlier one's calls. *)
Definition issued (before : World) (after : World) : list Call :=
  drop (length (calls before)) (calls after).

(** The log records written between two worlds. *)
Definition logged (before : World) (after : World) : list LogRecord :=
  drop (length (logs before)) (logs after).

(** No call of the list is a create call. *)
Definition no_create (cs : list Call) : Prop :=
  Forall (fun c => is_create c = false) cs.

(** The contents of the dict the caller passed as [attributes]
    ([None] reads as no entries). *)
Definition caller_attributes (request : IngestDocumentRequest.t) (w : World)
  : AttributesType :=
  match IngestDocumentRequest.attributes request with
  | Some r => deref (heap w) r
  | None => ∅
  end.

(** The ingestion request with another [document_id], [summary]. *)
Definition with_document_id (v : option string) (r : IngestDocumentRequest.t)
  : IngestDocumentRequest.t :=
  IngestDocumentRequest.mk
    (IngestDocumentRequest.content r) (IngestDocumentRequest.vector_store_id r)
    (IngestDocumentRequest.vector_store_name r) v
    (IngestDocumentRequest.filename r) (IngestDocumentRequest.summary r)
    (IngestDocumentRequest.attributes r) (IngestDocumentRequest.chunking_strategy r)
    (IngestDocumentRequest.mime_type r).

Definition with_summary (v : option string) (r : IngestDocumentRequest.t)
  : IngestDocumentRequest.t :=
  IngestDocumentRequest.mk
    (IngestDocumentRequest.content r) (IngestDocumentRequest.vector_store_id r)
    (IngestDocumentRequest.vector_store_name r) (IngestDocumentRequest.document_id r)
    (IngestDocumentRequest.filename r) v
    (IngestDocumentRequest.attributes r) (IngestDocumentRequest.chunking_strategy r)
    (IngestDocumentRequest.mime_type r).

(** The slug of [_derive_filename]: the summary is lowercased, its
    spaces are replaced with hyphens, and the result is cut to its first
    40 characters. *)
Definition slug_of (summary : string) : string :=
  Py.slice_to 40 (Py.replace " " "-" (Py.lower summary)).

(** The filename [ingest] prepares, for the instant [t] read by the
    derivation: the explicit one, else "{document_id}.txt", else the slug
    of the summary with the timestamp, else the generic one. *)
Definition prepared_filename (request : IngestDocumentRequest.t) (t : Instant)
  : string :=
  match Py.present (IngestDocumentRequest.filename request) with
  | Some explicit => explicit
  | None =>
      match Py.present (IngestDocumentRequest.document_id request) with
      | Some document_id => document_id +:+ ".txt"
      | None =>
          match Py.present (IngestDocumentRequest.summary request) with
          | Some summary =>
              slug_of summary +:+ "-" +:+ Py.str_of_int (unix_seconds t) +:+ ".txt"
          | None => "context-" +:+ Py.str_of_int (unix_seconds t) +:+ ".txt"
          end
      end
  end.

(** The post-filter in the words of the specification: keep the results
    whose score is greater than or equal to the threshold. *)
Definition spec_retained (score_threshold : option float)
    (results : list SearchResult.t) : list SearchResult.t :=
  match score_threshold with
  | None => results
  | Some T => List.filter (fun r => (T <=? SearchResult.score r)%float) results
  end.

(** No listed store carries the name. *)
Definition unlisted (name : string) (pages : list VectorStore.t) : Prop :=
  Forall (fun store => VectorStore.name store <> Some name) pages.

(** The effect of [d.setdefault(key, value)] on the contents of [d]. *)
Definition setdefault (key : string) (value : AttrValue) (d : AttributesType)
  : AttributesType :=
  match d !! key with
  | Some _ => d
  | None => <[key := value]> d
  end.

(** The contents of the dict [attributes] of [ingest] once its three
    [setdefault] calls have run, from the contents it was copied from and
    the instant read for ["ingested_at"]. *)
Definition composed_attributes (request : IngestDocumentRequest.t)
    (caller : AttributesType) (t : Instant) : AttributesType :=
  let a1 :=
    match Py.present (IngestDocumentRequest.document_id request) with
    | Some document_id => setdefault "document_id" (AStr document_id) caller
    | None => caller
    end in
  let a2 :=
    match Py.present (IngestDocumentRequest.summary request) with
    | Some summary => setdefault "summary" (AStr summary) a1
    | None => a1
    end in
  setdefault "ingested_at" (AStr (isoformat t)) a2.

(** Whether [ingest] derives the filename from the clock. *)
Definition derives_from_clock (request : IngestDocumentRequest.t) : bool :=
  match Py.present (IngestDocumentRequest.filename request),
        Py.present (IngestDocumentRequest.document_id request) with
  | None, None => true
  | _, _ => false
  end.

(** The arguments of the upload of [ingest] after a resolution that
    ended in [w1]: the file triple and the composed attributes. *)
Definition upload_file (request : IngestDocumentRequest.t) (w1 : World)
  : FileTypes :=
  OpenAIContextStore._prepare_upload
    (prepared_filename request (clock w1 (ticks w1)))
    (IngestDocumentRequest.content request)
    (IngestDocumentRequest.mime_type request).

Definition upload_attributes (request : IngestDocumentRequest.t) (w1 : World)
  : AttributesType :=
  let w2 := if derives_from_clock request then tick w1 else w1 in
  composed_attributes request (caller_attributes request w1)
    (clock w2 (ticks w2)).

Definition upload_call (request : IngestDocumentRequest.t)
    (vector_store : VectorStore.t) (w1 : World) : Call :=
  CallUploadAndPoll (VectorStore.id vector_store) (upload_file request w1)
    (Some (upload_attributes request w1))
    (IngestDocumentRequest.chunking_strategy request).

(** The world in which that upload has been issued: filename derived,
    attributes composed in a new dict object, upload logged and called. *)
Definition uploaded (request : IngestDocumentRequest.t)
    (vector_store : VectorStore.t) (w1 : World) : World :=
  let w2 := if derives_from_clock request then tick w1 else w1 in
  add_call (upload_call request vector_store w1)
    (add_log
       (Log INFO "Uploading document %s to vector store %s"
          [ArgStr (prepared_filename request (clock w1 (ticks w1)));
           ArgStr (VectorStore.id vector_store)])
       (tick (set_heap (heap w1 ++ [upload_attributes request w1]) w2))).

(** The metadata [ingest] passes to the resolution. *)
Definition ingest_metadata (request : IngestDocumentRequest.t)
  : option AttributesType :=
  match Py.present (IngestDocumentRequest.vector_store_name request) with
  | Some _ => Some ∅
  | None => None
  end.

(** The name that resolution looks up, when it is name-based: the
    request's name when no id is given, else (no id, no name, no default
    id) the default name. *)
Definition looked_up_name (self : OpenAIContextStore.t)
    (vector_store_id vector_store_name : option string) : option string :=
  match Py.present vector_store_id with
  | Some _ => None
  | None =>
      match Py.present vector_store_name with
      | Some name => Some name
      | None =>
          match Py.present
                  (Settings.default_vector_store_id
                     (OpenAIContextStore._settings self)) with
          | Some _ => None
          | None =>
              Py.present
                (Settings.default_vector_store_name
                   (OpenAIContextStore._settings self))
          end
      end
  end.

(** "Fetch the store by id": the outcome is the answer of the remote
    retrieve, and that is the only call issued. *)
Definition fetches (self : OpenAIContextStore.t) (id : string) (w : World)
    (outcome : Result VectorStore.t * World) : Prop :=
  fst outcome =
    OpenAI.vector_stores_retrieve (OpenAIContextStore._client self) (calls w) id /\
  issued w (snd outcome) = [CallRetrieve id].

(** "Find or create the store by name", for a listing that yields the
    stores [pages] and ends: the first listed store of exactly that name is returned
    after the list call alone; when no listed store has the name, the
    outcome is the answer of a create call with that name and metadata. *)
Definition finds_or_creates (self : OpenAIContextStore.t) (name : string)
    (metadata : option AttributesType) (pages : list VectorStore.t) (w : World)
    (outcome : Result VectorStore.t * World) : Prop :=
  (forall before store after,
     pages = before ++ store :: after ->
     VectorStore.name store = Some name ->
     unlisted name before ->
     fst outcome = Ok store /\
     issued w (snd outcome) = [CallList 100 "desc"]) /\
  (unlisted name pages ->
   fst outcome =
     OpenAI.vector_stores_create (OpenAIContextStore._client self)
       (calls w ++ [CallList 100 "desc"]) name metadata /\
   issued w (snd outcome) = [CallList 100 "desc"; CallCreate name metadata]).

(** The results the loop of [retrieve] keeps: those that do not take
    its [continue]. *)
Definition kept (score_threshold : option float)
    (results : list SearchResult.t) : list SearchResult.t :=
  List.filter
    (fun r => negb (OpenAIContextStore.below_threshold score_threshold r))
    results.

(** The search call of [retrieve] on the resolved store. *)
Definition search_call (self : OpenAIContextStore.t)
    (request : RetrieveRelevantChunksRequest.t) (vector_store : VectorStore.t)
  : Call :=
  CallSearch (VectorStore.id vector_store)
    (RetrieveRelevantChunksRequest.query request)
    (match RetrieveRelevantChunksRequest.max_results request with
     | Some n =>
         if (n =? 0)%Z
         then Settings.default_max_results (OpenAIContextStore._settings self)
         else n
     | None => Settings.default_max_results (OpenAIContextStore._settings self)
     end)
    (match RetrieveRelevantChunksRequest.attributes_filter request with
     | Some f => if dict_truthy f then Some f else None
     | None => None
     end)
    (RetrieveRelevantChunksRequest.rewrite_query request).

(** The answer of the remote to a search call, after the calls [past]. *)
Definition search_answer (self : OpenAIContextStore.t) (past : list Call)
    (c : Call) : Result (list SearchResult.t) :=
  match c with
  | CallSearch id query max_num_results filters rewrite_query =>
      OpenAI.vector_stores_search (OpenAIContextStore._client self) past
        id query max_num_results filters rewrite_query
  | _ => Ok []
  end.

Definition is_upload (c : Call) : bool :=
  match c with CallUploadAndPoll _ _ _ _ => true | _ => false end.

(** The [attributes] argument of every upload call of a trace. *)
Definition uploaded_attributes (cs : list Call) : list (option AttributesType) :=
  flat_map
    (fun c =>
       match c with
       | CallUploadAndPoll _ _ attributes _ => [attributes]
       | _ => []
       end) cs.

(** The value under [key] in the attributes of every upload call of a
    trace ([None] for an upload without attributes or without the key). *)
Definition uploaded_values (key : string) (cs : list Call)
  : list (option AttrValue) :=
  map (fun attributes =>
         match attributes with
         | Some d => d !! key
         | None => None
         end)
      (uploaded_attributes cs).

Definition is_ok {A} (r : Result A) : bool :=
  match r with Ok _ => true | Raise _ => false end.

(** The names of the stores a trace asks the remote to create. *)
Definition created_names (cs : list Call) : list string :=
  flat_map
    (fun c =>
       match c with
       | CallCreate name _ => [name]
       | _ => []
       end) cs.

(** ** A small remote, for concrete runs *)

Module Example.

Definition find_by_id (stores : list VectorStore.t) (id : string)
  : Result VectorStore.t :=
  match List.find (fun s => String.eqb (VectorStore.id s) id) stores with
  | Some s => Ok s
  | None => Raise (RemoteError "NotFoundError" ("No vector store found with id " +:+ id))
  end.

(** A remote holding [stores]; creation answers a store of the asked
    name, uploads complete and echo their attributes, every search
    answers [results]. *)
Definition client (stores : list VectorStore.t) (results : list SearchResult.t)
  : OpenAI.t :=
  OpenAI.mk
    (fun _ id => find_by_id stores id)
    (fun _ _ _ => Ok (complete stores))
    (fun _ name _ => Ok (VectorStore.mk ("vs_" +:+ name) (Some name)))
    (fun _ _ _ attributes _ =>
       Ok (VectorStoreFile.mk "file_1" "completed" attributes))
    (fun _ _ _ _ _ _ => Ok results).


(** The same remote with a listing that yields [stores] and then breaks:
    the list call answers, the fetch of the next page fails. *)
Definition client_list_broken (stores : list VectorStore.t) : OpenAI.t :=
  OpenAI.mk
    (fun _ id => find_by_id stores id)
    (fun _ _ _ =>
       Ok (broken_after stores
             (RemoteError "APIConnectionError" "Connection error.")))
    (fun _ name _ => Ok (VectorStore.mk ("vs_" +:+ name) (Some name)))
    (fun _ _ _ attributes _ =>
       Ok (VectorStoreFile.mk "file_1" "completed" attributes))
    (fun _ _ _ _ _ _ => Ok []).

Definition no_defaults : Settings.t := Settings.mk None None 10.
Definition default_docs : Settings.t := Settings.mk None (Some "docs") 10.
Definition default_id_7 : Settings.t := Settings.mk (Some "vs_7") (Some "docs") 10.

Definition vs_7 : VectorStore.t := VectorStore.mk "vs_7" (Some "seven").
Definition vs_Docs : VectorStore.t := VectorStore.mk "vs_1" (Some "Docs").
Definition vs_docs : VectorStore.t := VectorStore.mk "vs_2" (Some "docs").
Definition vs_docs_older : VectorStore.t := VectorStore.mk "vs_3" (Some "docs").

(** Three stores as the remote lists them, newest first. *)
Definition listing : list VectorStore.t := [vs_Docs; vs_docs; vs_docs_older].

Definition clock (n : nat) : Instant :=
  mkInstant (1700000000 + Z.of_nat n) "2023-11-14T22:13:20+00:00".

Definition world (heap : list AttributesType) : World :=
  mkWorld heap [] [] clock 0.

(** [IngestDocumentRequest(content="Hello world", ...)] *)
Definition hello : IngestDocumentRequest.t :=
  IngestDocumentRequest.mk "Hello world" None None None None None None None
    "text/plain".

Definition hello_named (name : string) : IngestDocumentRequest.t :=
  IngestDocumentRequest.mk "Hello world" None (Some name) None None None None None
    "text/plain".

(** The same request with [attributes] pointing at dict object 0. *)
Definition hello_tagged : IngestDocumentRequest.t :=
  IngestDocumentRequest.mk "Hello world" None None (Some "doc1")
    None (Some "Release Notes") (Some 0%nat) None "text/plain".

Definition caller_dict : AttributesType :=
  <["ingested_at" := AStr "1999-12-31T00:00:00+00:00"]>
    (<["document_id" := AStr "mine"]> ∅).

Definition auth (max_results : option Z) (score_threshold : option float)
  : RetrieveRelevantChunksRequest.t :=
  RetrieveRelevantChunksRequest.mk "auth" None max_results score_threshold
    None None.

(** A request with a summary longer than 40 characters and no
    [document_id]. *)
Definition hello_summary : IngestDocumentRequest.t :=
  IngestDocumentRequest.mk "Hello world" None None None None
    (Some "Release Notes For The Spring Edition Of The Handbook") None None
    "text/plain".

(** A request with an explicit filename. *)
Definition hello_file : IngestDocumentRequest.t :=
  IngestDocumentRequest.mk "Hello world" None None (Some "doc1")
    (Some "notes.md") (Some "Release Notes") None None "text/plain".

(** The store of the scenario: default name "docs", one store "Docs"
    listed. *)
Definition docs_store : OpenAIContextStore.t :=
  OpenAIContextStore.mk default_docs (client [vs_Docs] []).

(** The store the scenario creates. *)
Definition created_docs : VectorStore.t :=
  VectorStore.mk "vs_docs" (Some "docs").

(** A retrieval request with the given query and result cap. *)
Definition query_of (query : string) (max_results : option Z)
  : RetrieveRelevantChunksRequest.t :=
  RetrieveRelevantChunksRequest.mk query None max_results None None None.

(** [content] of white space only: a space, a tab and a line feed. *)
Definition blank_document : IngestDocumentRequest.t :=
  IngestDocumentRequest.mk
    (String " " (String (ascii_of_N 9) (String (ascii_of_N 10) EmptyString)))
    None None None None None None None "text/plain".

Definition hit (file_id : string) (score : float) : SearchResult.t :=
  SearchResult.mk file_id (file_id +:+ ".txt") score
    [Content.mk "text" "alpha"; Content.mk "image" "skipped";
     Content.mk "text" "beta"] None.

End Example.

(** ** Further observations *)

Definition is_search (c : Call) : bool :=
  match c with CallSearch _ _ _ _ _ => true | _ => false end.

(** The stores a trace asks the remote to create: name and metadata. *)
Definition created (cs : list Call) : list (string * option AttributesType) :=
  flat_map
    (fun c =>
       match c with
       | CallCreate name metadata => [(name, metadata)]
       | _ => []
       end) cs.

(** What a name-based resolution creates, given the answer of the list
    call: the name with the metadata passed in when the call fails or its
    listing ends without a store of the name; nothing when the listing
    yields such a store, and nothing when it breaks before one. *)
Definition creation_due (name : string) (metadata : option AttributesType)
    (listing : Result Pages)
  : list (string * option AttributesType) :=
  match listing with
  | Ok pages =>
      match OpenAIContextStore.first_named pages name with
      | Ok (Some _) => []
      | Ok None => [(name, metadata)]
      | Raise _ => []
      end
  | Raise _ => [(name, metadata)]
  end.

(** Two worlds that differ at most in their logs. *)
Definition same_effects (w1 w2 : World) : Prop :=
  heap w1 = heap w2 /\ calls w1 = calls w2 /\
  clock w1 = clock w2 /\ ticks w1 = ticks w2.

(** A computation whose result and effects do not depend on the log. *)
Definition log_blind {A} (m : M A) : Prop :=
  forall w1 w2,
    same_effects w1 w2 ->
    fst (m w1) = fst (m w2) /\ same_effects (snd (m w1)) (snd (m w2)).

(** [chunk.type == "text"] *)
Definition is_text (chunk : Content.t) : bool :=
  String.eqb (Content.type chunk) "text".

(** The character occurs in the string. *)
Fixpoint occurs (c : ascii) (s : string) : bool :=
  match s with
  | EmptyString => false
  | String c' s' => Ascii.eqb c' c || occurs c s'
  end.

(** ** More remotes, for concrete runs *)

Module Fixture.

(** A remote that holds the given stores and whose uploads end with the
    given status, attributes echoed. *)
Definition client_with_status (stores : list VectorStore.t) (status : string)
  : OpenAI.t :=
  OpenAI.mk
    (fun _ id => Example.find_by_id stores id)
    (fun _ _ _ => Ok (complete stores))
    (fun _ name _ => Ok (VectorStore.mk ("vs_" +:+ name) (Some name)))
    (fun _ _ _ attributes _ => Ok (VectorStoreFile.mk "file_9" status attributes))
    (fun _ _ _ _ _ _ => Ok []).

(** A remote whose uploads and searches fail. *)
Definition client_down (stores : list VectorStore.t) : OpenAI.t :=
  OpenAI.mk
    (fun _ id => Example.find_by_id stores id)
    (fun _ _ _ => Ok (complete stores))
    (fun _ name _ => Ok (VectorStore.mk ("vs_" +:+ name) (Some name)))
    (fun _ _ _ _ _ => Raise (RemoteError "APITimeoutError" "Request timed out."))
    (fun _ _ _ _ _ _ =>
       Raise (RemoteError "APITimeoutError" "Request timed out.")).

(** The store "vs_7" behind a remote that knows it. *)
Definition seven (client : OpenAI.t) : OpenAIContextStore.t :=
  OpenAIContextStore.mk Example.default_id_7 client.

End Fixture.

(** ** Summaries with code points from U+0100 on *)

(** The strings of the embedding hold code points below U+0100, and on
    them [str.lower] maps every character to one character. From U+0100
    on this is no longer so: the lowercase of U+0130, LATIN CAPITAL LETTER
    I WITH DOT ABOVE, is the two code points U+0069 U+0307. This module
    has the string operations of [_derive_filename] on sequences of
    arbitrary code points, to evaluate its slug on such summaries. *)
Module Wide.

Definition str : Type := list N.

(** The code points of a string of the embedding. *)
Definition of_string (s : string) : str :=
  map N_of_ascii (list_ascii_of_string s).

(** The lowercase of one code point: that of [Py.lower_char] below
    U+0100, and U+0069 U+0307 for U+0130. No other code point occurs in
    the summaries evaluated here; it would be left as it is. *)
Definition lower_point (c : N) : list N :=
  if (c <? 256)%N then [N_of_ascii (Py.lower_char (ascii_of_N c))]
  else if (c =? 304)%N then [105; 775]%N
  else [c].

(** [s.lower()] *)
Definition lower (s : str) : str := flat_map lower_point s.

(** [s.replace(old, new)] for single-character [old] and [new]. *)
Definition replace (old new : N) (s : str) : str :=
  map (fun c => if (c =? old)%N then new else c) s.

(** [s[:n]] *)
Definition slice_to (n : nat) (s : str) : str := take n s.

(** The slug of [_derive_filename]:
    [request.summary.lower().replace(" ", "-")[:40]]. *)
Definition slug_of (summary : str) : str :=
  slice_to 40 (replace 32 45 (lower summary)).

(** The slug in the words of the specification: the first 40 characters
    of the summary, lowercased, spaces replaced with hyphens. *)
Definition spec_slug (summary : str) : str :=
  replace 32 45 (lower (slice_to 40 summary)).

(** The name [_derive_filename] builds from a slug and the instant it
    reads: [f"{slug or 'context'}-{int(t.timestamp())}.txt"]. *)
Definition derived_name (slug : str) (t : Instant) : str :=
  match slug with
  | [] => of_string "context"
  | _ :: _ => slug
  end ++ of_string ("-" +:+ Py.str_of_int (unix_seconds t) +:+ ".txt").

End Wide.

(** * Properties *)

(** ** Strings *)

Lemma present_Some (o : option string) (s : string) :
  Py.present o = Some s -> o = Some s /\ Py.str_truthy s = true.
Proof.
  destruct o as [x|]; simpl; [|discriminate].
  destruct (Py.str_truthy x) eqn:E; [|discriminate].
  intros [= ->]. auto.
Qed.

Lemma present_None (o : option string) :
  Py.present o = None <-> o = None \/ o = Some "".
Proof.
  destruct o as [[|c x]|]; simpl; split; intros H; auto;
    try discriminate; destruct H; discriminate.
Qed.

Lemma truthy_nonempty (s : string) : Py.str_truthy s = true <-> s <> "".
Proof. destruct s; simpl; split; intros; congruence. Qed.

Lemma str_or_truthy (s d : string) : Py.str_truthy s = true -> Py.str_or s d = s.
Proof. unfold Py.str_or. now intros ->. Qed.

Lemma lstrip_cases (s : string) :
  (Py.lstrip s = "" /\ Py.all_space s = true) \/
  (exists c r, Py.lstrip s = String c r /\ Py.isspace c = false /\
               Py.all_space s = false).
Proof.
  induction s as [|c s IH]; simpl.
  - left. auto.
  - destruct (Py.isspace c) eqn:E; simpl.
    + exact IH.
    + right. exists c, s. auto.
Qed.

Lemma rstrip_keeps_head (c : ascii) (r : string) :
  Py.isspace c = false -> Py.rstrip (String c r) <> "".
Proof.
  intros E. simpl. destruct (Py.rstrip r); [rewrite E|]; discriminate.
Qed.

(** [s.strip()] is empty exactly when [s] consists of white space only. *)
Lemma strip_empty_iff (s : string) :
  Py.str_truthy (Py.strip s) = false <-> Py.all_space s = true.
Proof.
  unfold Py.strip.
  destruct (lstrip_cases s) as [[-> ->]|(c & r & -> & E & ->)]; simpl.
  - tauto.
  - split; [|discriminate].
    intros H. exfalso. apply (rstrip_keeps_head c r E).
    simpl in *. destruct (Py.rstrip r); [rewrite E in *|]; simpl in H;
      discriminate.
Qed.

(** The slug of a non-empty summary is not empty: the [or 'context'] of
    [_derive_filename] never applies. *)
Lemma slug_truthy (s : string) :
  Py.str_truthy s = true -> Py.str_truthy (slug_of s) = true.
Proof. destruct s; simpl; [discriminate | reflexivity]. Qed.

(** On the strings of the embedding the operations on code points are
    those of [Py]. *)
Lemma wide_lower (s : string) :
  Wide.lower (Wide.of_string s) = Wide.of_string (Py.lower s).
Proof.
  unfold Wide.lower, Wide.of_string.
  induction s as [|c s IH]; simpl; [reflexivity|].
  rewrite IH. unfold Wide.lower_point.
  pose proof (N_ascii_bounded c) as Hc. apply N.ltb_lt in Hc. rewrite Hc.
  now rewrite ascii_N_embedding.
Qed.

Lemma wide_replace (old new : ascii) (s : string) :
  Wide.replace (N_of_ascii old) (N_of_ascii new) (Wide.of_string s) =
  Wide.of_string (Py.replace old new s).
Proof.
  unfold Wide.replace, Wide.of_string.
  induction s as [|c s IH]; simpl; [reflexivity|].
  rewrite IH. f_equal.
  destruct (Ascii.eqb_spec c old) as [->|Hne].
  - now rewrite N.eqb_refl.
  - destruct (N.eqb_spec (N_of_ascii c) (N_of_ascii old)) as [E|_];
      [|reflexivity].
    exfalso. apply Hne.
    now rewrite <- (ascii_N_embedding c), E, ascii_N_embedding.
Qed.

Lemma wide_slice_to (n : nat) (s : string) :
  Wide.slice_to n (Wide.of_string s) = Wide.of_string (Py.slice_to n s).
Proof.
  unfold Wide.slice_to, Wide.of_string.
  revert s. induction n as [|n IH]; intros [|c s]; simpl; try reflexivity.
  now rewrite IH.
Qed.

Lemma wide_slug_of (s : string) :
  Wide.slug_of (Wide.of_string s) = Wide.of_string (slug_of s).
Proof.
  unfold Wide.slug_of, slug_of.
  now rewrite wide_lower, (wide_replace " " "-"), wide_slice_to.
Qed.

Lemma wide_of_string_app (a b : string) :
  Wide.of_string (a +:+ b) = Wide.of_string a ++ Wide.of_string b.
Proof.
  unfold Wide.of_string. induction a as [|c a IH]; [reflexivity|].
  change (String c a +:+ b) with (String c (a +:+ b)). simpl. now rewrite IH.
Qed.

(** The name [_derive_filename] gives a request with a summary and no
    [document_id] is, code point by code point, the name built from the
    slug on code points. *)
Lemma wide_derive_filename (request : IngestDocumentRequest.t) (w : World)
    (summary : string) :
  Py.present (IngestDocumentRequest.document_id request) = None ->
  Py.present (IngestDocumentRequest.summary request) = Some summary ->
  exists name,
    fst (OpenAIContextStore._derive_filename request w) = Ok name /\
    Wide.of_string name =
    Wide.derived_name (Wide.slug_of (Wide.of_string summary))
      (clock w (ticks w)).
Proof.
  intros Hd Hs. unfold OpenAIContextStore._derive_filename.
  rewrite Hd, Hs. apply present_Some in Hs as [_ Hs].
  unfold bind, now, ret. simpl. fold (slug_of summary).
  pose proof (slug_truthy summary Hs) as Ht.
  rewrite (str_or_truthy _ _ Ht).
  eexists. split; [reflexivity|].
  rewrite wide_of_string_app, wide_slug_of. unfold Wide.derived_name.
  destruct (slug_of summary) as [|c s]; [discriminate|]. reflexivity.
Qed.

(** Below U+0100 the order of cutting and lowercasing makes no
    difference: there the slug of the code is the slug of the
    specification. *)
Lemma wide_slug_below_U0100 (s : string) :
  Wide.spec_slug (Wide.of_string s) = Wide.slug_of (Wide.of_string s).
Proof.
  unfold Wide.spec_slug, Wide.slug_of.
  rewrite wide_slice_to, !wide_lower, !(wide_replace " " "-"), wide_slice_to.
  f_equal. generalize 40%nat. intros n. revert s.
  induction n as [|n IH]; intros [|c s]; simpl; try reflexivity.
  now rewrite IH.
Qed.

Lemma string_app_length (a b : string) :
  String.length (a +:+ b) = (String.length a + String.length b)%nat.
Proof. induction a; simpl; auto. Qed.

(** ** The listing loop *)

Lemma name_matches_iff (store : VectorStore.t) (name : string) :
  OpenAIContextStore.name_matches store name = true <->
  VectorStore.name store = Some name.
Proof.
  unfold OpenAIContextStore.name_matches.
  destruct (VectorStore.name store) as [n|]; [|split; discriminate].
  rewrite String.eqb_eq. split; congruence.
Qed.

(** The loop passes over the stores that do not carry the name. *)
Lemma first_named_prepend (before : list VectorStore.t) (rest : Pages)
    (name : string) :
  unlisted name before ->
  OpenAIContextStore.first_named (prepend before rest) name =
  OpenAIContextStore.first_named rest name.
Proof.
  unfold unlisted. induction before as [|s before IH]; simpl; [reflexivity|].
  intros H. inversion H as [|? ? Hs Hb]; subst.
  destruct (OpenAIContextStore.name_matches s name) eqn:E; [|now apply IH].
  apply name_matches_iff in E. contradiction.
Qed.

Lemma first_named_here (store : VectorStore.t) (rest : Pages) (name : string) :
  VectorStore.name store = Some name ->
  OpenAIContextStore.first_named (PagesStore store rest) name = Ok (Some store).
Proof. intros H. apply name_matches_iff in H. simpl. now rewrite H. Qed.

(** Every listing is, for a given name, of one of three forms: it yields
    a store of the name after stores without it, it ends after stores
    without it, or it breaks after stores without it. *)
Lemma pages_cases (pages : Pages) (name : string) :
  (exists before store rest,
     pages = prepend before (PagesStore store rest) /\
     VectorStore.name store = Some name /\ unlisted name before) \/
  (exists stores, pages = complete stores /\ unlisted name stores) \/
  (exists stores exc, pages = broken_after stores exc /\ unlisted name stores).
Proof.
  unfold complete, broken_after, unlisted.
  induction pages as [|s pages IH|exc].
  - right. left. exists []. split; [reflexivity | constructor].
  - destruct (VectorStore.name s) as [n|] eqn:En.
    + destruct (String.eqb n name) eqn:E.
      * apply String.eqb_eq in E. subst n.
        left. exists [], s, pages. repeat split; [exact En | constructor].
      * apply String.eqb_neq in E.
        assert (Hs : VectorStore.name s <> Some name) by congruence.
        destruct IH as [(b & st & r & -> & Hn & Hb)|[(ss & -> & Hu)|(ss & e & -> & Hu)]].
        -- left. exists (s :: b), st, r. repeat split; auto.
        -- right. left. exists (s :: ss). split; auto.
        -- right. right. exists (s :: ss), e. split; auto.
    + assert (Hs : VectorStore.name s <> Some name) by congruence.
      destruct IH as [(b & st & r & -> & Hn & Hb)|[(ss & -> & Hu)|(ss & e & -> & Hu)]].
      * left. exists (s :: b), st, r. repeat split; auto.
      * right. left. exists (s :: ss). split; auto.
      * right. right. exists (s :: ss), e. split; auto.
  - right. right. exists [], exc. split; [reflexivity | constructor].
Qed.

Lemma first_named_None (pages : list VectorStore.t) (name : string) :
  OpenAIContextStore.first_named (complete pages) name = Ok None <->
  unlisted name pages.
Proof.
  unfold unlisted, complete. induction pages as [|s pages IH]; simpl.
  - split; auto.
  - destruct (OpenAIContextStore.name_matches s name) eqn:E.
    + split; [discriminate|]. intros H. inversion H as [|? ? Hs _]; subst.
      apply name_matches_iff in E. contradiction.
    + rewrite IH. split.
      * intros H. constructor; [|exact H]. intros Hn.
        apply name_matches_iff in Hn. congruence.
      * intros H. now inversion H.
Qed.

(** The store found is the first one, in listing order, whose name is
    the requested one. *)
Lemma first_named_Some (pages : list VectorStore.t) (name : string)
    (store : VectorStore.t) :
  OpenAIContextStore.first_named (complete pages) name = Ok (Some store) <->
  exists before after,
    pages = before ++ store :: after /\
    VectorStore.name store = Some name /\
    unlisted name before.
Proof.
  unfold complete. induction pages as [|s pages IH]; simpl.
  - split; [discriminate|]. intros (b & a & H & _). now destruct b.
  - destruct (OpenAIContextStore.name_matches s name) eqn:E.
    + split.
      * intros [= ->]. exists [], pages. repeat split.
        -- now apply name_matches_iff.
        -- constructor.
      * intros ([|b0 b] & a & H & Hn & Hb); simpl in H.
        -- congruence.
        -- injection H as -> ->. inversion Hb as [|? ? Hs _]; subst.
           apply name_matches_iff in E. contradiction.
    + rewrite IH. split.
      * intros (b & a & -> & Hn & Hb). exists (s :: b), a. repeat split; auto.
        constructor; [|exact Hb]. intros Hs. apply name_matches_iff in Hs.
        congruence.
      * intros ([|b0 b] & a & H & Hn & Hb); simpl in H.
        -- injection H as -> ->. apply name_matches_iff in Hn. congruence.
        -- injection H as -> ->. exists b, a. repeat split; auto.
           now inversion Hb.
Qed.

(** ** Running the monad *)

Lemma bind_ok {A B} (m : M A) (k : A -> M B) (w w' : World) (a : A) :
  m w = (Ok a, w') -> bind m k w = k a w'.
Proof. unfold bind. now intros ->. Qed.

Lemma bind_raise {A B} (m : M A) (k : A -> M B) (w w' : World) (e : Exn) :
  m w = (Raise e, w') -> bind m k w = (Raise e, w').
Proof. unfold bind. now intros ->. Qed.

Lemma issued_app (w w' : World) (cs : list Call) :
  calls w' = calls w ++ cs -> issued w w' = cs.
Proof. unfold issued. intros ->. apply drop_app_length. Qed.

Lemma logged_app (w w' : World) (rs : list LogRecord) :
  logs w' = logs w ++ rs -> logged w w' = rs.
Proof. unfold logged. intros ->. apply drop_app_length. Qed.

(** ** Dict objects *)

Lemma setdefault_present (key : string) (value x : AttrValue) (d : AttributesType) :
  d !! key = Some x -> setdefault key value d = d.
Proof. unfold setdefault. now intros ->. Qed.

Lemma setdefault_absent (key : string) (value : AttrValue) (d : AttributesType) :
  d !! key = None -> setdefault key value d !! key = Some value.
Proof. unfold setdefault. intros H. rewrite H. apply lookup_insert_eq. Qed.

(** [setdefault] never changes an entry that is there. *)
Lemma setdefault_keeps (key k : string) (value x : AttrValue) (d : AttributesType) :
  d !! k = Some x -> setdefault key value d !! k = Some x.
Proof.
  unfold setdefault. intros H. destruct (d !! key) eqn:E; [exact H|].
  rewrite lookup_insert_ne; [exact H|]. intros ->. congruence.
Qed.

Lemma setdefault_other (key k : string) (value : AttrValue) (d : AttributesType) :
  key <> k -> setdefault key value d !! k = d !! k.
Proof.
  unfold setdefault. intros H. destruct (d !! key); [reflexivity|].
  now apply lookup_insert_ne.
Qed.

Lemma setdefault_is_Some (key : string) (value : AttrValue) (d : AttributesType) :
  is_Some (setdefault key value d !! key).
Proof.
  destruct (d !! key) as [x|] eqn:E.
  - exists x. now apply setdefault_keeps.
  - exists value. now apply setdefault_absent.
Qed.

Lemma setdefault_nonempty (key : string) (value : AttrValue) (d : AttributesType) :
  setdefault key value d <> ∅.
Proof.
  intros H. destruct (setdefault_is_Some key value d) as [x Hx].
  rewrite H in Hx. now rewrite lookup_empty in Hx.
Qed.

Lemma deref_last (h : list AttributesType) (d : AttributesType) :
  deref (h ++ [d]) (length h) = d.
Proof. unfold deref. now rewrite list_lookup_middle. Qed.

Lemma insert_last (h : list AttributesType) (d d' : AttributesType) :
  <[length h := d']> (h ++ [d]) = h ++ [d'].
Proof.
  replace (length h) with (length h + 0)%nat by lia.
  now rewrite insert_app_r.
Qed.

Lemma dict_setdefault_last (h : list AttributesType) (d : AttributesType)
    (key : string) (value : AttrValue) (w : World) :
  heap w = h ++ [d] ->
  dict_setdefault (length h) key value w =
  (Ok tt, set_heap (h ++ [setdefault key value d]) w).
Proof.
  intros H. unfold dict_setdefault, setdefault. rewrite H, deref_last.
  destruct (d !! key); [|now rewrite insert_last].
  f_equal. destruct w; simpl in *. now subst.
Qed.

Lemma copy_attributes_run (request : IngestDocumentRequest.t) (w : World) :
  OpenAIContextStore.copy_attributes request w =
  (Ok (length (heap w)), set_heap (heap w ++ [caller_attributes request w]) w).
Proof.
  unfold OpenAIContextStore.copy_attributes, caller_attributes.
  destruct (IngestDocumentRequest.attributes request) as [r|]; [|reflexivity].
  unfold bind, dict_read, dict_truthy. simpl.
  case_bool_decide as E; simpl; [|reflexivity].
  unfold dict_new. now rewrite E.
Qed.

Lemma composed_nonempty (request : IngestDocumentRequest.t)
    (caller : AttributesType) (t : Instant) :
  OpenAIContextStore.or_none (composed_attributes request caller t) =
  Some (composed_attributes request caller t).
Proof.
  unfold OpenAIContextStore.or_none, dict_truthy.
  case_bool_decide as E; [|reflexivity].
  now apply setdefault_nonempty in E.
Qed.

(** ** Closed forms of the methods *)

Lemma find_run (self : OpenAIContextStore.t) (name : string) (w : World) :
  OpenAIContextStore._find_vector_store_by_name self name w =
  match OpenAI.vector_stores_list (OpenAIContextStore._client self)
          (calls w) 100 "desc" with
  | Ok pages =>
      (OpenAIContextStore.first_named pages name,
       add_call (CallList 100 "desc") w)
  | Raise exc =>
      (Ok None,
       add_log (Log WARNING "Failed to list vector stores: %s"
                  [ArgStr (str_of_exn exc)])
         (add_call (CallList 100 "desc") w))
  end.
Proof.
  unfold OpenAIContextStore._find_vector_store_by_name, bind, try_except,
    OpenAIContextStore.client_list, remote.
  now destruct (OpenAI.vector_stores_list _ _ _ _).
Qed.

(** Resolution touches neither the heap nor the clock, and only adds to
    the calls and to the log. *)
Lemma ensure_frame (self : OpenAIContextStore.t)
    (vector_store_id vector_store_name : option string)
    (metadata : option AttributesType) (w w' : World)
    (r : Result VectorStore.t) :
  OpenAIContextStore.ensure_vector_store self vector_store_id vector_store_name
    metadata w = (r, w') ->
  heap w' = heap w /\ clock w' = clock w /\ ticks w' = ticks w /\
  calls w' = calls w ++ issued w w' /\ logs w' = logs w ++ logged w w'.
Proof.
  unfold OpenAIContextStore.ensure_vector_store.
  assert (Hfc : forall n fmt w0 (r0 : Result VectorStore.t) w0',
    (do existing <- OpenAIContextStore._find_vector_store_by_name self n;
     match existing with
     | Some store => ret store
     | None =>
         run log INFO fmt [ArgStr n];
         OpenAIContextStore.client_create self n metadata
     end) w0 = (r0, w0') ->
    heap w0' = heap w0 /\ clock w0' = clock w0 /\ ticks w0' = ticks w0 /\
    (exists cs, calls w0' = calls w0 ++ cs) /\
    (exists ls, logs w0' = logs w0 ++ ls)).
  { intros n fmt w0 r0 w0'. unfold bind at 1. rewrite find_run.
    destruct (OpenAI.vector_stores_list _ _ _ _) as [pages|exc].
    - unfold lift. destruct (OpenAIContextStore.first_named pages n) as [[store|]|e].
      + intros [= <- <-]; simpl. repeat split; eauto.
        exists []. now rewrite app_nil_r.
      + intros [= <- <-]; simpl. repeat split; eauto.
        rewrite <- app_assoc. eauto.
      + intros [= <- <-]; simpl. repeat split; eauto.
        exists []. now rewrite app_nil_r.
    - intros [= <- <-]; simpl. repeat split.
      + rewrite <- app_assoc. eauto.
      + rewrite <- app_assoc. eauto. }
  assert (Hend : heap w' = heap w /\ clock w' = clock w /\ ticks w' = ticks w /\
    (exists cs, calls w' = calls w ++ cs) /\
    (exists ls, logs w' = logs w ++ ls) ->
    heap w' = heap w /\ clock w' = clock w /\ ticks w' = ticks w /\
    calls w' = calls w ++ issued w w' /\ logs w' = logs w ++ logged w w').
  { intros (? & ? & ? & [cs Hc] & [ls Hl]). repeat split; auto.
    - now rewrite (issued_app _ _ _ Hc).
    - now rewrite (logged_app _ _ _ Hl). }
  intros H. apply Hend. clear Hend. revert H.
  destruct (Py.present vector_store_id) as [id|].
  { intros [= <- <-]; simpl. repeat split; eauto. }
  destruct (Py.present vector_store_name) as [name|].
  { unfold bind at 1. simpl. intros H.
    destruct (Hfc name _ (add_log (Log DEBUG
      "Attempting to locate vector store named %s" [ArgStr name]) w) r w' H)
      as (? & ? & ? & [cs Hc] & [ls Hl]); simpl in *.
    repeat split; eauto. rewrite <- app_assoc in Hl. eauto. }
  destruct (Py.present (Settings.default_vector_store_id _)) as [fid|].
  { intros [= <- <-]; simpl. repeat split; eauto. }
  destruct (Py.present (Settings.default_vector_store_name _)) as [fname|].
  { unfold bind at 1. simpl. intros H.
    destruct (Hfc fname _ (add_log (Log DEBUG
      "Attempting to locate default vector store named %s" [ArgStr fname]) w)
      r w' H) as (? & ? & ? & [cs Hc] & [ls Hl]); simpl in *.
    repeat split; eauto. rewrite <- app_assoc in Hl. eauto. }
  intros [= <- <-]. repeat split; auto.
  - exists []. now rewrite app_nil_r.
  - exists []. now rewrite app_nil_r.
Qed.

Lemma filename_run (request : IngestDocumentRequest.t) (w : World) :
  match Py.present (IngestDocumentRequest.filename request) with
  | Some f => ret f
  | None => OpenAIContextStore._derive_filename request
  end w =
  (Ok (prepared_filename request (clock w (ticks w))),
   if derives_from_clock request then tick w else w).
Proof.
  unfold prepared_filename, derives_from_clock, OpenAIContextStore._derive_filename.
  destruct (Py.present (IngestDocumentRequest.filename request)); [reflexivity|].
  destruct (Py.present (IngestDocumentRequest.document_id request));
    [reflexivity|].
  destruct (Py.present (IngestDocumentRequest.summary request)) as [s|] eqn:E;
    [|reflexivity].
  apply present_Some in E as [_ E].
  unfold bind, now, ret. simpl. fold (slug_of s).
  now rewrite (str_or_truthy _ _ (slug_truthy s E)).
Qed.

Lemma maybe_setdefault_run (h : list AttributesType) (d : AttributesType)
    (key : string) (o : option string) (w : World) :
  heap w = h ++ [d] ->
  match o with
  | Some x => dict_setdefault (length h) key (AStr x)
  | None => ret tt
  end w =
  (Ok tt,
   set_heap (h ++ [match o with
                   | Some x => setdefault key (AStr x) d
                   | None => d
                   end]) w).
Proof.
  intros H. destruct o as [x|].
  - now apply dict_setdefault_last.
  - unfold ret. f_equal. destruct w; simpl in *. now subst.
Qed.

(** [ingest] after a successful resolution: one upload call, and a
    response built from its answer and the filename prepared locally. *)
Lemma ingest_run (self : OpenAIContextStore.t) (request : IngestDocumentRequest.t)
    (w w1 : World) (vector_store : VectorStore.t) :
  OpenAIContextStore.ensure_vector_store self
    (IngestDocumentRequest.vector_store_id request)
    (IngestDocumentRequest.vector_store_name request)
    (ingest_metadata request) w = (Ok vector_store, w1) ->
  OpenAIContextStore.ingest self request w =
  match OpenAI.vector_stores_files_upload_and_poll
          (OpenAIContextStore._client self) (calls w1)
          (VectorStore.id vector_store) (upload_file request w1)
          (Some (upload_attributes request w1))
          (IngestDocumentRequest.chunking_strategy request) with
  | Raise e => (Raise e, uploaded request vector_store w1)
  | Ok f =>
      (Ok (IngestDocumentResponse.mk
             (VectorStore.id vector_store) (VectorStore.name vector_store)
             (VectorStoreFile.id f)
             (prepared_filename request (clock w1 (ticks w1)))
             (VectorStoreFile.status f) (VectorStoreFile.attributes f)),
       if negb (String.eqb (VectorStoreFile.status f) "completed")
       then add_log
              (Log WARNING "Vector store file %s completed with status %s"
                 [ArgStr (VectorStoreFile.id f);
                  ArgStr (VectorStoreFile.status f)])
              (uploaded request vector_store w1)
       else uploaded request vector_store w1)
  end.
Proof.
  intros Hres. unfold OpenAIContextStore.ingest. fold (ingest_metadata request).
  rewrite (bind_ok _ _ _ _ _ Hres).
  rewrite (bind_ok _ _ _ _ _ (filename_run request w1)).
  unfold uploaded, upload_call, upload_file, upload_attributes.
  set (w2 := if derives_from_clock request then tick w1 else w1).
  assert (Hh : heap w2 = heap w1) by (subst w2; now destruct derives_from_clock).
  assert (Hc : calls w2 = calls w1) by (subst w2; now destruct derives_from_clock).
  rewrite (bind_ok _ _ _ _ _ (copy_attributes_run request w2)).
  assert (Hcaller : caller_attributes request w2 = caller_attributes request w1)
    by (unfold caller_attributes; now rewrite Hh).
  rewrite Hcaller. clear Hcaller.
  erewrite bind_ok; [|apply maybe_setdefault_run; reflexivity].
  erewrite bind_ok; [|apply maybe_setdefault_run; reflexivity].
  unfold bind at 1. unfold now at 1. cbv beta iota.
  erewrite bind_ok; [|apply dict_setdefault_last; reflexivity].
  unfold bind at 1. unfold log at 1. cbv beta iota.
  unfold bind at 1. unfold dict_read at 1. cbv beta iota.
  simpl heap. rewrite deref_last.
  fold (composed_attributes request (caller_attributes request w1)
          (clock w2 (ticks w2))).
  rewrite composed_nonempty.
  unfold bind at 1, OpenAIContextStore.client_upload_and_poll, remote.
  simpl calls. rewrite Hc, Hh.
  destruct (OpenAI.vector_stores_files_upload_and_poll _ _ _ _ _ _) as [f|e];
    [|reflexivity].
  unfold bind, when, log, ret.
  destruct (negb _); reflexivity.
Qed.

Lemma ingest_unresolved (self : OpenAIContextStore.t)
    (request : IngestDocumentRequest.t) (w w1 : World) (e : Exn) :
  OpenAIContextStore.ensure_vector_store self
    (IngestDocumentRequest.vector_store_id request)
    (IngestDocumentRequest.vector_store_name request)
    (ingest_metadata request) w = (Raise e, w1) ->
  OpenAIContextStore.ingest self request w = (Raise e, w1).
Proof.
  intros Hres. unfold OpenAIContextStore.ingest. fold (ingest_metadata request).
  now rewrite (bind_raise _ _ _ _ _ Hres).
Qed.

(** What every run of [ingest] that got past the resolution leaves
    behind: exactly one more call, the upload, and one more dict object,
    the composed attributes. *)
Lemma ingest_effects (self : OpenAIContextStore.t)
    (request : IngestDocumentRequest.t) (w w1 : World)
    (vector_store : VectorStore.t) :
  OpenAIContextStore.ensure_vector_store self
    (IngestDocumentRequest.vector_store_id request)
    (IngestDocumentRequest.vector_store_name request)
    (ingest_metadata request) w = (Ok vector_store, w1) ->
  let w' := snd (OpenAIContextStore.ingest self request w) in
  calls w' = calls w1 ++ [upload_call request vector_store w1] /\
  heap w' = heap w1 ++ [upload_attributes request w1].
Proof.
  intros Hres. simpl. rewrite (ingest_run _ _ _ _ _ Hres).
  destruct (OpenAI.vector_stores_files_upload_and_poll _ _ _ _ _ _) as [f|e];
    simpl; [|unfold uploaded; now destruct derives_from_clock].
  destruct (negb _); unfold uploaded; simpl; now destruct derives_from_clock.
Qed.

Lemma find_or_create_run (self : OpenAIContextStore.t) (n fmt : string)
    (metadata : option AttributesType) (w : World) :
  (do existing <- OpenAIContextStore._find_vector_store_by_name self n;
   match existing with
   | Some store => ret store
   | None =>
       run log INFO fmt [ArgStr n];
       OpenAIContextStore.client_create self n metadata
   end) w =
  let listed := add_call (CallList 100 "desc") w in
  let create w0 :=
    (OpenAI.vector_stores_create (OpenAIContextStore._client self)
       (calls w ++ [CallList 100 "desc"]) n metadata,
     add_call (CallCreate n metadata) (add_log (Log INFO fmt [ArgStr n]) w0)) in
  match OpenAI.vector_stores_list (OpenAIContextStore._client self)
          (calls w) 100 "desc" with
  | Ok pages =>
      match OpenAIContextStore.first_named pages n with
      | Ok (Some store) => (Ok store, listed)
      | Ok None => create listed
      | Raise exc => (Raise exc, listed)
      end
  | Raise exc =>
      create (add_log (Log WARNING "Failed to list vector stores: %s"
                         [ArgStr (str_of_exn exc)]) listed)
  end.
Proof.
  unfold bind at 1. rewrite find_run.
  destruct (OpenAI.vector_stores_list _ _ _ _) as [pages|exc]; simpl.
  - now destruct (OpenAIContextStore.first_named pages n) as [[store|]|e].
  - reflexivity.
Qed.

(** Resolution by id, explicit or configured. *)
Lemma ensure_fetches (self : OpenAIContextStore.t)
    (vector_store_id vector_store_name : option string)
    (metadata : option AttributesType) (w : World) (id : string) :
  Py.present vector_store_id = Some id \/
  (Py.present vector_store_id = None /\
   Py.present vector_store_name = None /\
   Py.present (Settings.default_vector_store_id
                 (OpenAIContextStore._settings self)) = Some id) ->
  fetches self id w
    (OpenAIContextStore.ensure_vector_store self vector_store_id
       vector_store_name metadata w).
Proof.
  unfold fetches, OpenAIContextStore.ensure_vector_store.
  intros [->|(-> & -> & ->)]; simpl; (split; [reflexivity|]);
    apply issued_app; reflexivity.
Qed.

(** Name-based resolution, by the answers the listing can give: a store
    of the name, the end without one, a break before one, and a list call
    that fails. *)
Lemma ensure_name_based (self : OpenAIContextStore.t)
    (vector_store_id vector_store_name : option string)
    (metadata : option AttributesType) (w : World) (n : string) :
  looked_up_name self vector_store_id vector_store_name = Some n ->
  let outcome :=
    OpenAIContextStore.ensure_vector_store self vector_store_id
      vector_store_name metadata w in
  let created :=
    fst outcome =
      OpenAI.vector_stores_create (OpenAIContextStore._client self)
        (calls w ++ [CallList 100 "desc"]) n metadata /\
    issued w (snd outcome) = [CallList 100 "desc"; CallCreate n metadata] in
  match OpenAI.vector_stores_list (OpenAIContextStore._client self)
          (calls w) 100 "desc" with
  | Ok pages =>
      match OpenAIContextStore.first_named pages n with
      | Ok (Some store) =>
          fst outcome = Ok store /\
          issued w (snd outcome) = [CallList 100 "desc"]
      | Ok None => created
      | Raise exc =>
          fst outcome = Raise exc /\
          issued w (snd outcome) = [CallList 100 "desc"]
      end
  | Raise exc =>
      created /\
      In (Log WARNING "Failed to list vector stores: %s" [ArgStr (str_of_exn exc)])
         (logged w (snd outcome))
  end.
Proof.
  unfold looked_up_name, OpenAIContextStore.ensure_vector_store.
  destruct (Py.present vector_store_id); [discriminate|].
  assert (Hgen : forall fmtd fmti,
    let outcome :=
      (run log DEBUG fmtd [ArgStr n];
       do existing <- OpenAIContextStore._find_vector_store_by_name self n;
       match existing with
       | Some store => ret store
       | None =>
           run log INFO fmti [ArgStr n];
           OpenAIContextStore.client_create self n metadata
       end) w in
    match OpenAI.vector_stores_list (OpenAIContextStore._client self)
            (calls w) 100 "desc" with
    | Ok pages =>
        match OpenAIContextStore.first_named pages n with
        | Ok (Some store) =>
            fst outcome = Ok store /\
            issued w (snd outcome) = [CallList 100 "desc"]
        | Ok None =>
            fst outcome =
              OpenAI.vector_stores_create (OpenAIContextStore._client self)
                (calls w ++ [CallList 100 "desc"]) n metadata /\
            issued w (snd outcome) = [CallList 100 "desc"; CallCreate n metadata]
        | Raise exc =>
            fst outcome = Raise exc /\
            issued w (snd outcome) = [CallList 100 "desc"]
        end
    | Raise exc =>
        (fst outcome =
           OpenAI.vector_stores_create (OpenAIContextStore._client self)
             (calls w ++ [CallList 100 "desc"]) n metadata /\
         issued w (snd outcome) = [CallList 100 "desc"; CallCreate n metadata]) /\
        In (Log WARNING "Failed to list vector stores: %s" [ArgStr (str_of_exn exc)])
           (logged w (snd outcome))
    end).
  { intros fmtd fmti. cbv zeta.
    replace ((run log DEBUG fmtd [ArgStr n];
              do existing <- OpenAIContextStore._find_vector_store_by_name self n;
              match existing with
              | Some store => ret store
              | None =>
                  run log INFO fmti [ArgStr n];
                  OpenAIContextStore.client_create self n metadata
              end) w)
      with ((do existing <- OpenAIContextStore._find_vector_store_by_name self n;
             match existing with
             | Some store => ret store
             | None =>
                 run log INFO fmti [ArgStr n];
                 OpenAIContextStore.client_create self n metadata
             end) (add_log (Log DEBUG fmtd [ArgStr n]) w))
      by reflexivity.
    rewrite find_or_create_run. simpl calls.
    destruct (OpenAI.vector_stores_list _ _ _ _) as [pages|exc]; simpl.
    - destruct (OpenAIContextStore.first_named pages n) as [[store|]|e]; simpl;
        (split; [reflexivity|]); apply issued_app; simpl;
        now rewrite <- ?app_assoc.
    - repeat split.
      + apply issued_app; simpl. now rewrite <- ?app_assoc.
      + erewrite logged_app; [|simpl; rewrite <- !app_assoc; reflexivity].
        simpl. auto. }
  destruct (Py.present vector_store_name) as [name|].
  { intros [= ->]. apply Hgen. }
  destruct (Py.present (Settings.default_vector_store_id _)); [discriminate|].
  intros ->. apply Hgen.
Qed.

(** Nothing to resolve from: a [ValueError], and nothing has happened. *)
Lemma ensure_unconfigured (self : OpenAIContextStore.t)
    (vector_store_id vector_store_name : option string)
    (metadata : option AttributesType) (w : World) :
  Py.present vector_store_id = None ->
  Py.present vector_store_name = None ->
  Py.present (Settings.default_vector_store_id
                (OpenAIContextStore._settings self)) = None ->
  Py.present (Settings.default_vector_store_name
                (OpenAIContextStore._settings self)) = None ->
  OpenAIContextStore.ensure_vector_store self vector_store_id
    vector_store_name metadata w =
  (Raise (ValueError
     "No vector store identifier was provided and no defaults are configured."),
   w).
Proof.
  unfold OpenAIContextStore.ensure_vector_store. now intros -> -> -> ->.
Qed.

(** The calls of a resolution, in all: none, one fetch, one listing, or
    a listing followed by the creation of the name looked up. *)
Lemma ensure_issued_cases (self : OpenAIContextStore.t)
    (vector_store_id vector_store_name : option string)
    (metadata : option AttributesType) (w : World) :
  let cs :=
    issued w (snd (OpenAIContextStore.ensure_vector_store self vector_store_id
                     vector_store_name metadata w)) in
  cs = [] \/
  (exists id, cs = [CallRetrieve id]) \/
  cs = [CallList 100 "desc"] \/
  (exists name,
     looked_up_name self vector_store_id vector_store_name = Some name /\
     cs = [CallList 100 "desc"; CallCreate name metadata]).
Proof.
  cbv zeta.
  destruct (Py.present vector_store_id) as [id|] eqn:Hid.
  { destruct (ensure_fetches self vector_store_id vector_store_name metadata w id
                (or_introl Hid)) as [_ ->]. eauto. }
  destruct (looked_up_name self vector_store_id vector_store_name) as [n|] eqn:Hn.
  { pose proof (ensure_name_based self vector_store_id vector_store_name
                  metadata w n Hn) as H. cbv zeta in H.
    destruct (OpenAI.vector_stores_list _ _ _ _) as [pages|exc].
    - destruct (OpenAIContextStore.first_named pages n) as [[store|]|e];
        destruct H as [_ ->]; eauto 6.
    - destruct H as [[_ ->] _]. eauto 6. }
  unfold looked_up_name in Hn. rewrite Hid in Hn.
  destruct (Py.present vector_store_name) eqn:Hname; [discriminate|].
  destruct (Py.present (Settings.default_vector_store_id _)) as [id|] eqn:Hdid.
  { destruct (ensure_fetches self vector_store_id vector_store_name metadata w id
                (or_intror (conj Hid (conj Hname Hdid)))) as [_ ->]. eauto. }
  rewrite (ensure_unconfigured _ _ _ _ _ Hid Hname Hdid Hn). simpl.
  unfold issued. rewrite drop_all. now left.
Qed.

(** * The claims *)

(** ** Store resolution *)

Lemma fetches_no_create (self : OpenAIContextStore.t) (id : string) (w : World)
    (outcome : Result VectorStore.t * World) :
  fetches self id w outcome -> no_create (issued w (snd outcome)).
Proof. intros [_ ->]. repeat constructor. Qed.

Lemma name_based_finds_or_creates (self : OpenAIContextStore.t)
    (vector_store_id vector_store_name : option string)
    (metadata : option AttributesType) (w : World) (n : string)
    (pages : list VectorStore.t) :
  looked_up_name self vector_store_id vector_store_name = Some n ->
  OpenAI.vector_stores_list (OpenAIContextStore._client self)
    (calls w) 100 "desc" = Ok (complete pages) ->
  finds_or_creates self n metadata pages w
    (OpenAIContextStore.ensure_vector_store self vector_store_id
       vector_store_name metadata w).
Proof.
  intros Hn Hl.
  pose proof (ensure_name_based self vector_store_id vector_store_name
                metadata w n Hn) as H.
  cbv zeta in H. rewrite Hl in H. split.
  - intros before store after Hp Hs Hb.
    assert (Hf : OpenAIContextStore.first_named (complete pages) n =
                 Ok (Some store))
      by (apply first_named_Some; eauto).
    now rewrite Hf in H.
  - intros Hu. apply first_named_None in Hu. now rewrite Hu in H.
Qed.

(** C3. Store resolution follows a fixed order, first match wins.
    (1) An id that is given (a non-empty string) is fetched directly: the
    outcome is the remote's answer to that fetch and no create call is
    issued, whatever the name. (2) Else a given name is looked up in the
    listing: the first listed store whose name equals it exactly is
    returned after the list call alone, and a store of that name is
    created only when no listed store matches. (3) Else the configured
    default id is fetched. (4) Else the configured default name is found
    or created in the same way. (5) With none of the four set, the
    resolution fails with the configuration error and issues no call. *)
Theorem C3_resolution_order (self : OpenAIContextStore.t)
    (vector_store_id vector_store_name : option string)
    (metadata : option AttributesType) (w : World) :
  let outcome :=
    OpenAIContextStore.ensure_vector_store self vector_store_id
      vector_store_name metadata w in
  let defaults := OpenAIContextStore._settings self in
  let listing :=
    OpenAI.vector_stores_list (OpenAIContextStore._client self)
      (calls w) 100 "desc" in
  (forall id,
     Py.present vector_store_id = Some id ->
     fetches self id w outcome /\ no_create (issued w (snd outcome))) /\
  (forall name pages,
     Py.present vector_store_id = None ->
     Py.present vector_store_name = Some name ->
     listing = Ok (complete pages) ->
     finds_or_creates self name metadata pages w outcome) /\
  (forall id,
     Py.present vector_store_id = None ->
     Py.present vector_store_name = None ->
     Py.present (Settings.default_vector_store_id defaults) = Some id ->
     fetches self id w outcome /\ no_create (issued w (snd outcome))) /\
  (forall name pages,
     Py.present vector_store_id = None ->
     Py.present vector_store_name = None ->
     Py.present (Settings.default_vector_store_id defaults) = None ->
     Py.present (Settings.default_vector_store_name defaults) = Some name ->
     listing = Ok (complete pages) ->
     finds_or_creates self name metadata pages w outcome) /\
  (Py.present vector_store_id = None ->
   Py.present vector_store_name = None ->
   Py.present (Settings.default_vector_store_id defaults) = None ->
   Py.present (Settings.default_vector_store_name defaults) = None ->
   outcome =
     (Raise (ValueError
        "No vector store identifier was provided and no defaults are configured."),
      w)).
Proof.
  cbv zeta. split; [|split; [|split; [|split]]].
  - intros id H. split; [|eapply fetches_no_create];
      apply ensure_fetches; eauto.
  - intros name pages H H0 Hl.
    eapply name_based_finds_or_creates; eauto.
    unfold looked_up_name. now rewrite H, H0.
  - intros id H H0 H1. split; [|eapply fetches_no_create];
      apply ensure_fetches; eauto.
  - intros name pages H H0 H1 H2 Hl.
    eapply name_based_finds_or_creates; eauto.
    unfold looked_up_name. now rewrite H, H0, H1.
  - now apply ensure_unconfigured.
Qed.

Lemma C3_resolution_order_witness :
  let w := Example.world [] in
  let by_id :=
    OpenAIContextStore.mk Example.default_id_7 (Example.client [Example.vs_7] []) in
  let by_name :=
    OpenAIContextStore.mk Example.default_id_7 (Example.client Example.listing []) in
  let by_default_name :=
    OpenAIContextStore.mk Example.default_docs (Example.client [Example.vs_Docs] []) in
  let unconfigured :=
    OpenAIContextStore.mk Example.no_defaults (Example.client Example.listing []) in
  fetches by_id "vs_7" w
    (OpenAIContextStore.ensure_vector_store by_id (Some "vs_7") (Some "docs")
       None w) /\
  finds_or_creates by_name "docs" (Some ∅) Example.listing w
    (OpenAIContextStore.ensure_vector_store by_name None (Some "docs")
       (Some ∅) w) /\
  fetches by_id "vs_7" w
    (OpenAIContextStore.ensure_vector_store by_id (Some "") None None w) /\
  finds_or_creates by_default_name "docs" None [Example.vs_Docs] w
    (OpenAIContextStore.ensure_vector_store by_default_name None (Some "")
       None w) /\
  OpenAIContextStore.ensure_vector_store unconfigured None None None w =
  (Raise (ValueError
     "No vector store identifier was provided and no defaults are configured."),
   w).
Proof.
  cbv zeta. split; [|split; [|split; [|split]]].
  - destruct (C3_resolution_order
                (OpenAIContextStore.mk Example.default_id_7
                   (Example.client [Example.vs_7] []))
                (Some "vs_7") (Some "docs") None (Example.world []))
      as (H & _).
    exact (proj1 (H "vs_7" eq_refl)).
  - destruct (C3_resolution_order
                (OpenAIContextStore.mk Example.default_id_7
                   (Example.client Example.listing []))
                None (Some "docs") (Some ∅) (Example.world []))
      as (_ & H & _).
    exact (H "docs" Example.listing eq_refl eq_refl eq_refl).
  - destruct (C3_resolution_order
                (OpenAIContextStore.mk Example.default_id_7
                   (Example.client [Example.vs_7] []))
                (Some "") None None (Example.world []))
      as (_ & _ & H & _).
    exact (proj1 (H "vs_7" eq_refl eq_refl eq_refl)).
  - destruct (C3_resolution_order
                (OpenAIContextStore.mk Example.default_docs
                   (Example.client [Example.vs_Docs] []))
                None (Some "") None (Example.world []))
      as (_ & _ & _ & H & _).
    exact (H "docs" [Example.vs_Docs] eq_refl eq_refl eq_refl eq_refl eq_refl).
  - destruct (C3_resolution_order
                (OpenAIContextStore.mk Example.no_defaults
                   (Example.client Example.listing []))
                None None None (Example.world []))
      as (_ & _ & _ & _ & H).
    exact (H eq_refl eq_refl eq_refl eq_refl).
Defined.

(** The listing of the example holds "Docs" before two stores named
    "docs": the lookup of "docs" skips the first and returns the second. *)
Example resolution_is_case_sensitive :
  let self :=
    OpenAIContextStore.mk Example.no_defaults (Example.client Example.listing []) in
  OpenAIContextStore.ensure_vector_store self None (Some "docs") (Some ∅)
    (Example.world []) =
  (Ok Example.vs_docs,
   add_call (CallList 100 "desc")
     (add_log (Log DEBUG "Attempting to locate vector store named %s"
                 [ArgStr "docs"]) (Example.world []))).
Proof. reflexivity. Qed.




(** ** Validation *)

Lemma ingest_request_rejected (raw : IngestDocumentRequest.t) :
  Py.all_space (IngestDocumentRequest.content raw) = true ->
  IngestDocumentRequest.validate raw =
  Raise (ValidationError
           "The document content is empty after stripping whitespace.").
Proof.
  intros H. apply strip_empty_iff in H.
  unfold IngestDocumentRequest.validate,
    IngestDocumentRequest.ensure_store_reference.
  now rewrite H.
Qed.

Lemma retrieve_request_rejected (raw : RetrieveRelevantChunksRequest.t) :
  Py.all_space (RetrieveRelevantChunksRequest.query raw) = true \/
  (exists n, RetrieveRelevantChunksRequest.max_results raw = Some n /\
             (n < 1 \/ 50 < n)%Z) ->
  exists msg, RetrieveRelevantChunksRequest.validate raw =
              Raise (ValidationError msg).
Proof.
  unfold RetrieveRelevantChunksRequest.validate,
    RetrieveRelevantChunksRequest.check_max_results,
    RetrieveRelevantChunksRequest.ensure_query.
  intros [H|(n & -> & H)].
  - apply strip_empty_iff in H.
    destruct (RetrieveRelevantChunksRequest.max_results raw) as [n|].
    + destruct (n <? 1)%Z; [eauto|]. destruct (50 <? n)%Z; [eauto|].
      rewrite H. simpl. eauto.
    + rewrite H. simpl. eauto.
  - destruct (Z.ltb_spec n 1); [eauto|].
    destruct (Z.ltb_spec 50 n); [eauto|]. lia.
Qed.

Lemma retrieve_request_accepted (raw : RetrieveRelevantChunksRequest.t) :
  Py.all_space (RetrieveRelevantChunksRequest.query raw) = false ->
  (forall n, RetrieveRelevantChunksRequest.max_results raw = Some n ->
             (1 <= n <= 50)%Z) ->
  RetrieveRelevantChunksRequest.validate raw = Ok raw.
Proof.
  intros Hq Hn.
  assert (Hs : Py.str_truthy (Py.strip (RetrieveRelevantChunksRequest.query raw))
               = true).
  { destruct (Py.str_truthy _) eqn:E; [reflexivity|].
    apply strip_empty_iff in E. congruence. }
  unfold RetrieveRelevantChunksRequest.validate,
    RetrieveRelevantChunksRequest.check_max_results,
    RetrieveRelevantChunksRequest.ensure_query.
  destruct (RetrieveRelevantChunksRequest.max_results raw) as [n|].
  - specialize (Hn n eq_refl).
    destruct (Z.ltb_spec n 1); [lia|]. destruct (Z.ltb_spec 50 n); [lia|].
    now rewrite Hs.
  - now rewrite Hs.
Qed.

(** C7. A call of the ingestion tool whose content is empty or white
    space only, and a call of the retrieval tool whose query is empty or
    white space only or whose [max_results] lies outside [1,50], fails
    with a validation error and leaves the world as it was: no list,
    create, upload or search call (nor any other) has been issued.
    [max_results] of exactly 1 and of exactly 50 pass the validation, and
    the call proceeds to the tool function. *)
Theorem C7_validation_precedes_remote_calls (store : OpenAIContextStore.t)
    (w : World) :
  (forall args : Server.ToolArguments IngestDocumentRequest.t,
     Py.all_space (IngestDocumentRequest.content (Server.fields args)) = true ->
     exists msg,
       Server.call_ingest_document store args w = (Raise (ValidationError msg), w)) /\
  (forall args : Server.ToolArguments RetrieveRelevantChunksRequest.t,
     Py.all_space (RetrieveRelevantChunksRequest.query (Server.fields args)) = true ->
     exists msg,
       Server.call_retrieve_relevant_chunks store args w =
       (Raise (ValidationError msg), w)) /\
  (forall (args : Server.ToolArguments RetrieveRelevantChunksRequest.t) (n : Z),
     RetrieveRelevantChunksRequest.max_results (Server.fields args) = Some n ->
     (n < 1 \/ 50 < n)%Z ->
     exists msg,
       Server.call_retrieve_relevant_chunks store args w =
       (Raise (ValidationError msg), w)) /\
  (forall (raw : RetrieveRelevantChunksRequest.t) (n : Z),
     RetrieveRelevantChunksRequest.max_results raw = Some n ->
     n = 1%Z \/ n = 50%Z ->
     Py.all_space (RetrieveRelevantChunksRequest.query raw) = false ->
     RetrieveRelevantChunksRequest.validate raw = Ok raw /\
     Server.call_retrieve_relevant_chunks store (Server.mkArguments raw []) w =
     Server.retrieve_relevant_chunks store raw w).
Proof.
  split; [|split; [|split]].
  - intros [raw extra] H. simpl in H. unfold Server.call_ingest_document.
    destruct extra; simpl; [|eauto].
    rewrite (ingest_request_rejected raw H). eauto.
  - intros [raw extra] H. simpl in H.
    unfold Server.call_retrieve_relevant_chunks.
    destruct extra; simpl; [|eauto].
    destruct (retrieve_request_rejected raw (or_introl H)) as [msg ->]. eauto.
  - intros [raw extra] n Hn H. simpl in Hn.
    unfold Server.call_retrieve_relevant_chunks.
    destruct extra; simpl; [|eauto].
    destruct (retrieve_request_rejected raw
                (or_intror (ex_intro _ n (conj Hn H)))) as [msg ->].
    eauto.
  - intros raw n Hn H Hq.
    assert (Hv : RetrieveRelevantChunksRequest.validate raw = Ok raw).
    { apply retrieve_request_accepted; [exact Hq|].
      intros m Hm. rewrite Hn in Hm. injection Hm as <-. lia. }
    split; [exact Hv|].
    unfold Server.call_retrieve_relevant_chunks. simpl. now rewrite Hv.
Qed.

Lemma C7_validation_precedes_remote_calls_witness :
  let store :=
    OpenAIContextStore.mk Example.default_docs (Example.client Example.listing []) in
  let w := Example.world [] in
  (exists msg,
     Server.call_ingest_document store
       (Server.mkArguments Example.blank_document []) w =
     (Raise (ValidationError msg), w)) /\
  (exists msg,
     Server.call_retrieve_relevant_chunks store
       (Server.mkArguments (Example.query_of "   " None) []) w =
     (Raise (ValidationError msg), w)) /\
  (exists msg,
     Server.call_retrieve_relevant_chunks store
       (Server.mkArguments (Example.query_of "auth" (Some 0%Z)) []) w =
     (Raise (ValidationError msg), w)) /\
  (exists msg,
     Server.call_retrieve_relevant_chunks store
       (Server.mkArguments (Example.query_of "auth" (Some 51%Z)) []) w =
     (Raise (ValidationError msg), w)) /\
  RetrieveRelevantChunksRequest.validate (Example.query_of "auth" (Some 1%Z)) =
    Ok (Example.query_of "auth" (Some 1%Z)) /\
  RetrieveRelevantChunksRequest.validate (Example.query_of "auth" (Some 50%Z)) =
    Ok (Example.query_of "auth" (Some 50%Z)).
Proof.
  cbv zeta.
  destruct (C7_validation_precedes_remote_calls
              (OpenAIContextStore.mk Example.default_docs
                 (Example.client Example.listing []))
              (Example.world [])) as (Hi & Hq & Hm & Ha).
  split; [|split; [|split; [|split; [|split]]]].
  - exact (Hi (Server.mkArguments Example.blank_document []) eq_refl).
  - exact (Hq (Server.mkArguments (Example.query_of "   " None) []) eq_refl).
  - apply (Hm (Server.mkArguments (Example.query_of "auth" (Some 0%Z)) []) 0%Z
              eq_refl).
    left. lia.
  - apply (Hm (Server.mkArguments (Example.query_of "auth" (Some 51%Z)) []) 51%Z
              eq_refl).
    right. lia.
  - exact (proj1 (Ha (Example.query_of "auth" (Some 1%Z)) 1%Z eq_refl
                    (or_introl eq_refl) eq_refl)).
  - exact (proj1 (Ha (Example.query_of "auth" (Some 50%Z)) 50%Z eq_refl
                    (or_intror eq_refl) eq_refl)).
Defined.

(** ** Retrieval *)

(** [retrieve] after a successful resolution: one search call, and a
    response holding what the loop collects from its answer. *)
Lemma retrieve_run (self : OpenAIContextStore.t)
    (request : RetrieveRelevantChunksRequest.t) (w w1 : World)
    (vector_store : VectorStore.t) :
  OpenAIContextStore.ensure_vector_store self
    (RetrieveRelevantChunksRequest.vector_store_id request) None None w =
  (Ok vector_store, w1) ->
  let searched :=
    add_call (search_call self request vector_store)
      (add_log (Log DEBUG "Searching vector store %s for query %s"
                  [ArgStr (VectorStore.id vector_store);
                   ArgStr (RetrieveRelevantChunksRequest.query request)]) w1) in
  OpenAIContextStore.retrieve self request w =
  match search_answer self (calls w1) (search_call self request vector_store) with
  | Raise e => (Raise e, searched)
  | Ok search_results =>
      (Ok (RetrieveRelevantChunksResponse.mk
             (VectorStore.id vector_store)
             (RetrieveRelevantChunksRequest.query request)
             (OpenAIContextStore.collect
                (RetrieveRelevantChunksRequest.score_threshold request)
                search_results [])),
       searched)
  end.
Proof.
  intros Hres. unfold OpenAIContextStore.retrieve.
  rewrite (bind_ok _ _ _ _ _ Hres).
  unfold search_answer, search_call, bind, log,
    OpenAIContextStore.client_search, remote, ret.
  simpl calls.
  now destruct (OpenAI.vector_stores_search _ _ _ _ _ _ _).
Qed.

Lemma retrieve_unresolved (self : OpenAIContextStore.t)
    (request : RetrieveRelevantChunksRequest.t) (w w1 : World) (e : Exn) :
  OpenAIContextStore.ensure_vector_store self
    (RetrieveRelevantChunksRequest.vector_store_id request) None None w =
  (Raise e, w1) ->
  OpenAIContextStore.retrieve self request w = (Raise e, w1).
Proof.
  intros Hres. unfold OpenAIContextStore.retrieve.
  now rewrite (bind_raise _ _ _ _ _ Hres).
Qed.

(** The loop appends, in order, the chunks of the results it keeps. *)
Lemma collect_kept (score_threshold : option float)
    (results : list SearchResult.t) (collected : list RetrievedChunk.t) :
  OpenAIContextStore.collect score_threshold results collected =
  collected ++ map OpenAIContextStore.to_chunk (kept score_threshold results).
Proof.
  revert collected. unfold kept.
  induction results as [|r results IH]; intros collected; simpl.
  - now rewrite app_nil_r.
  - destruct (OpenAIContextStore.below_threshold score_threshold r); simpl.
    + apply IH.
    + rewrite IH. now rewrite <- app_assoc.
Qed.

Lemma kept_sublist (score_threshold : option float)
    (results : list SearchResult.t) :
  sublist (kept score_threshold results) results.
Proof.
  unfold kept. induction results as [|r results IH]; simpl.
  - constructor.
  - destruct (negb _); now constructor.
Qed.

(** *** Comparison of binary64 numbers *)

Lemma SFcompare_antisym (x y : SpecFloat.spec_float) :
  SpecFloat.SFcompare y x = option_map CompOpp (SpecFloat.SFcompare x y).
Proof.
  destruct x as [sx|sx| |sx mx ex], y as [sy|sy| |sy my ey]; simpl;
    try reflexivity;
    try (destruct sx; reflexivity); try (destruct sy; reflexivity);
    try (destruct sx, sy; reflexivity).
  assert (Hm : Pos.compare_cont Eq my mx = CompOpp (Pos.compare_cont Eq mx my))
    by (symmetry; apply (Pos.compare_cont_antisym mx my Eq)).
  destruct sx, sy; simpl; try reflexivity;
    rewrite (Z.compare_antisym ex ey), Hm;
    destruct (ex ?= ey)%Z; simpl; try reflexivity;
    now destruct (Pos.compare_cont Eq mx my).
Qed.

Lemma not_nan_spec (x : float) :
  is_nan x = false -> Prim2SF x <> SpecFloat.S754_nan.
Proof.
  unfold is_nan. rewrite FloatAxioms.eqb_spec. unfold SpecFloat.SFeqb.
  intros H E. rewrite E in H. discriminate.
Qed.

(** Away from NaN, "not less than" is "greater than or equal". *)
Lemma not_ltb_is_leb (x T : float) :
  is_nan x = false -> is_nan T = false ->
  negb (x <? T)%float = (T <=? x)%float.
Proof.
  intros Hx HT. apply not_nan_spec in Hx, HT.
  rewrite FloatAxioms.ltb_spec, FloatAxioms.leb_spec.
  unfold SpecFloat.SFltb, SpecFloat.SFleb.
  rewrite (SFcompare_antisym (Prim2SF x) (Prim2SF T)).
  destruct (Prim2SF x) as [sx|sx| |sx mx ex] eqn:Ex; [| |congruence|];
    destruct (Prim2SF T) as [sy|sy| |sy my ey] eqn:ET; try congruence;
    simpl;
    try (destruct sx; reflexivity); try (destruct sy; reflexivity);
    try (destruct sx, sy; reflexivity).
  destruct sx, sy; simpl; try reflexivity;
    destruct (ex ?= ey)%Z; simpl; try reflexivity;
    now destruct (Pos.compare_cont Eq mx my).
Qed.

Lemma kept_is_spec_retained (T : float) (results : list SearchResult.t) :
  is_nan T = false ->
  Forall (fun r => is_nan (SearchResult.score r) = false) results ->
  kept (Some T) results = spec_retained (Some T) results.
Proof.
  intros HT. unfold kept, spec_retained, OpenAIContextStore.below_threshold.
  induction 1 as [|r results Hr _ IH]; cbn [List.filter]; [reflexivity|].
  rewrite (not_ltb_is_leb _ _ Hr HT), IH. reflexivity.
Qed.

Lemma kept_without_threshold (results : list SearchResult.t) :
  kept None results = results.
Proof.
  unfold kept. induction results as [|r results IH]; cbn; [reflexivity|].
  now f_equal.
Qed.

(** The results of a retrieval response are what the loop collects from
    the answer of the search call. *)
Lemma retrieve_results (self : OpenAIContextStore.t)
    (request : RetrieveRelevantChunksRequest.t) (w w' : World)
    (response : RetrieveRelevantChunksResponse.t) :
  OpenAIContextStore.retrieve self request w = (Ok response, w') ->
  exists vector_store w1 search_results,
    OpenAIContextStore.ensure_vector_store self
      (RetrieveRelevantChunksRequest.vector_store_id request) None None w =
    (Ok vector_store, w1) /\
    search_answer self (calls w1) (search_call self request vector_store) =
    Ok search_results /\
    RetrieveRelevantChunksResponse.results response =
    OpenAIContextStore.collect
      (RetrieveRelevantChunksRequest.score_threshold request) search_results [].
Proof.
  destruct (OpenAIContextStore.ensure_vector_store self
              (RetrieveRelevantChunksRequest.vector_store_id request)
              None None w) as [[vs|e] w1] eqn:Hres.
  - rewrite (retrieve_run _ _ _ _ _ Hres). cbv zeta.
    destruct (search_answer _ _ _) as [rs|e] eqn:Hs; [|discriminate].
    intros [= <- <-]. exists vs, w1, rs. auto.
  - rewrite (retrieve_unresolved _ _ _ _ _ Hres). discriminate.
Qed.

(** C4 (amended). For every score threshold and every sequence of search
    results, the post-filter of [retrieve] drops exactly the results whose
    score is strictly less than the threshold and keeps the others in
    their original order; it keeps every result when no threshold is
    given. When neither the threshold nor any score is NaN, the results
    kept are exactly those whose score is greater than or equal to the
    threshold (equal passes, strictly smaller is dropped). The results of
    a retrieval response are the chunks of the results so kept. *)
Theorem C4_threshold_filter (score_threshold : option float)
    (results : list SearchResult.t) :
  OpenAIContextStore.collect score_threshold results [] =
    map OpenAIContextStore.to_chunk (kept score_threshold results) /\
  sublist (kept score_threshold results) results /\
  (forall r,
     In r (kept score_threshold results) <->
     In r results /\
     OpenAIContextStore.below_threshold score_threshold r = false) /\
  (score_threshold = None -> kept score_threshold results = results) /\
  (forall T,
     score_threshold = Some T ->
     is_nan T = false ->
     Forall (fun r => is_nan (SearchResult.score r) = false) results ->
     kept score_threshold results = spec_retained score_threshold results /\
     forall r,
       In r (kept score_threshold results) <->
       In r results /\ (T <=? SearchResult.score r)%float = true) /\
  (forall self request w response w',
     RetrieveRelevantChunksRequest.score_threshold request = score_threshold ->
     OpenAIContextStore.retrieve self request w = (Ok response, w') ->
     exists search_results,
       RetrieveRelevantChunksResponse.results response =
       map OpenAIContextStore.to_chunk (kept score_threshold search_results)).
Proof.
  split; [|split; [|split; [|split; [|split]]]].
  - apply (collect_kept score_threshold results []).
  - apply kept_sublist.
  - intros r. unfold kept. rewrite filter_In, negb_true_iff. reflexivity.
  - intros ->. apply kept_without_threshold.
  - intros T -> HT Hs. split.
    + now apply kept_is_spec_retained.
    + intros r. rewrite (kept_is_spec_retained T results HT Hs).
      unfold spec_retained. now rewrite filter_In.
  - intros self request w response w' <- Hrun.
    destruct (retrieve_results _ _ _ _ _ Hrun) as (vs & w1 & rs & _ & _ & ->).
    exists rs. apply (collect_kept _ rs []).
Qed.

Lemma C4_threshold_filter_witness :
  let results :=
    [Example.hit "a" 0.5%float; Example.hit "b" 0.25%float;
     Example.hit "c" 0.9375%float] in
  kept (Some 0.5%float) results =
    [Example.hit "a" 0.5%float; Example.hit "c" 0.9375%float] /\
  kept None results = results /\
  kept (Some 0.5%float) results = spec_retained (Some 0.5%float) results.
Proof.
  cbv zeta.
  destruct (C4_threshold_filter (Some 0.5%float)
              [Example.hit "a" 0.5%float; Example.hit "b" 0.25%float;
               Example.hit "c" 0.9375%float])
    as (_ & _ & _ & _ & H & _).
  destruct (C4_threshold_filter None
              [Example.hit "a" 0.5%float; Example.hit "b" 0.25%float;
               Example.hit "c" 0.9375%float])
    as (_ & _ & _ & Hnone & _).
  split; [|split].
  - rewrite (proj1 (H 0.5%float eq_refl eq_refl
                      ltac:(repeat constructor))).
    reflexivity.
  - exact (Hnone eq_refl).
  - exact (proj1 (H 0.5%float eq_refl eq_refl ltac:(repeat constructor))).
Defined.

(** C4 as stated fails on a NaN threshold: no score is greater than or
    equal to NaN, yet no score is less than NaN either, so [retrieve]
    returns the result of score 0.5 that the stated filter drops. *)
Lemma C4_counterexample :
  let self :=
    OpenAIContextStore.mk Example.default_id_7
      (Example.client [Example.vs_7] [Example.hit "a" 0.5%float]) in
  fst (OpenAIContextStore.retrieve self (Example.auth None (Some nan))
         (Example.world [])) =
    Ok (RetrieveRelevantChunksResponse.mk "vs_7" "auth"
          [OpenAIContextStore.to_chunk (Example.hit "a" 0.5%float)]) /\
  spec_retained (Some nan) [Example.hit "a" 0.5%float] = [] /\
  OpenAIContextStore.collect (Some nan) [Example.hit "a" 0.5%float] [] <>
    map OpenAIContextStore.to_chunk
      (spec_retained (Some nan) [Example.hit "a" 0.5%float]).
Proof.
  cbv zeta. split; [|split].
  - vm_compute. reflexivity.
  - vm_compute. reflexivity.
  - vm_compute. discriminate.
Qed.

(** ** Ingestion *)

Lemma composed_keeps (request : IngestDocumentRequest.t)
    (caller : AttributesType) (t : Instant) (key : string) (value : AttrValue) :
  caller !! key = Some value ->
  composed_attributes request caller t !! key = Some value.
Proof.
  intros H. unfold composed_attributes.
  apply setdefault_keeps.
  destruct (Py.present (IngestDocumentRequest.summary request));
    [apply setdefault_keeps|];
    (destruct (Py.present (IngestDocumentRequest.document_id request));
     [apply setdefault_keeps|]); exact H.
Qed.

Lemma composed_other (request : IngestDocumentRequest.t)
    (caller : AttributesType) (t : Instant) (key : string) :
  key <> "document_id" -> key <> "summary" -> key <> "ingested_at" ->
  composed_attributes request caller t !! key = caller !! key.
Proof.
  intros H1 H2 H3. unfold composed_attributes.
  rewrite setdefault_other by congruence.
  destruct (Py.present (IngestDocumentRequest.summary request));
    [rewrite setdefault_other by congruence|];
    (destruct (Py.present (IngestDocumentRequest.document_id request));
     [rewrite setdefault_other by congruence|]); reflexivity.
Qed.

Lemma composed_ingested_at (request : IngestDocumentRequest.t)
    (caller : AttributesType) (t : Instant) :
  composed_attributes request caller t !! "ingested_at" =
  match caller !! "ingested_at" with
  | Some value => Some value
  | None => Some (AStr (isoformat t))
  end.
Proof.
  destruct (caller !! "ingested_at") as [value|] eqn:E.
  - now apply composed_keeps.
  - unfold composed_attributes. apply setdefault_absent.
    destruct (Py.present (IngestDocumentRequest.summary request));
      [rewrite setdefault_other by discriminate|];
      (destruct (Py.present (IngestDocumentRequest.document_id request));
       [rewrite setdefault_other by discriminate|]); exact E.
Qed.

Lemma composed_document_id (request : IngestDocumentRequest.t)
    (caller : AttributesType) (t : Instant) :
  composed_attributes request caller t !! "document_id" =
  match caller !! "document_id" with
  | Some value => Some value
  | None => AStr <$> Py.present (IngestDocumentRequest.document_id request)
  end.
Proof.
  destruct (caller !! "document_id") as [value|] eqn:E.
  - now apply composed_keeps.
  - unfold composed_attributes. rewrite setdefault_other by discriminate.
    destruct (Py.present (IngestDocumentRequest.summary request));
      [rewrite setdefault_other by discriminate|];
      (destruct (Py.present (IngestDocumentRequest.document_id request));
       [now apply setdefault_absent | exact E]).
Qed.

Lemma composed_summary (request : IngestDocumentRequest.t)
    (caller : AttributesType) (t : Instant) :
  composed_attributes request caller t !! "summary" =
  match caller !! "summary" with
  | Some value => Some value
  | None => AStr <$> Py.present (IngestDocumentRequest.summary request)
  end.
Proof.
  destruct (caller !! "summary") as [value|] eqn:E.
  - now apply composed_keeps.
  - unfold composed_attributes. rewrite setdefault_other by discriminate.
    assert (Hd : match Py.present (IngestDocumentRequest.document_id request) with
                 | Some document_id =>
                     setdefault "document_id" (AStr document_id) caller
                 | None => caller
                 end !! "summary" = None).
    { destruct (Py.present (IngestDocumentRequest.document_id request));
        [rewrite setdefault_other by discriminate|]; exact E. }
    destruct (Py.present (IngestDocumentRequest.summary request));
      [now apply setdefault_absent | exact Hd].
Qed.

(** The calls of a resolution are fetches, listings and creations. *)
Lemma ensure_issues_no_upload (self : OpenAIContextStore.t)
    (vector_store_id vector_store_name : option string)
    (metadata : option AttributesType) (w : World) :
  Forall (fun c => is_upload c = false)
    (issued w (snd (OpenAIContextStore.ensure_vector_store self vector_store_id
                      vector_store_name metadata w))).
Proof.
  destruct (ensure_issued_cases self vector_store_id vector_store_name
              metadata w) as [H|[[id H]|[H|(n & _ & H)]]];
    cbv zeta in H; rewrite H; repeat constructor.
Qed.

(** The calls of [ingest]: those of the resolution, then the upload. *)
Lemma ingest_issued (self : OpenAIContextStore.t)
    (request : IngestDocumentRequest.t) (w w1 : World)
    (vector_store : VectorStore.t) :
  OpenAIContextStore.ensure_vector_store self
    (IngestDocumentRequest.vector_store_id request)
    (IngestDocumentRequest.vector_store_name request)
    (ingest_metadata request) w = (Ok vector_store, w1) ->
  issued w (snd (OpenAIContextStore.ingest self request w)) =
  issued w w1 ++ [upload_call request vector_store w1].
Proof.
  intros Hres.
  destruct (ingest_effects _ _ _ _ _ Hres) as [Hc _]. cbv zeta in Hc.
  destruct (ensure_frame _ _ _ _ _ _ _ Hres) as (_ & _ & _ & Hc1 & _).
  apply issued_app. rewrite Hc, Hc1 at 1. now rewrite <- app_assoc.
Qed.

(** The attributes of the upload, read off the world the call started in. *)
Lemma upload_attributes_frame (self : OpenAIContextStore.t)
    (request : IngestDocumentRequest.t) (w w1 : World)
    (vector_store : VectorStore.t) :
  OpenAIContextStore.ensure_vector_store self
    (IngestDocumentRequest.vector_store_id request)
    (IngestDocumentRequest.vector_store_name request)
    (ingest_metadata request) w = (Ok vector_store, w1) ->
  let w' := snd (OpenAIContextStore.ingest self request w) in
  upload_attributes request w1 =
  composed_attributes request (caller_attributes request w)
    (clock w (Nat.pred (ticks w'))) /\
  heap w' = heap w ++ [upload_attributes request w1].
Proof.
  intros Hres. cbv zeta.
  destruct (ensure_frame _ _ _ _ _ _ _ Hres) as (Hh & Hk & Ht & _ & _).
  destruct (ingest_effects _ _ _ _ _ Hres) as [_ Hheap]. cbv zeta in Hheap.
  split; [|now rewrite Hheap, Hh].
  assert (Hticks : ticks (snd (OpenAIContextStore.ingest self request w)) =
                   ticks (uploaded request vector_store w1)).
  { rewrite (ingest_run _ _ _ _ _ Hres).
    destruct (OpenAI.vector_stores_files_upload_and_poll _ _ _ _ _ _) as [f|e];
      [|reflexivity].
    simpl. now destruct (negb _). }
  rewrite Hticks. unfold upload_attributes, caller_attributes, uploaded.
  rewrite Hh. destruct derives_from_clock; simpl; now rewrite Hk, ?Ht.
Qed.

(** C1 (amended). For every ingestion request whose store resolves, the
    attribute set passed to the upload keeps the caller's value for
    "ingested_at" when the caller's attributes contain that key; the key
    is set to the ISO-8601 form of the instant read from the clock (the
    last reading of the call) only when the caller's attributes do not
    contain it. *)
Theorem C1_ingested_at_is_a_default (self : OpenAIContextStore.t)
    (request : IngestDocumentRequest.t) (w w1 : World)
    (vector_store : VectorStore.t) :
  OpenAIContextStore.ensure_vector_store self
    (IngestDocumentRequest.vector_store_id request)
    (IngestDocumentRequest.vector_store_name request)
    (ingest_metadata request) w = (Ok vector_store, w1) ->
  let w' := snd (OpenAIContextStore.ingest self request w) in
  exists file composed,
    issued w w' =
      issued w w1 ++
      [CallUploadAndPoll (VectorStore.id vector_store) file (Some composed)
         (IngestDocumentRequest.chunking_strategy request)] /\
    (forall value,
       caller_attributes request w !! "ingested_at" = Some value ->
       composed !! "ingested_at" = Some value) /\
    (caller_attributes request w !! "ingested_at" = None ->
     composed !! "ingested_at" =
     Some (AStr (isoformat (clock w (Nat.pred (ticks w')))))).
Proof.
  intros Hres. cbv zeta.
  exists (upload_file request w1), (upload_attributes request w1).
  destruct (upload_attributes_frame _ _ _ _ _ Hres) as [-> _].
  split; [|split].
  - rewrite (ingest_issued _ _ _ _ _ Hres). unfold upload_call.
    now destruct (upload_attributes_frame _ _ _ _ _ Hres) as [-> _].
  - intros value H. now apply composed_keeps.
  - intros H. now rewrite composed_ingested_at, H.
Qed.

Lemma C1_ingested_at_is_a_default_witness :
  let w := Example.world [Example.caller_dict] in
  let w' := snd (OpenAIContextStore.ingest Example.docs_store
                   Example.hello_tagged w) in
  exists file composed,
    issued w w' =
      issued w (snd (OpenAIContextStore.ensure_vector_store Example.docs_store
                       None None None w)) ++
      [CallUploadAndPoll "vs_docs" file (Some composed) None] /\
    (forall value,
       caller_attributes Example.hello_tagged w !! "ingested_at" = Some value ->
       composed !! "ingested_at" = Some value) /\
    (caller_attributes Example.hello_tagged w !! "ingested_at" = None ->
     composed !! "ingested_at" =
     Some (AStr (isoformat (clock w (Nat.pred (ticks w')))))).
Proof.
  exact (C1_ingested_at_is_a_default Example.docs_store Example.hello_tagged
           (Example.world [Example.caller_dict])
           (snd (OpenAIContextStore.ensure_vector_store Example.docs_store
                   None None None (Example.world [Example.caller_dict])))
           Example.created_docs eq_refl).
Defined.

(** C1 as stated fails: the caller's attributes hold "ingested_at", the
    clock reads 2023-11-14T22:13:20+00:00 whenever it is read, and the
    one upload of the call still carries the caller's value for the key,
    not the timestamp. *)
Lemma C1_counterexample :
  let w := Example.world [Example.caller_dict] in
  let w' := snd (OpenAIContextStore.ingest Example.docs_store
                   Example.hello_tagged w) in
  caller_attributes Example.hello_tagged w !! "ingested_at" =
    Some (AStr "1999-12-31T00:00:00+00:00") /\
  (forall n, isoformat (clock w n) = "2023-11-14T22:13:20+00:00") /\
  uploaded_values "ingested_at" (issued w w') =
    [Some (AStr "1999-12-31T00:00:00+00:00")] /\
  forall n,
    uploaded_values "ingested_at" (issued w w') <>
    [Some (AStr (isoformat (clock w n)))].
Proof.
  cbv zeta.
  assert (H : uploaded_values "ingested_at"
                (issued (Example.world [Example.caller_dict])
                   (snd (OpenAIContextStore.ingest Example.docs_store
                           Example.hello_tagged
                           (Example.world [Example.caller_dict])))) =
              [Some (AStr "1999-12-31T00:00:00+00:00")])
    by (vm_compute; reflexivity).
  split; [vm_compute; reflexivity|].
  split; [intros n; reflexivity|].
  split; [exact H|].
  intros n. rewrite H. discriminate.
Qed.

(** C9. For every ingestion request, the composed attribute set contains
    the key "ingested_at" and is therefore never empty: every upload call
    that [ingest] issues carries an attributes mapping (never [None]), so
    the [None] arm of [attributes or None] is not taken; and whenever the
    store resolves, [ingest] does issue that upload call, right after the
    calls of the resolution. *)
Theorem C9_upload_always_carries_attributes (self : OpenAIContextStore.t)
    (request : IngestDocumentRequest.t) (w : World) :
  let w' := snd (OpenAIContextStore.ingest self request w) in
  (forall id file attributes chunking,
     In (CallUploadAndPoll id file attributes chunking) (issued w w') ->
     exists composed,
       attributes = Some composed /\
       is_Some (composed !! "ingested_at") /\
       composed <> ∅ /\
       OpenAIContextStore.or_none composed = Some composed) /\
  (forall vector_store w1,
     OpenAIContextStore.ensure_vector_store self
       (IngestDocumentRequest.vector_store_id request)
       (IngestDocumentRequest.vector_store_name request)
       (ingest_metadata request) w = (Ok vector_store, w1) ->
     exists file composed,
       issued w w' =
         issued w w1 ++
         [CallUploadAndPoll (VectorStore.id vector_store) file (Some composed)
            (IngestDocumentRequest.chunking_strategy request)] /\
       is_Some (composed !! "ingested_at")).
Proof.
  cbv zeta.
  assert (Hc : forall w1,
    is_Some (upload_attributes request w1 !! "ingested_at") /\
    upload_attributes request w1 <> ∅ /\
    OpenAIContextStore.or_none (upload_attributes request w1) =
    Some (upload_attributes request w1)).
  { intros w1. unfold upload_attributes. cbv zeta. split; [|split].
    - apply setdefault_is_Some.
    - apply setdefault_nonempty.
    - apply composed_nonempty. }
  split.
  - intros id file attributes chunking Hin.
    pose proof (ensure_issues_no_upload self
                  (IngestDocumentRequest.vector_store_id request)
                  (IngestDocumentRequest.vector_store_name request)
                  (ingest_metadata request) w) as Hno.
    destruct (OpenAIContextStore.ensure_vector_store self
                (IngestDocumentRequest.vector_store_id request)
                (IngestDocumentRequest.vector_store_name request)
                (ingest_metadata request) w) as [[vs|e] w1] eqn:Hres;
      simpl in Hno.
    + rewrite (ingest_issued _ _ _ _ _ Hres) in Hin.
      apply in_app_or in Hin as [Hin|[Hin|[]]].
      * rewrite Forall_forall in Hno.
        apply list_elem_of_In, Hno in Hin. discriminate.
      * unfold upload_call in Hin. injection Hin as _ _ <- _.
        exists (upload_attributes request w1). split; [reflexivity|apply Hc].
    + rewrite (ingest_unresolved _ _ _ _ _ Hres) in Hin. simpl in Hin.
      rewrite Forall_forall in Hno.
      apply list_elem_of_In, Hno in Hin. discriminate.
  - intros vs w1 Hres.
    exists (upload_file request w1), (upload_attributes request w1).
    split; [apply (ingest_issued _ _ _ _ _ Hres) | apply Hc].
Qed.

Lemma C9_upload_always_carries_attributes_witness :
  let w := Example.world [] in
  let w' := snd (OpenAIContextStore.ingest Example.docs_store Example.hello w) in
  exists file composed,
    issued w w' =
      issued w (snd (OpenAIContextStore.ensure_vector_store Example.docs_store
                       None None None w)) ++
      [CallUploadAndPoll "vs_docs" file (Some composed) None] /\
    is_Some (composed !! "ingested_at").
Proof.
  exact (proj2 (C9_upload_always_carries_attributes Example.docs_store
                  Example.hello (Example.world []))
           Example.created_docs
           (snd (OpenAIContextStore.ensure_vector_store Example.docs_store
                   None None None (Example.world [])))
           eq_refl).
Defined.

(** The request of the example without any metadata: its one upload
    carries "ingested_at" and neither of the other two keys. *)
Example bare_request_uploads_ingested_at :
  let cs :=
    calls (snd (OpenAIContextStore.ingest Example.docs_store Example.hello
                  (Example.world []))) in
  uploaded_values "ingested_at" cs = [Some (AStr "2023-11-14T22:13:20+00:00")] /\
  uploaded_values "document_id" cs = [None] /\
  uploaded_values "summary" cs = [None].
Proof. repeat split; vm_compute; reflexivity. Qed.

(** C6. For every ingestion request, every dict object that existed
    before the call, the caller's attributes among them, has the same
    contents after it: the composition works on a copy. In the attribute
    set passed to the upload, every entry of the caller's attributes is
    there unchanged, so caller-supplied "document_id" and "summary" are
    never overwritten; the derived "document_id" and "summary" are added
    exactly when the key is missing from the caller's attributes (and the
    request gives the value), and no key other than these two and
    "ingested_at" is added. *)
Theorem C6_composition_on_a_copy (self : OpenAIContextStore.t)
    (request : IngestDocumentRequest.t) (w : World) :
  let w' := snd (OpenAIContextStore.ingest self request w) in
  let caller := caller_attributes request w in
  (forall r d, heap w !! r = Some d -> heap w' !! r = Some d) /\
  (forall vector_store w1,
     OpenAIContextStore.ensure_vector_store self
       (IngestDocumentRequest.vector_store_id request)
       (IngestDocumentRequest.vector_store_name request)
       (ingest_metadata request) w = (Ok vector_store, w1) ->
     exists file composed,
       issued w w' =
         issued w w1 ++
         [CallUploadAndPoll (VectorStore.id vector_store) file (Some composed)
            (IngestDocumentRequest.chunking_strategy request)] /\
       heap w' = heap w ++ [composed] /\
       (forall key value,
          caller !! key = Some value -> composed !! key = Some value) /\
       (caller !! "document_id" = None ->
        composed !! "document_id" =
        AStr <$> Py.present (IngestDocumentRequest.document_id request)) /\
       (caller !! "summary" = None ->
        composed !! "summary" =
        AStr <$> Py.present (IngestDocumentRequest.summary request)) /\
       (forall key,
          key <> "document_id" -> key <> "summary" -> key <> "ingested_at" ->
          composed !! key = caller !! key)).
Proof.
  cbv zeta. split.
  - intros r d Hr.
    destruct (OpenAIContextStore.ensure_vector_store self
                (IngestDocumentRequest.vector_store_id request)
                (IngestDocumentRequest.vector_store_name request)
                (ingest_metadata request) w) as [[vs|e] w1] eqn:Hres.
    + destruct (upload_attributes_frame _ _ _ _ _ Hres) as [_ ->].
      now apply lookup_app_l_Some.
    + rewrite (ingest_unresolved _ _ _ _ _ Hres). simpl.
      destruct (ensure_frame _ _ _ _ _ _ _ Hres) as (-> & _). exact Hr.
  - intros vs w1 Hres.
    exists (upload_file request w1), (upload_attributes request w1).
    destruct (upload_attributes_frame _ _ _ _ _ Hres) as [Hc Hh].
    split; [apply (ingest_issued _ _ _ _ _ Hres)|].
    split; [exact Hh|]. rewrite Hc.
    split; [|split; [|split]].
    + intros key value. apply composed_keeps.
    + intros H. now rewrite composed_document_id, H.
    + intros H. now rewrite composed_summary, H.
    + intros key. apply composed_other.
Qed.

Lemma C6_composition_on_a_copy_witness :
  let w := Example.world [Example.caller_dict] in
  let w' := snd (OpenAIContextStore.ingest Example.docs_store
                   Example.hello_tagged w) in
  heap w' !! 0%nat = Some Example.caller_dict /\
  exists file composed,
    issued w w' =
      issued w (snd (OpenAIContextStore.ensure_vector_store Example.docs_store
                       None None None w)) ++
      [CallUploadAndPoll "vs_docs" file (Some composed) None] /\
    heap w' = heap w ++ [composed] /\
    (forall key value,
       caller_attributes Example.hello_tagged w !! key = Some value ->
       composed !! key = Some value) /\
    (caller_attributes Example.hello_tagged w !! "document_id" = None ->
     composed !! "document_id" = AStr <$> Py.present (Some "doc1")) /\
    (caller_attributes Example.hello_tagged w !! "summary" = None ->
     composed !! "summary" = AStr <$> Py.present (Some "Release Notes")) /\
    (forall key,
       key <> "document_id" -> key <> "summary" -> key <> "ingested_at" ->
       composed !! key = caller_attributes Example.hello_tagged w !! key).
Proof.
  cbv zeta.
  destruct (C6_composition_on_a_copy Example.docs_store Example.hello_tagged
              (Example.world [Example.caller_dict])) as [Hframe Hcomposed].
  split.
  - exact (Hframe 0%nat Example.caller_dict eq_refl).
  - exact (Hcomposed Example.created_docs
             (snd (OpenAIContextStore.ensure_vector_store Example.docs_store
                     None None None (Example.world [Example.caller_dict])))
             eq_refl).
Defined.

(** In the example the caller's dict already holds "document_id" and
    "ingested_at": both survive in the upload, "summary" is added, and
    the caller's dict object has no "summary" afterwards. *)
Example caller_values_win :
  let w' := snd (OpenAIContextStore.ingest Example.docs_store
                   Example.hello_tagged (Example.world [Example.caller_dict])) in
  uploaded_values "document_id" (calls w') = [Some (AStr "mine")] /\
  uploaded_values "ingested_at" (calls w') =
    [Some (AStr "1999-12-31T00:00:00+00:00")] /\
  uploaded_values "summary" (calls w') = [Some (AStr "Release Notes")] /\
  deref (heap w') 0 !! "summary" = None.
Proof. repeat split; vm_compute; reflexivity. Qed.

(** C5 (amended). For every ingestion request, the filename of the
    result is the explicit filename when one is given; otherwise it is
    derived in this order: "{document_id}.txt" when [document_id] is
    given; else the slug of the summary, a hyphen, the timestamp and
    ".txt", where the slug is the first 40 characters of the summary
    after it was lowercased and its spaces were replaced with hyphens;
    else "context-{timestamp}.txt". The timestamp is the whole number of
    seconds of the first instant the call reads from the clock. *)
Theorem C5_result_filename (self : OpenAIContextStore.t)
    (request : IngestDocumentRequest.t) (w w' : World)
    (response : IngestDocumentResponse.t) :
  OpenAIContextStore.ingest self request w = (Ok response, w') ->
  IngestDocumentResponse.filename response =
  prepared_filename request (clock w (ticks w)).
Proof.
  destruct (OpenAIContextStore.ensure_vector_store self
              (IngestDocumentRequest.vector_store_id request)
              (IngestDocumentRequest.vector_store_name request)
              (ingest_metadata request) w) as [[vs|e] w1] eqn:Hres.
  - rewrite (ingest_run _ _ _ _ _ Hres).
    destruct (ensure_frame _ _ _ _ _ _ _ Hres) as (_ & <- & <- & _).
    destruct (OpenAI.vector_stores_files_upload_and_poll _ _ _ _ _ _) as [f|e];
      [|discriminate].
    now intros [= <- _].
  - rewrite (ingest_unresolved _ _ _ _ _ Hres). discriminate.
Qed.

Lemma C5_result_filename_witness :
  let w := Example.world [] in
  let filename_of (outcome : Result IngestDocumentResponse.t * World) :=
    match fst outcome with
    | Ok response => Some (IngestDocumentResponse.filename response)
    | Raise _ => None
    end in
  filename_of (OpenAIContextStore.ingest Example.docs_store Example.hello_file w) =
    Some "notes.md" /\
  filename_of (OpenAIContextStore.ingest Example.docs_store Example.hello_tagged w) =
    Some "doc1.txt" /\
  filename_of (OpenAIContextStore.ingest Example.docs_store Example.hello_summary w) =
    Some "release-notes-for-the-spring-edition-of--1700000000.txt" /\
  filename_of (OpenAIContextStore.ingest Example.docs_store Example.hello w) =
    Some "context-1700000000.txt".
Proof.
  assert (H : forall request expected,
            is_ok (fst (OpenAIContextStore.ingest Example.docs_store request
                          (Example.world []))) = true ->
            prepared_filename request (Example.clock 0) = expected ->
            match fst (OpenAIContextStore.ingest Example.docs_store request
                         (Example.world [])) with
            | Ok response => Some (IngestDocumentResponse.filename response)
            | Raise _ => None
            end = Some expected).
  { intros request expected Hok <-.
    destruct (OpenAIContextStore.ingest Example.docs_store request
                (Example.world [])) as [[response|e] w'] eqn:E;
      [|discriminate].
    simpl. f_equal.
    exact (C5_result_filename Example.docs_store request (Example.world []) w'
             response E). }
  cbv zeta beta.
  split; [|split; [|split]].
  - apply (H Example.hello_file "notes.md"); vm_compute; reflexivity.
  - apply (H Example.hello_tagged "doc1.txt"); vm_compute; reflexivity.
  - apply (H Example.hello_summary
             "release-notes-for-the-spring-edition-of--1700000000.txt");
      vm_compute; reflexivity.
  - apply (H Example.hello "context-1700000000.txt"); vm_compute; reflexivity.
Defined.

(** C5 as stated fails: the slug is not that of the first 40 characters
    of the summary. The code lowercases the whole summary and cuts
    afterwards, and the lowercase of a string can be longer than the
    string. For a summary of forty U+0130 the lowercased summary has 80
    code points, forty times U+0069 U+0307: the slug of the code is its
    first 40, twenty such pairs, while the first 40 characters of the
    summary, lowercased, are all 80. The two filenames differ. *)
Lemma C5_counterexample :
  let summary := repeat 304%N 40 in
  let t := Example.clock 0 in
  Wide.slug_of summary = concat (repeat [105; 775]%N 20) /\
  Wide.spec_slug summary = concat (repeat [105; 775]%N 40) /\
  length (Wide.derived_name (Wide.slug_of summary) t) = 55%nat /\
  length (Wide.derived_name (Wide.spec_slug summary) t) = 95%nat /\
  Wide.derived_name (Wide.slug_of summary) t <>
  Wide.derived_name (Wide.spec_slug summary) t.
Proof.
  cbv zeta. repeat split; try (vm_compute; reflexivity).
  intros H. apply (f_equal (@length N)) in H. vm_compute in H. discriminate.
Qed.

Lemma derived_name_not_bare_extension (stem rest : string) :
  Py.str_truthy stem = true -> stem +:+ "-" +:+ rest +:+ ".txt" <> ".txt".
Proof.
  intros Hs E. apply (f_equal String.length) in E.
  rewrite !string_app_length in E.
  destruct stem; [discriminate|]. simpl in E. lia.
Qed.

(** C10. An empty-string [document_id] or [summary] behaves exactly as
    an absent one: [ingest] and the filename derivation run identically
    (same outcome, same world, hence the same upload attributes); with an
    empty [document_id] the derived filename is the summary slug form or
    the generic form, never ".txt"; and when the store resolves, the
    upload attributes hold under "document_id" (under "summary") just
    what the caller's attributes held there. *)
Theorem C10_empty_string_is_absent (self : OpenAIContextStore.t)
    (request : IngestDocumentRequest.t) (w : World) :
  let no_id := with_document_id (Some "") request in
  let no_summary := with_summary (Some "") request in
  OpenAIContextStore.ingest self no_id w =
    OpenAIContextStore.ingest self (with_document_id None request) w /\
  OpenAIContextStore.ingest self no_summary w =
    OpenAIContextStore.ingest self (with_summary None request) w /\
  OpenAIContextStore._derive_filename no_id w =
    OpenAIContextStore._derive_filename (with_document_id None request) w /\
  OpenAIContextStore._derive_filename no_summary w =
    OpenAIContextStore._derive_filename (with_summary None request) w /\
  (exists name,
     fst (OpenAIContextStore._derive_filename no_id w) = Ok name /\
     name <> ".txt" /\
     name =
       match Py.present (IngestDocumentRequest.summary request) with
       | Some summary =>
           slug_of summary +:+ "-"
           +:+ Py.str_of_int (unix_seconds (clock w (ticks w))) +:+ ".txt"
       | None =>
           "context-" +:+ Py.str_of_int (unix_seconds (clock w (ticks w)))
           +:+ ".txt"
       end) /\
  (forall vector_store w1,
     OpenAIContextStore.ensure_vector_store self
       (IngestDocumentRequest.vector_store_id request)
       (IngestDocumentRequest.vector_store_name request)
       (ingest_metadata request) w = (Ok vector_store, w1) ->
     uploaded_values "document_id"
       (issued w1 (snd (OpenAIContextStore.ingest self no_id w))) =
       [caller_attributes request w !! "document_id"] /\
     uploaded_values "summary"
       (issued w1 (snd (OpenAIContextStore.ingest self no_summary w))) =
       [caller_attributes request w !! "summary"]).
Proof.
  cbv zeta. split; [reflexivity|]. split; [reflexivity|].
  split; [reflexivity|]. split; [reflexivity|]. split.
  - unfold OpenAIContextStore._derive_filename. simpl.
    destruct (Py.present (IngestDocumentRequest.summary request)) as [s|] eqn:E.
    + apply present_Some in E as [_ E].
      eexists. split; [reflexivity|].
      fold (slug_of s). rewrite (str_or_truthy _ _ (slug_truthy s E)).
      split; [|reflexivity].
      apply derived_name_not_bare_extension. now apply slug_truthy.
    + eexists. split; [reflexivity|]. split; [discriminate|reflexivity].
  - intros vs w1 Hres.
    destruct (ensure_frame _ _ _ _ _ _ _ Hres) as (Hh & _).
    assert (Hone : forall request' : IngestDocumentRequest.t,
      OpenAIContextStore.ensure_vector_store self
        (IngestDocumentRequest.vector_store_id request')
        (IngestDocumentRequest.vector_store_name request')
        (ingest_metadata request') w = (Ok vs, w1) ->
      forall key,
        uploaded_values key
          (issued w1 (snd (OpenAIContextStore.ingest self request' w))) =
        [upload_attributes request' w1 !! key]).
    { intros request' Hres' key.
      destruct (ingest_effects _ _ _ _ _ Hres') as [Hc _]. cbv zeta in Hc.
      now rewrite (issued_app _ _ _ Hc). }
    split.
    + rewrite (Hone (with_document_id (Some "") request) Hres).
      unfold upload_attributes. cbv zeta.
      rewrite composed_document_id. unfold caller_attributes. simpl.
      rewrite Hh. now destruct (_ !! "document_id").
    + rewrite (Hone (with_summary (Some "") request) Hres).
      unfold upload_attributes. cbv zeta.
      rewrite composed_summary. unfold caller_attributes. simpl.
      rewrite Hh. now destruct (_ !! "summary").
Qed.

Lemma C10_empty_string_is_absent_witness :
  let w := Example.world [] in
  let w1 :=
    snd (OpenAIContextStore.ensure_vector_store Example.docs_store None None
           None w) in
  uploaded_values "document_id"
    (issued w1
       (snd (OpenAIContextStore.ingest Example.docs_store
               (with_document_id (Some "") Example.hello_summary) w))) =
    [caller_attributes Example.hello_summary w !! "document_id"] /\
  uploaded_values "summary"
    (issued w1
       (snd (OpenAIContextStore.ingest Example.docs_store
               (with_summary (Some "") Example.hello_summary) w))) =
    [caller_attributes Example.hello_summary w !! "summary"].
Proof.
  exact (proj2 (proj2 (proj2 (proj2 (proj2
           (C10_empty_string_is_absent Example.docs_store Example.hello_summary
              (Example.world []))))))
           Example.created_docs
           (snd (OpenAIContextStore.ensure_vector_store Example.docs_store
                   None None None (Example.world [])))
           eq_refl).
Defined.

(** With an empty [document_id] the filename comes from the summary, and
    with an empty summary too it is the generic one. *)
Example empty_document_id_falls_through :
  fst (OpenAIContextStore._derive_filename
         (with_document_id (Some "") Example.hello_summary) (Example.world [])) =
    Ok "release-notes-for-the-spring-edition-of--1700000000.txt" /\
  fst (OpenAIContextStore._derive_filename
         (with_summary (Some "") (with_document_id (Some "") Example.hello_summary))
         (Example.world [])) =
    Ok "context-1700000000.txt".
Proof. split; vm_compute; reflexivity. Qed.

(** ** Retrieval resolves like ingestion, without a name *)

(** A resolution creates at most the store whose name it looked up. *)
Lemma ensure_created_names (self : OpenAIContextStore.t)
    (vector_store_id vector_store_name : option string)
    (metadata : option AttributesType) (w : World) :
  let cs :=
    issued w (snd (OpenAIContextStore.ensure_vector_store self vector_store_id
                     vector_store_name metadata w)) in
  created_names cs = [] \/
  exists name,
    looked_up_name self vector_store_id vector_store_name = Some name /\
    cs = [CallList 100 "desc"; CallCreate name metadata].
Proof.
  cbv zeta.
  destruct (ensure_issued_cases self vector_store_id vector_store_name
              metadata w) as [H|[[id H]|[H|(n & Hn & H)]]];
    cbv zeta in H; rewrite H; eauto.
Qed.

Lemma created_names_app (cs cs' : list Call) :
  created_names (cs ++ cs') = created_names cs ++ created_names cs'.
Proof. unfold created_names. apply flat_map_app. Qed.

(** The calls of [retrieve]: those of the resolution and, once the store
    is resolved, the search. *)
Lemma retrieve_issued (self : OpenAIContextStore.t)
    (request : RetrieveRelevantChunksRequest.t) (w : World) :
  let resolution :=
    OpenAIContextStore.ensure_vector_store self
      (RetrieveRelevantChunksRequest.vector_store_id request) None None w in
  issued w (snd (OpenAIContextStore.retrieve self request w)) =
  issued w (snd resolution) ++
  match fst resolution with
  | Ok vector_store => [search_call self request vector_store]
  | Raise _ => []
  end.
Proof.
  cbv zeta.
  destruct (OpenAIContextStore.ensure_vector_store self
              (RetrieveRelevantChunksRequest.vector_store_id request)
              None None w) as [[vs|e] w1] eqn:Hres; simpl.
  - destruct (ensure_frame _ _ _ _ _ _ _ Hres) as (_ & _ & _ & Hc & _).
    apply issued_app. rewrite (retrieve_run _ _ _ _ _ Hres). cbv zeta.
    destruct (search_answer _ _ _); simpl; rewrite Hc at 1;
      now rewrite <- app_assoc.
  - rewrite (retrieve_unresolved _ _ _ _ _ Hres). simpl.
    now rewrite app_nil_r.
Qed.

(** A name of empty characters is no name: resolution treats it as
    absent. *)
Lemma ensure_ignores_empty_name (self : OpenAIContextStore.t)
    (vector_store_id vector_store_name : option string)
    (metadata : option AttributesType) :
  Py.present vector_store_name = None ->
  OpenAIContextStore.ensure_vector_store self vector_store_id
    vector_store_name metadata =
  OpenAIContextStore.ensure_vector_store self vector_store_id None metadata.
Proof.
  intros H. unfold OpenAIContextStore.ensure_vector_store. now rewrite H.
Qed.

(** A store that [retrieve] creates bears the configured default name,
    and is created only when neither the request nor the configuration
    gives an id. *)
Lemma retrieve_creates_default_name_only (self : OpenAIContextStore.t)
    (request : RetrieveRelevantChunksRequest.t) (w : World) (name : string) :
  In name (created_names
             (issued w (snd (OpenAIContextStore.retrieve self request w)))) ->
  Py.present (RetrieveRelevantChunksRequest.vector_store_id request) = None /\
  Py.present (Settings.default_vector_store_id
                (OpenAIContextStore._settings self)) = None /\
  Py.present (Settings.default_vector_store_name
                (OpenAIContextStore._settings self)) = Some name.
Proof.
  intros Hin. rewrite retrieve_issued in Hin. cbv zeta in Hin.
  rewrite created_names_app in Hin.
  apply in_app_or in Hin as [Hin|Hin].
  - destruct (ensure_created_names self
                (RetrieveRelevantChunksRequest.vector_store_id request)
                None None w) as [Hnone|(n & Hn & Hc)]; cbv zeta in *.
    + rewrite Hnone in Hin. destruct Hin.
    + rewrite Hc in Hin. simpl in Hin. destruct Hin as [<-|[]].
      unfold looked_up_name in Hn.
      destruct (Py.present (RetrieveRelevantChunksRequest.vector_store_id
                              request)); [discriminate|].
      simpl in Hn.
      destruct (Py.present (Settings.default_vector_store_id _));
        [discriminate|].
      auto.
  - destruct (fst _); simpl in Hin; destruct Hin.
Qed.

(** C2 (amended). Retrieval resolves its store with the resolution
    function of ingestion, called with the id of the request and never a
    name or metadata: an ingestion with the same id and no name runs the
    very same resolution, and retrieval fails as that resolution fails or
    follows it with its search. A retrieval call therefore creates a
    store only in the fallback to the configured default name: when the
    request has no id, no default id is configured and no listed store
    has the default name, its first calls are the list and the create of
    that name, the same two calls such an ingestion starts with; and a
    create call it issues is always for the configured default name. *)
Theorem C2_retrieval_resolves_without_name (self : OpenAIContextStore.t)
    (request : RetrieveRelevantChunksRequest.t) (w : World) :
  let id := RetrieveRelevantChunksRequest.vector_store_id request in
  let resolution := OpenAIContextStore.ensure_vector_store self id None None w in
  let retrieved := OpenAIContextStore.retrieve self request w in
  (forall ingestion : IngestDocumentRequest.t,
     IngestDocumentRequest.vector_store_id ingestion = id ->
     Py.present (IngestDocumentRequest.vector_store_name ingestion) = None ->
     OpenAIContextStore.ensure_vector_store self
       (IngestDocumentRequest.vector_store_id ingestion)
       (IngestDocumentRequest.vector_store_name ingestion)
       (ingest_metadata ingestion) w = resolution) /\
  (forall e w1, resolution = (Raise e, w1) -> retrieved = (Raise e, w1)) /\
  (forall vector_store w1,
     resolution = (Ok vector_store, w1) ->
     issued w (snd retrieved) =
     issued w w1 ++ [search_call self request vector_store]) /\
  (forall name pages,
     looked_up_name self id None = Some name ->
     OpenAI.vector_stores_list (OpenAIContextStore._client self)
       (calls w) 100 "desc" = Ok (complete pages) ->
     unlisted name pages ->
     (exists rest,
        issued w (snd retrieved) =
        [CallList 100 "desc"; CallCreate name None] ++ rest) /\
     forall ingestion : IngestDocumentRequest.t,
       IngestDocumentRequest.vector_store_id ingestion = id ->
       Py.present (IngestDocumentRequest.vector_store_name ingestion) = None ->
       exists rest,
         issued w (snd (OpenAIContextStore.ingest self ingestion w)) =
         [CallList 100 "desc"; CallCreate name None] ++ rest) /\
  (forall name,
     In name (created_names (issued w (snd retrieved))) ->
     Py.present id = None /\
     Py.present (Settings.default_vector_store_id
                   (OpenAIContextStore._settings self)) = None /\
     Py.present (Settings.default_vector_store_name
                   (OpenAIContextStore._settings self)) = Some name).
Proof.
  cbv zeta.
  assert (Hsame : forall ingestion : IngestDocumentRequest.t,
    IngestDocumentRequest.vector_store_id ingestion =
      RetrieveRelevantChunksRequest.vector_store_id request ->
    Py.present (IngestDocumentRequest.vector_store_name ingestion) = None ->
    OpenAIContextStore.ensure_vector_store self
      (IngestDocumentRequest.vector_store_id ingestion)
      (IngestDocumentRequest.vector_store_name ingestion)
      (ingest_metadata ingestion) w =
    OpenAIContextStore.ensure_vector_store self
      (RetrieveRelevantChunksRequest.vector_store_id request) None None w).
  { intros ingestion Hid Hname.
    rewrite (ensure_ignores_empty_name _ _ _ _ Hname).
    unfold ingest_metadata. now rewrite Hname, Hid. }
  split; [exact Hsame|].
  split; [intros e w1; apply retrieve_unresolved|].
  split.
  { intros vs w1 Hres. rewrite retrieve_issued. cbv zeta. now rewrite Hres. }
  split.
  - intros name pages Hn Hl Hu.
    pose proof (ensure_name_based self
                  (RetrieveRelevantChunksRequest.vector_store_id request)
                  None None w name Hn) as H.
    cbv zeta in H. rewrite Hl in H.
    apply first_named_None in Hu. rewrite Hu in H. destruct H as [_ Hc].
    split.
    + rewrite retrieve_issued. cbv zeta. rewrite Hc. eauto.
    + intros ingestion Hid Hname.
      specialize (Hsame ingestion Hid Hname).
      destruct (OpenAIContextStore.ensure_vector_store self
                  (RetrieveRelevantChunksRequest.vector_store_id request)
                  None None w) as [[vs|e] w1] eqn:Hres; simpl in Hc.
      * rewrite (ingest_issued _ _ _ _ _ Hsame), Hc. eauto.
      * rewrite (ingest_unresolved _ _ _ _ _ Hsame). simpl. rewrite Hc.
        exists []. reflexivity.
  - apply retrieve_creates_default_name_only.
Qed.

Lemma C2_retrieval_resolves_without_name_witness :
  let w := Example.world [] in
  (exists rest,
     issued w (snd (OpenAIContextStore.retrieve Example.docs_store
                      (Example.auth None None) w)) =
     [CallList 100 "desc"; CallCreate "docs" None] ++ rest) /\
  (forall ingestion : IngestDocumentRequest.t,
     IngestDocumentRequest.vector_store_id ingestion = None ->
     Py.present (IngestDocumentRequest.vector_store_name ingestion) = None ->
     exists rest,
       issued w (snd (OpenAIContextStore.ingest Example.docs_store ingestion w)) =
       [CallList 100 "desc"; CallCreate "docs" None] ++ rest).
Proof.
  destruct (C2_retrieval_resolves_without_name Example.docs_store
              (Example.auth None None) (Example.world []))
    as (_ & _ & _ & H & _).
  apply (H "docs" [Example.vs_Docs] eq_refl eq_refl).
  constructor; [discriminate | constructor].
Defined.

(** The scenario on both sides: with the default name "docs" configured
    and only "Docs" listed, a retrieval and an ingestion each list and
    then create "docs". *)
Example read_triggers_create :
  let w := Example.world [] in
  created_names
    (calls (snd (OpenAIContextStore.retrieve Example.docs_store
                   (Example.auth None None) w))) = ["docs"] /\
  created_names
    (calls (snd (OpenAIContextStore.ingest Example.docs_store Example.hello w))) =
    ["docs"].
Proof. split; vm_compute; reflexivity. Qed.

(** C2 as stated fails: a retrieval request has no field for a store
    name. With no defaults configured and no store listed, an ingestion
    given the name "docs" creates that store, while no retrieval request
    whatever makes [retrieve] create a store, and a retrieval tool call
    that passes a [vector_store_name] is rejected at validation without
    any remote call. *)
Lemma C2_counterexample :
  let self := OpenAIContextStore.mk Example.no_defaults (Example.client [] []) in
  let w := Example.world [] in
  created_names
    (calls (snd (OpenAIContextStore.ingest self (Example.hello_named "docs") w))) =
    ["docs"] /\
  (forall request,
     created_names
       (issued w (snd (OpenAIContextStore.retrieve self request w))) = []) /\
  (forall fields,
     Server.call_retrieve_relevant_chunks self
       (Server.mkArguments fields ["vector_store_name"]) w =
     (Raise (ValidationError "Extra inputs are not permitted"), w)).
Proof.
  cbv zeta. split; [vm_compute; reflexivity|]. split.
  - intros request.
    destruct (created_names _) as [|name names] eqn:E; [reflexivity|].
    destruct (retrieve_creates_default_name_only
                (OpenAIContextStore.mk Example.no_defaults (Example.client [] []))
                request (Example.world []) name) as (_ & _ & H).
    + rewrite E. now left.
    + discriminate.
  - intros fields. reflexivity.
Qed.

(** * Further properties of the code *)

(** ** The lookup by name *)

(** X1. [_find_vector_store_by_name] issues exactly one call, the
    listing with [limit=100] and [order="desc"], and touches neither heap
    nor clock. When that call raises, it answers [None]. When the call
    answers, the outcome is that of the iteration over the listing: the
    first store of exactly the requested name that the listing yields;
    [None] when the listing ends without such a store; and, raised to the
    caller, the exception of the iteration when the listing breaks before
    such a store. A store it returns bears exactly the requested name, so
    a store without a name is never returned. *)
Theorem find_by_name_lookup (self : OpenAIContextStore.t) (name : string)
    (w : World) :
  let lookup := OpenAIContextStore._find_vector_store_by_name self name w in
  let listing :=
    OpenAI.vector_stores_list (OpenAIContextStore._client self)
      (calls w) 100 "desc" in
  issued w (snd lookup) = [CallList 100 "desc"] /\
  heap (snd lookup) = heap w /\ ticks (snd lookup) = ticks w /\
  (forall exc, listing = Raise exc -> fst lookup = Ok None) /\
  (forall before store rest,
     listing = Ok (prepend before (PagesStore store rest)) ->
     VectorStore.name store = Some name ->
     unlisted name before ->
     fst lookup = Ok (Some store)) /\
  (forall stores,
     listing = Ok (complete stores) ->
     unlisted name stores ->
     fst lookup = Ok None) /\
  (forall stores exc,
     listing = Ok (broken_after stores exc) ->
     unlisted name stores ->
     fst lookup = Raise exc /\ logged w (snd lookup) = []) /\
  (forall store,
     fst lookup = Ok (Some store) -> VectorStore.name store = Some name).
Proof.
  cbv zeta. rewrite find_run.
  destruct (OpenAI.vector_stores_list _ _ _ _) as [pages|exc0]; simpl.
  - split; [now apply issued_app|]. split; [reflexivity|].
    split; [reflexivity|]. split; [discriminate|].
    split; [|split; [|split]].
    + intros before store rest [= ->] Hn Hb.
      rewrite (first_named_prepend _ _ _ Hb). now apply first_named_here.
    + intros stores [= ->] Hu. now apply first_named_None.
    + intros stores exc [= ->] Hu. unfold broken_after.
      rewrite (first_named_prepend _ _ _ Hu). split; [reflexivity|].
      unfold logged. simpl. apply drop_all.
    + intros store Hs.
      destruct (pages_cases pages name)
        as [(b & st & r & -> & Hn & Hb)|[(ss & -> & Hu)|(ss & e & -> & Hu)]].
      * rewrite (first_named_prepend _ _ _ Hb), (first_named_here _ _ _ Hn) in Hs.
        congruence.
      * apply first_named_None in Hu. congruence.
      * unfold broken_after in Hs. rewrite (first_named_prepend _ _ _ Hu) in Hs.
        discriminate.
  - split; [now apply issued_app|]. split; [reflexivity|].
    split; [reflexivity|]. split; [reflexivity|].
    repeat split; discriminate.
Qed.

Lemma find_by_name_lookup_witness :
  let found :=
    OpenAIContextStore.mk Example.no_defaults (Example.client Example.listing []) in
  let broken :=
    OpenAIContextStore.mk Example.no_defaults
      (Example.client_list_broken [Example.vs_Docs]) in
  let w := Example.world [] in
  fst (OpenAIContextStore._find_vector_store_by_name found "docs" w) =
    Ok (Some Example.vs_docs) /\
  fst (OpenAIContextStore._find_vector_store_by_name found "seven" w) = Ok None /\
  fst (OpenAIContextStore._find_vector_store_by_name broken "docs" w) =
    Raise (RemoteError "APIConnectionError" "Connection error.") /\
  logged w (snd (OpenAIContextStore._find_vector_store_by_name broken "docs" w)) =
    [].
Proof.
  cbv zeta. split; [|split].
  - destruct (find_by_name_lookup
                (OpenAIContextStore.mk Example.no_defaults
                   (Example.client Example.listing []))
                "docs" (Example.world [])) as (_ & _ & _ & _ & H & _).
    apply (H [Example.vs_Docs] Example.vs_docs
             (complete [Example.vs_docs_older]) eq_refl eq_refl).
    constructor; [discriminate | constructor].
  - destruct (find_by_name_lookup
                (OpenAIContextStore.mk Example.no_defaults
                   (Example.client Example.listing []))
                "seven" (Example.world [])) as (_ & _ & _ & _ & _ & H & _).
    apply (H Example.listing eq_refl).
    repeat (constructor; [discriminate|]). constructor.
  - destruct (find_by_name_lookup
                (OpenAIContextStore.mk Example.no_defaults
                   (Example.client_list_broken [Example.vs_Docs]))
                "docs" (Example.world [])) as (_ & _ & _ & _ & _ & _ & H & _).
    apply (H [Example.vs_Docs]
             (RemoteError "APIConnectionError" "Connection error.") eq_refl).
    constructor; [discriminate | constructor].
Defined.

(** ** The footprint of the resolution *)

Lemma ensure_issues_resolution_calls (self : OpenAIContextStore.t)
    (vector_store_id vector_store_name : option string)
    (metadata : option AttributesType) (w : World) :
  let cs :=
    issued w (snd (OpenAIContextStore.ensure_vector_store self vector_store_id
                     vector_store_name metadata w)) in
  length cs <= 2 /\
  Forall (fun c => is_upload c = false /\ is_search c = false) cs /\
  length (created cs) <= 1.
Proof.
  cbv zeta.
  destruct (ensure_issued_cases self vector_store_id vector_store_name
              metadata w) as [H|[[id H]|[H|(n & _ & H)]]];
    cbv zeta in H; rewrite H; simpl; repeat split; try lia;
    repeat constructor.
Qed.

(** X2. [ensure_vector_store] issues at most two remote calls, none of
    them an upload or a search, and creates at most one store; it leaves
    the dict objects and the clock as they were, and only appends to the
    calls and to the log. *)
Theorem resolution_footprint (self : OpenAIContextStore.t)
    (vector_store_id vector_store_name : option string)
    (metadata : option AttributesType) (w : World) :
  let w' :=
    snd (OpenAIContextStore.ensure_vector_store self vector_store_id
           vector_store_name metadata w) in
  heap w' = heap w /\ clock w' = clock w /\ ticks w' = ticks w /\
  calls w' = calls w ++ issued w w' /\
  logs w' = logs w ++ logged w w' /\
  length (issued w w') <= 2 /\
  Forall (fun c => is_upload c = false /\ is_search c = false) (issued w w') /\
  length (created (issued w w')) <= 1.
Proof.
  cbv zeta.
  destruct (OpenAIContextStore.ensure_vector_store self vector_store_id
              vector_store_name metadata w) as [r w'] eqn:E.
  destruct (ensure_frame _ _ _ _ _ _ _ E) as (Hh & Hk & Ht & Hc & Hl).
  simpl. repeat (split; [assumption|]).
  pose proof (ensure_issues_resolution_calls self vector_store_id
                vector_store_name metadata w) as H.
  cbv zeta in H. now rewrite E in H.
Qed.

Lemma ensure_created (self : OpenAIContextStore.t)
    (vector_store_id vector_store_name : option string)
    (metadata : option AttributesType) (w : World) :
  created
    (issued w (snd (OpenAIContextStore.ensure_vector_store self vector_store_id
                      vector_store_name metadata w))) =
  match looked_up_name self vector_store_id vector_store_name with
  | Some name =>
      creation_due name metadata
        (OpenAI.vector_stores_list (OpenAIContextStore._client self)
           (calls w) 100 "desc")
  | None => []
  end.
Proof.
  destruct (looked_up_name self vector_store_id vector_store_name) as [n|] eqn:Hn.
  - pose proof (ensure_name_based self vector_store_id vector_store_name
                  metadata w n Hn) as H. cbv zeta in H.
    unfold creation_due.
    destruct (OpenAI.vector_stores_list _ _ _ _) as [pages|exc].
    + destruct (OpenAIContextStore.first_named pages n) as [[store|]|e];
        destruct H as [_ ->]; reflexivity.
    + destruct H as [[_ ->] _]. reflexivity.
  - unfold looked_up_name in Hn.
    destruct (Py.present vector_store_id) as [id|] eqn:Hid.
    { destruct (ensure_fetches self vector_store_id vector_store_name metadata
                  w id (or_introl Hid)) as [_ ->]. reflexivity. }
    destruct (Py.present vector_store_name) eqn:Hname; [discriminate|].
    destruct (Py.present (Settings.default_vector_store_id _)) as [id|] eqn:Hdid.
    { destruct (ensure_fetches self vector_store_id vector_store_name metadata
                  w id (or_intror (conj Hid (conj Hname Hdid)))) as [_ ->].
      reflexivity. }
    rewrite (ensure_unconfigured _ _ _ _ _ Hid Hname Hdid Hn). simpl.
    unfold issued. now rewrite drop_all.
Qed.

Lemma created_app (cs cs' : list Call) :
  created (cs ++ cs') = created cs ++ created cs'.
Proof. unfold created. apply flat_map_app. Qed.

(** ** Reading the store information *)

Lemma get_vector_store_info_run (self : OpenAIContextStore.t)
    (vector_store_id : option string) (w : World) :
  OpenAIContextStore.get_vector_store_info self vector_store_id w =
  match OpenAIContextStore.ensure_vector_store self vector_store_id None None w
  with
  | (Ok vector_store, w1) =>
      (Ok (GetVectorStoreInfoResponse.mk (VectorStore.id vector_store)
             (VectorStore.name vector_store)), w1)
  | (Raise e, w1) => (Raise e, w1)
  end.
Proof.
  unfold OpenAIContextStore.get_vector_store_info, bind.
  now destruct (OpenAIContextStore.ensure_vector_store _ _ _ _ _) as [[vs|e] w1].
Qed.

(** X3. [get_vector_store_info] does what the resolution does and
    nothing more: it ends in the world the resolution ends in (same
    calls, no upload, no search, heap and clock untouched), fails with
    the exception the resolution fails with, and otherwise reports the id
    and the name of the store the resolution returned. *)
Theorem get_vector_store_info_reports_resolved_store
    (self : OpenAIContextStore.t) (vector_store_id : option string) (w : World) :
  let resolution :=
    OpenAIContextStore.ensure_vector_store self vector_store_id None None w in
  let info := OpenAIContextStore.get_vector_store_info self vector_store_id w in
  snd info = snd resolution /\
  fst info =
    match fst resolution with
    | Ok vector_store =>
        Ok (GetVectorStoreInfoResponse.mk (VectorStore.id vector_store)
              (VectorStore.name vector_store))
    | Raise e => Raise e
    end /\
  heap (snd info) = heap w /\ ticks (snd info) = ticks w /\
  Forall (fun c => is_upload c = false /\ is_search c = false)
    (issued w (snd info)).
Proof.
  cbv zeta. rewrite get_vector_store_info_run.
  pose proof (ensure_issues_resolution_calls self vector_store_id None None w)
    as (_ & Hf & _).
  destruct (OpenAIContextStore.ensure_vector_store self vector_store_id
              None None w) as [[vs|e] w1] eqn:E; simpl in *;
    destruct (ensure_frame _ _ _ _ _ _ _ E) as (Hh & _ & Ht & _); auto.
Qed.

(** X4. The two read operations create a store exactly when the
    resolution is by the configured default name (no id in the request,
    no default id configured) and either the list call fails or its
    listing ends without a store of that name; the store is then created
    with that name and without metadata, once. In every other case they
    create nothing; in particular, when the listing breaks before a store
    of that name, both operations fail with the exception of the break
    after the list call alone. *)
Theorem read_operations_create_exactly_when (self : OpenAIContextStore.t)
    (vector_store_id : option string) (w : World) :
  let listing :=
    OpenAI.vector_stores_list (OpenAIContextStore._client self)
      (calls w) 100 "desc" in
  let due :=
    match Py.present vector_store_id,
          Py.present (Settings.default_vector_store_id
                        (OpenAIContextStore._settings self)),
          Py.present (Settings.default_vector_store_name
                        (OpenAIContextStore._settings self)) with
    | None, None, Some name =>
        match listing with
        | Ok pages =>
            match OpenAIContextStore.first_named pages name with
            | Ok (Some _) => []
            | Ok None => [(name, None)]
            | Raise _ => []
            end
        | Raise _ => [(name, None)]
        end
    | _, _, _ => []
    end in
  let info := OpenAIContextStore.get_vector_store_info self vector_store_id w in
  created (issued w (snd info)) = due /\
  (forall request,
     RetrieveRelevantChunksRequest.vector_store_id request = vector_store_id ->
     created (issued w (snd (OpenAIContextStore.retrieve self request w))) =
     due) /\
  (forall name stores exc,
     looked_up_name self vector_store_id None = Some name ->
     listing = Ok (broken_after stores exc) ->
     unlisted name stores ->
     fst info = Raise exc /\
     issued w (snd info) = [CallList 100 "desc"] /\
     forall request,
       RetrieveRelevantChunksRequest.vector_store_id request = vector_store_id ->
       let retrieved := OpenAIContextStore.retrieve self request w in
       fst retrieved = Raise exc /\
       issued w (snd retrieved) = [CallList 100 "desc"]).
Proof.
  cbv zeta.
  assert (Hdue :
    created
      (issued w (snd (OpenAIContextStore.ensure_vector_store self
                        vector_store_id None None w))) =
    match Py.present vector_store_id,
          Py.present (Settings.default_vector_store_id
                        (OpenAIContextStore._settings self)),
          Py.present (Settings.default_vector_store_name
                        (OpenAIContextStore._settings self)) with
    | None, None, Some name =>
        creation_due name None
          (OpenAI.vector_stores_list (OpenAIContextStore._client self)
             (calls w) 100 "desc")
    | _, _, _ => []
    end).
  { rewrite ensure_created. unfold looked_up_name. simpl.
    destruct (Py.present vector_store_id); [reflexivity|].
    destruct (Py.present (Settings.default_vector_store_id _)); [reflexivity|].
    now destruct (Py.present (Settings.default_vector_store_name _)). }
  unfold creation_due in Hdue.
  split; [|split].
  - rewrite get_vector_store_info_run.
    now destruct (OpenAIContextStore.ensure_vector_store self vector_store_id
                    None None w) as [[vs|e] w1].
  - intros request <-. rewrite retrieve_issued. cbv zeta.
    rewrite created_app, Hdue.
    destruct (fst _); simpl; now rewrite app_nil_r.
  - intros name stores exc Hn Hl Hu.
    pose proof (ensure_name_based self vector_store_id None None w name Hn)
      as H.
    cbv zeta in H. rewrite Hl in H. unfold broken_after in H.
    rewrite (first_named_prepend _ _ _ Hu) in H. simpl in H.
    destruct H as [Hf Hc].
    rewrite get_vector_store_info_run.
    destruct (OpenAIContextStore.ensure_vector_store self vector_store_id
                None None w) as [[vs|e] w1] eqn:E; simpl in Hf;
      [discriminate|].
    injection Hf as ->. simpl in Hc.
    split; [reflexivity|]. split; [exact Hc|].
    intros request <-. rewrite (retrieve_unresolved _ _ _ _ _ E).
    split; [reflexivity | exact Hc].
Qed.

Lemma read_operations_create_exactly_when_witness :
  let exc := RemoteError "APIConnectionError" "Connection error." in
  let self :=
    OpenAIContextStore.mk Example.default_docs
      (Example.client_list_broken [Example.vs_Docs]) in
  let w := Example.world [] in
  let info := OpenAIContextStore.get_vector_store_info self None w in
  fst info = Raise exc /\
  issued w (snd info) = [CallList 100 "desc"] /\
  forall request,
    RetrieveRelevantChunksRequest.vector_store_id request = None ->
    let retrieved := OpenAIContextStore.retrieve self request w in
    fst retrieved = Raise exc /\
    issued w (snd retrieved) = [CallList 100 "desc"].
Proof.
  cbv zeta.
  destruct (read_operations_create_exactly_when
              (OpenAIContextStore.mk Example.default_docs
                 (Example.client_list_broken [Example.vs_Docs]))
              None (Example.world [])) as (_ & _ & H).
  apply (H "docs" [Example.vs_Docs]
           (RemoteError "APIConnectionError" "Connection error.")
           eq_refl eq_refl).
  constructor; [discriminate | constructor].
Defined.


(** ** Ingestion: calls, response and failures *)

(** The calls of [ingest]: those of the resolution and, once the store
    is resolved, the upload. *)
Lemma ingest_issued_total (self : OpenAIContextStore.t)
    (request : IngestDocumentRequest.t) (w : World) :
  let resolution :=
    OpenAIContextStore.ensure_vector_store self
      (IngestDocumentRequest.vector_store_id request)
      (IngestDocumentRequest.vector_store_name request)
      (ingest_metadata request) w in
  issued w (snd (OpenAIContextStore.ingest self request w)) =
  issued w (snd resolution) ++
  match fst resolution with
  | Ok vector_store => [upload_call request vector_store (snd resolution)]
  | Raise _ => []
  end.
Proof.
  cbv zeta.
  destruct (OpenAIContextStore.ensure_vector_store self
              (IngestDocumentRequest.vector_store_id request)
              (IngestDocumentRequest.vector_store_name request)
              (ingest_metadata request) w) as [[vs|e] w1] eqn:Hres; simpl.
  - apply (ingest_issued _ _ _ _ _ Hres).
  - rewrite (ingest_unresolved _ _ _ _ _ Hres). simpl. now rewrite app_nil_r.
Qed.

(** X5. [ingest] creates at most one store, and only in a name-based
    resolution whose list call fails or whose listing ends without a
    store of the name: a store named by the request is created with empty
    metadata ([{}]), a store named by the configured default name (no id
    and no name in the request, no default id) is created without
    metadata. When the listing breaks before a store of the name,
    [ingest] fails with the exception of the break: it has issued the list
    call alone, so nothing is created and nothing is uploaded. *)
Theorem ingest_creation_metadata (self : OpenAIContextStore.t)
    (request : IngestDocumentRequest.t) (w : World) :
  let listing :=
    OpenAI.vector_stores_list (OpenAIContextStore._client self)
      (calls w) 100 "desc" in
  let defaults := OpenAIContextStore._settings self in
  let ingested := OpenAIContextStore.ingest self request w in
  created (issued w (snd ingested)) =
  match Py.present (IngestDocumentRequest.vector_store_id request) with
  | Some _ => []
  | None =>
      match Py.present (IngestDocumentRequest.vector_store_name request) with
      | Some name => creation_due name (Some ∅) listing
      | None =>
          match Py.present (Settings.default_vector_store_id defaults),
                Py.present (Settings.default_vector_store_name defaults) with
          | None, Some name => creation_due name None listing
          | _, _ => []
          end
      end
  end /\
  (forall name stores exc,
     looked_up_name self (IngestDocumentRequest.vector_store_id request)
       (IngestDocumentRequest.vector_store_name request) = Some name ->
     listing = Ok (broken_after stores exc) ->
     unlisted name stores ->
     fst ingested = Raise exc /\
     issued w (snd ingested) = [CallList 100 "desc"]).
Proof.
  cbv zeta. split.
  - rewrite ingest_issued_total. cbv zeta.
    rewrite created_app, ensure_created.
    replace (created match fst _ with
                     | Ok vector_store => [upload_call request vector_store _]
                     | Raise _ => []
                     end) with (@nil (string * option AttributesType))
      by now destruct (fst _).
    rewrite app_nil_r. unfold looked_up_name, ingest_metadata.
    destruct (Py.present (IngestDocumentRequest.vector_store_id request));
      [reflexivity|].
    destruct (Py.present (IngestDocumentRequest.vector_store_name request));
      [reflexivity|].
    destruct (Py.present (Settings.default_vector_store_id _)); [reflexivity|].
    now destruct (Py.present (Settings.default_vector_store_name _)).
  - intros name stores exc Hn Hl Hu.
    pose proof (ensure_name_based self
                  (IngestDocumentRequest.vector_store_id request)
                  (IngestDocumentRequest.vector_store_name request)
                  (ingest_metadata request) w name Hn) as H.
    cbv zeta in H. rewrite Hl in H. unfold broken_after in H.
    rewrite (first_named_prepend _ _ _ Hu) in H. simpl in H.
    destruct H as [Hf Hc].
    destruct (OpenAIContextStore.ensure_vector_store self
                (IngestDocumentRequest.vector_store_id request)
                (IngestDocumentRequest.vector_store_name request)
                (ingest_metadata request) w) as [[vs|e] w1] eqn:E;
      simpl in Hf; [discriminate|].
    injection Hf as ->. simpl in Hc.
    rewrite (ingest_unresolved _ _ _ _ _ E). split; [reflexivity | exact Hc].
Qed.

Lemma ingest_creation_metadata_witness :
  let self :=
    OpenAIContextStore.mk Example.no_defaults
      (Example.client_list_broken [Example.vs_Docs]) in
  let w := Example.world [] in
  let ingested :=
    OpenAIContextStore.ingest self (Example.hello_named "docs") w in
  fst ingested = Raise (RemoteError "APIConnectionError" "Connection error.") /\
  issued w (snd ingested) = [CallList 100 "desc"].
Proof.
  cbv zeta.
  apply (proj2 (ingest_creation_metadata
                  (OpenAIContextStore.mk Example.no_defaults
                     (Example.client_list_broken [Example.vs_Docs]))
                  (Example.hello_named "docs") (Example.world []))
           "docs" [Example.vs_Docs]
           (RemoteError "APIConnectionError" "Connection error.")
           eq_refl eq_refl).
  constructor; [discriminate | constructor].
Defined.

(** X6. Once the store is resolved and the upload answers with a file,
    [ingest] returns a response whatever the status of that file: the
    status, the file id and the attributes of the response are the
    remote's, the store id and name are the resolved store's, and the
    filename is the one prepared locally. After the resolution it logs
    the upload, and a warning exactly when the status is not
    "completed". *)
Theorem ingest_reports_remote_file (self : OpenAIContextStore.t)
    (request : IngestDocumentRequest.t) (w w1 : World)
    (vector_store : VectorStore.t) (f : VectorStoreFile.t) :
  OpenAIContextStore.ensure_vector_store self
    (IngestDocumentRequest.vector_store_id request)
    (IngestDocumentRequest.vector_store_name request)
    (ingest_metadata request) w = (Ok vector_store, w1) ->
  OpenAI.vector_stores_files_upload_and_poll (OpenAIContextStore._client self)
    (calls w1) (VectorStore.id vector_store) (upload_file request w1)
    (Some (upload_attributes request w1))
    (IngestDocumentRequest.chunking_strategy request) = Ok f ->
  let outcome := OpenAIContextStore.ingest self request w in
  let filename := prepared_filename request (clock w (ticks w)) in
  fst outcome =
    Ok (IngestDocumentResponse.mk
          (VectorStore.id vector_store) (VectorStore.name vector_store)
          (VectorStoreFile.id f) filename
          (VectorStoreFile.status f) (VectorStoreFile.attributes f)) /\
  logged w1 (snd outcome) =
    Log INFO "Uploading document %s to vector store %s"
      [ArgStr filename; ArgStr (VectorStore.id vector_store)]
    :: (if String.eqb (VectorStoreFile.status f) "completed"
        then []
        else [Log WARNING "Vector store file %s completed with status %s"
                [ArgStr (VectorStoreFile.id f);
                 ArgStr (VectorStoreFile.status f)]]).
Proof.
  intros Hres Hup. cbv zeta.
  destruct (ensure_frame _ _ _ _ _ _ _ Hres) as (_ & Hk & Ht & _).
  rewrite (ingest_run _ _ _ _ _ Hres), Hup, <- Hk, <- Ht. simpl.
  split; [reflexivity|].
  destruct (String.eqb (VectorStoreFile.status f) "completed"); simpl;
    apply logged_app; unfold uploaded; destruct derives_from_clock; simpl;
    now rewrite <- ?app_assoc.
Qed.

Lemma ingest_reports_remote_file_witness :
  let self := Fixture.seven (Fixture.client_with_status [Example.vs_7] "failed") in
  let w := Example.world [] in
  let w1 := snd (OpenAIContextStore.ensure_vector_store self None None None w) in
  let outcome := OpenAIContextStore.ingest self Example.hello_tagged w in
  fst outcome =
    Ok (IngestDocumentResponse.mk "vs_7" (Some "seven") "file_9" "doc1.txt"
          "failed" (Some (upload_attributes Example.hello_tagged w1))) /\
  logged w1 (snd outcome) =
    [Log INFO "Uploading document %s to vector store %s"
       [ArgStr "doc1.txt"; ArgStr "vs_7"];
     Log WARNING "Vector store file %s completed with status %s"
       [ArgStr "file_9"; ArgStr "failed"]].
Proof.
  exact (ingest_reports_remote_file
           (Fixture.seven (Fixture.client_with_status [Example.vs_7] "failed"))
           Example.hello_tagged (Example.world [])
           (snd (OpenAIContextStore.ensure_vector_store
                   (Fixture.seven
                      (Fixture.client_with_status [Example.vs_7] "failed"))
                   None None None (Example.world [])))
           Example.vs_7
           (VectorStoreFile.mk "file_9" "failed"
              (Some (upload_attributes Example.hello_tagged
                       (snd (OpenAIContextStore.ensure_vector_store
                               (Fixture.seven
                                  (Fixture.client_with_status [Example.vs_7]
                                     "failed"))
                               None None None (Example.world []))))))
           eq_refl eq_refl).
Defined.

(** X7. Once the store is resolved, the one call [ingest] adds is the
    upload to the resolved store of the triple (filename, UTF-8 bytes of
    the content exactly as given, MIME type of the request), with the
    chunking strategy of the request passed on as it is; and a response
    names that store and that filename. *)
Theorem ingest_uploads_what_it_reports (self : OpenAIContextStore.t)
    (request : IngestDocumentRequest.t) (w w1 : World)
    (vector_store : VectorStore.t) :
  OpenAIContextStore.ensure_vector_store self
    (IngestDocumentRequest.vector_store_id request)
    (IngestDocumentRequest.vector_store_name request)
    (ingest_metadata request) w = (Ok vector_store, w1) ->
  let outcome := OpenAIContextStore.ingest self request w in
  exists filename composed,
    issued w1 (snd outcome) =
      [CallUploadAndPoll (VectorStore.id vector_store)
         (filename, Py.encode_utf8 (IngestDocumentRequest.content request),
          IngestDocumentRequest.mime_type request)
         (Some composed)
         (IngestDocumentRequest.chunking_strategy request)] /\
    forall response,
      fst outcome = Ok response ->
      IngestDocumentResponse.vector_store_id response =
        VectorStore.id vector_store /\
      IngestDocumentResponse.filename response = filename.
Proof.
  intros Hres. cbv zeta.
  exists (prepared_filename request (clock w1 (ticks w1))),
         (upload_attributes request w1).
  split.
  - destruct (ingest_effects _ _ _ _ _ Hres) as [Hc _]. cbv zeta in Hc.
    now apply issued_app.
  - intros response. rewrite (ingest_run _ _ _ _ _ Hres).
    destruct (OpenAI.vector_stores_files_upload_and_poll _ _ _ _ _ _) as [f|e];
      [|discriminate].
    simpl. now intros [= <-].
Qed.

Lemma ingest_uploads_what_it_reports_witness :
  let self := Fixture.seven (Fixture.client_with_status [Example.vs_7] "completed") in
  let w := Example.world [] in
  let w1 := snd (OpenAIContextStore.ensure_vector_store self None None None w) in
  let outcome := OpenAIContextStore.ingest self Example.hello_file w in
  exists filename composed,
    issued w1 (snd outcome) =
      [CallUploadAndPoll "vs_7"
         (filename, Py.encode_utf8 "Hello world", "text/plain")
         (Some composed) None] /\
    forall response,
      fst outcome = Ok response ->
      IngestDocumentResponse.vector_store_id response = "vs_7" /\
      IngestDocumentResponse.filename response = filename.
Proof.
  exact (ingest_uploads_what_it_reports
           (Fixture.seven (Fixture.client_with_status [Example.vs_7] "completed"))
           Example.hello_file (Example.world [])
           (snd (OpenAIContextStore.ensure_vector_store
                   (Fixture.seven
                      (Fixture.client_with_status [Example.vs_7] "completed"))
                   None None None (Example.world [])))
           Example.vs_7 eq_refl).
Defined.

(** X8. [ingest] fails in two ways only. When the resolution raises,
    [ingest] raises the same exception in the world the resolution left:
    nothing is uploaded, no dict object is allocated, the clock is not
    read. When the store is resolved and the upload raises, [ingest]
    raises that exception after the one upload call. Conversely, an
    exception [ingest] raises is the one the resolution raised, or the
    store was resolved and it is the one the upload raised; so [ingest]
    returns a response exactly when the store is resolved and the upload
    answers with a file. A response is returned only after exactly one
    upload call. *)
Theorem ingest_failure_modes (self : OpenAIContextStore.t)
    (request : IngestDocumentRequest.t) (w : World) :
  let resolution :=
    OpenAIContextStore.ensure_vector_store self
      (IngestDocumentRequest.vector_store_id request)
      (IngestDocumentRequest.vector_store_name request)
      (ingest_metadata request) w in
  let outcome := OpenAIContextStore.ingest self request w in
  (forall e w1,
     resolution = (Raise e, w1) ->
     outcome = (Raise e, w1) /\
     heap w1 = heap w /\ ticks w1 = ticks w /\
     uploaded_attributes (issued w w1) = []) /\
  (forall vector_store w1 e,
     resolution = (Ok vector_store, w1) ->
     OpenAI.vector_stores_files_upload_and_poll
       (OpenAIContextStore._client self) (calls w1)
       (VectorStore.id vector_store) (upload_file request w1)
       (Some (upload_attributes request w1))
       (IngestDocumentRequest.chunking_strategy request) = Raise e ->
     fst outcome = Raise e /\
     length (uploaded_attributes (issued w (snd outcome))) = 1%nat) /\
  (forall e,
     fst outcome = Raise e ->
     (exists w1, resolution = (Raise e, w1)) \/
     (exists vector_store w1,
        resolution = (Ok vector_store, w1) /\
        OpenAI.vector_stores_files_upload_and_poll
          (OpenAIContextStore._client self) (calls w1)
          (VectorStore.id vector_store) (upload_file request w1)
          (Some (upload_attributes request w1))
          (IngestDocumentRequest.chunking_strategy request) = Raise e)) /\
  (forall vector_store w1 f,
     resolution = (Ok vector_store, w1) ->
     OpenAI.vector_stores_files_upload_and_poll
       (OpenAIContextStore._client self) (calls w1)
       (VectorStore.id vector_store) (upload_file request w1)
       (Some (upload_attributes request w1))
       (IngestDocumentRequest.chunking_strategy request) = Ok f ->
     is_ok (fst outcome) = true) /\
  (is_ok (fst outcome) = true ->
   length (uploaded_attributes (issued w (snd outcome))) = 1%nat).
Proof.
  cbv zeta.
  assert (Hnone : forall w1 r,
    OpenAIContextStore.ensure_vector_store self
      (IngestDocumentRequest.vector_store_id request)
      (IngestDocumentRequest.vector_store_name request)
      (ingest_metadata request) w = (r, w1) ->
    uploaded_attributes (issued w w1) = []).
  { intros w1 r E.
    pose proof (ensure_issued_cases self
                  (IngestDocumentRequest.vector_store_id request)
                  (IngestDocumentRequest.vector_store_name request)
                  (ingest_metadata request) w) as H.
    cbv zeta in H. rewrite E in H. simpl in H.
    destruct H as [H|[[id H]|[H|(n & _ & H)]]]; now rewrite H. }
  assert (Hone : forall vs w1,
    OpenAIContextStore.ensure_vector_store self
      (IngestDocumentRequest.vector_store_id request)
      (IngestDocumentRequest.vector_store_name request)
      (ingest_metadata request) w = (Ok vs, w1) ->
    length (uploaded_attributes
              (issued w (snd (OpenAIContextStore.ingest self request w)))) =
    1%nat).
  { intros vs w1 E. rewrite (ingest_issued _ _ _ _ _ E).
    unfold uploaded_attributes. rewrite flat_map_app.
    fold (uploaded_attributes (issued w w1)). now rewrite (Hnone _ _ E). }
  split; [|split; [|split; [|split]]].
  - intros e w1 E. split; [now apply ingest_unresolved|].
    destruct (ensure_frame _ _ _ _ _ _ _ E) as (Hh & _ & Ht & _).
    repeat split; eauto.
  - intros vs w1 e E Hup. split; [|now apply (Hone vs w1)].
    now rewrite (ingest_run _ _ _ _ _ E), Hup.
  - intros e.
    destruct (OpenAIContextStore.ensure_vector_store self
                (IngestDocumentRequest.vector_store_id request)
                (IngestDocumentRequest.vector_store_name request)
                (ingest_metadata request) w) as [[vs|e0] w1] eqn:E.
    + rewrite (ingest_run _ _ _ _ _ E).
      destruct (OpenAI.vector_stores_files_upload_and_poll _ _ _ _ _ _)
        as [f|e1] eqn:Hup; simpl; [discriminate|].
      intros [= ->]. right. exists vs, w1. split; [reflexivity | exact Hup].
    + rewrite (ingest_unresolved _ _ _ _ _ E). simpl.
      intros [= ->]. left. now exists w1.
  - intros vs w1 f E Hup. now rewrite (ingest_run _ _ _ _ _ E), Hup.
  - destruct (OpenAIContextStore.ensure_vector_store self
                (IngestDocumentRequest.vector_store_id request)
                (IngestDocumentRequest.vector_store_name request)
                (ingest_metadata request) w) as [[vs|e] w1] eqn:E.
    + intros _. now apply (Hone vs w1).
    + rewrite (ingest_unresolved _ _ _ _ _ E). discriminate.
Qed.

Lemma ingest_failure_modes_witness :
  let w := Example.world [] in
  let unconfigured :=
    OpenAIContextStore.mk Example.no_defaults (Example.client [] []) in
  let down := Fixture.seven (Fixture.client_down [Example.vs_7]) in
  OpenAIContextStore.ingest unconfigured Example.hello w =
    (Raise (ValueError
       "No vector store identifier was provided and no defaults are configured."),
     w) /\
  fst (OpenAIContextStore.ingest down Example.hello w) =
    Raise (RemoteError "APITimeoutError" "Request timed out.") /\
  length (uploaded_attributes
            (issued w (snd (OpenAIContextStore.ingest down Example.hello w)))) =
    1%nat.
Proof.
  cbv zeta.
  destruct (ingest_failure_modes
              (OpenAIContextStore.mk Example.no_defaults (Example.client [] []))
              Example.hello (Example.world [])) as (H1 & _).
  destruct (ingest_failure_modes
              (Fixture.seven (Fixture.client_down [Example.vs_7]))
              Example.hello (Example.world [])) as (_ & H2 & _ & _ & _).
  split.
  - exact (proj1 (H1 _ (Example.world []) eq_refl)).
  - exact (H2 Example.vs_7
             (snd (OpenAIContextStore.ensure_vector_store
                     (Fixture.seven (Fixture.client_down [Example.vs_7]))
                     None None None (Example.world [])))
             (RemoteError "APITimeoutError" "Request timed out.")
             eq_refl eq_refl).
Defined.

(** X9. An [ingest] that resolves its store reads the clock once when
    the request gives a filename or a [document_id], and twice
    otherwise: first for the timestamp of the derived filename, then for
    "ingested_at". *)
Theorem ingest_clock_readings (self : OpenAIContextStore.t)
    (request : IngestDocumentRequest.t) (w w1 : World)
    (vector_store : VectorStore.t) :
  OpenAIContextStore.ensure_vector_store self
    (IngestDocumentRequest.vector_store_id request)
    (IngestDocumentRequest.vector_store_name request)
    (ingest_metadata request) w = (Ok vector_store, w1) ->
  ticks (snd (OpenAIContextStore.ingest self request w)) =
  (ticks w +
   match Py.present (IngestDocumentRequest.filename request),
         Py.present (IngestDocumentRequest.document_id request) with
   | None, None => 2
   | _, _ => 1
   end)%nat.
Proof.
  intros Hres.
  destruct (ensure_frame _ _ _ _ _ _ _ Hres) as (_ & _ & Ht & _).
  rewrite (ingest_run _ _ _ _ _ Hres), <- Ht.
  assert (Hu : ticks (uploaded request vector_store w1) =
               (ticks w1 + if derives_from_clock request then 2 else 1)%nat).
  { unfold uploaded. destruct derives_from_clock; simpl; lia. }
  assert (Hd : (if derives_from_clock request then 2 else 1)%nat =
               match Py.present (IngestDocumentRequest.filename request),
                     Py.present (IngestDocumentRequest.document_id request) with
               | None, None => 2%nat
               | _, _ => 1%nat
               end).
  { unfold derives_from_clock.
    destruct (Py.present (IngestDocumentRequest.filename request));
      [reflexivity|].
    now destruct (Py.present (IngestDocumentRequest.document_id request)). }
  rewrite <- Hd, <- Hu.
  destruct (OpenAI.vector_stores_files_upload_and_poll _ _ _ _ _ _) as [f|e];
    [|reflexivity].
  simpl. now destruct (negb _).
Qed.

Lemma ingest_clock_readings_witness :
  let self := Fixture.seven (Fixture.client_with_status [Example.vs_7] "completed") in
  let w := Example.world [] in
  ticks (snd (OpenAIContextStore.ingest self Example.hello_summary w)) = 2%nat /\
  ticks (snd (OpenAIContextStore.ingest self Example.hello_tagged w)) = 1%nat.
Proof.
  split.
  - exact (ingest_clock_readings
             (Fixture.seven
                (Fixture.client_with_status [Example.vs_7] "completed"))
             Example.hello_summary (Example.world [])
             (snd (OpenAIContextStore.ensure_vector_store
                     (Fixture.seven
                        (Fixture.client_with_status [Example.vs_7] "completed"))
                     None None None (Example.world [])))
             Example.vs_7 eq_refl).
  - exact (ingest_clock_readings
             (Fixture.seven
                (Fixture.client_with_status [Example.vs_7] "completed"))
             Example.hello_tagged (Example.world [])
             (snd (OpenAIContextStore.ensure_vector_store
                     (Fixture.seven
                        (Fixture.client_with_status [Example.vs_7] "completed"))
                     None None None (Example.world [])))
             Example.vs_7 eq_refl).
Defined.

(** ** The request models *)

(** X10. An ingestion request is accepted exactly when its content has a
    character that is not white space, and an accepted request is the
    request as given: the content is checked stripped but kept
    unstripped. *)
Theorem ingest_request_validation (raw : IngestDocumentRequest.t) :
  (IngestDocumentRequest.validate raw = Ok raw <->
   Py.all_space (IngestDocumentRequest.content raw) = false) /\
  (forall request, IngestDocumentRequest.validate raw = Ok request ->
                   request = raw) /\
  (is_ok (IngestDocumentRequest.validate raw) =
   negb (Py.all_space (IngestDocumentRequest.content raw))).
Proof.
  unfold IngestDocumentRequest.validate,
    IngestDocumentRequest.ensure_store_reference.
  destruct (Py.all_space (IngestDocumentRequest.content raw)) eqn:E.
  - apply strip_empty_iff in E. rewrite E. simpl.
    repeat split; intros; discriminate.
  - destruct (Py.str_truthy (Py.strip (IngestDocumentRequest.content raw)))
      eqn:Es.
    + simpl. repeat split; auto. now intros request [= <-].
    + apply strip_empty_iff in Es. congruence.
Qed.

Lemma retrieve_validate_same (raw request : RetrieveRelevantChunksRequest.t) :
  RetrieveRelevantChunksRequest.validate raw = Ok request -> request = raw.
Proof.
  unfold RetrieveRelevantChunksRequest.validate,
    RetrieveRelevantChunksRequest.check_max_results,
    RetrieveRelevantChunksRequest.ensure_query.
  destruct (RetrieveRelevantChunksRequest.max_results raw) as [n|].
  - destruct (n <? 1)%Z; [discriminate|].
    destruct (50 <? n)%Z; [discriminate|].
    destruct (negb _); [discriminate|]. now intros [= <-].
  - destruct (negb _); [discriminate|]. now intros [= <-].
Qed.

Lemma retrieve_validate_iff (raw : RetrieveRelevantChunksRequest.t) :
  RetrieveRelevantChunksRequest.validate raw = Ok raw <->
  Py.all_space (RetrieveRelevantChunksRequest.query raw) = false /\
  forall n, RetrieveRelevantChunksRequest.max_results raw = Some n ->
            (1 <= n <= 50)%Z.
Proof.
  split.
  - intros Hok. split.
    + destruct (Py.all_space (RetrieveRelevantChunksRequest.query raw)) eqn:E;
        [|reflexivity].
      destruct (retrieve_request_rejected raw (or_introl E)) as [msg Hr].
      congruence.
    + intros n Hn.
      destruct (Z_lt_le_dec n 1) as [Hlo|Hlo].
      * destruct (retrieve_request_rejected raw
                    (or_intror (ex_intro _ n (conj Hn (or_introl Hlo)))))
          as [msg Hr]. congruence.
      * destruct (Z_lt_le_dec 50 n) as [Hhi|Hhi]; [|lia].
        destruct (retrieve_request_rejected raw
                    (or_intror (ex_intro _ n (conj Hn (or_intror Hhi)))))
          as [msg Hr]. congruence.
  - intros [Hq Hn]. now apply retrieve_request_accepted.
Qed.

(** X11. A retrieval request is accepted exactly when its query has a
    character that is not white space and its [max_results], when given,
    lies in [1,50]; an accepted request is the request as given. *)
Theorem retrieve_request_validation (raw : RetrieveRelevantChunksRequest.t) :
  (RetrieveRelevantChunksRequest.validate raw = Ok raw <->
   Py.all_space (RetrieveRelevantChunksRequest.query raw) = false /\
   forall n, RetrieveRelevantChunksRequest.max_results raw = Some n ->
             (1 <= n <= 50)%Z) /\
  (forall request, RetrieveRelevantChunksRequest.validate raw = Ok request ->
                   request = raw).
Proof.
  split; [apply retrieve_validate_iff|]. intros request.
  apply retrieve_validate_same.
Qed.

(** ** Retrieval: the search and the response *)

(** X12. Once the store is resolved, the one call [retrieve] adds is the
    search on that store with the query exactly as given. The result cap
    passed is the [max_results] of the request when given (for a
    validated request a number in [1,50]) and the configured default
    otherwise; an attribute filter is passed only when it has entries (an
    empty filter is no filter); [rewrite_query] is passed as given, so
    [False] too. *)
Theorem retrieve_search_parameters (self : OpenAIContextStore.t)
    (request : RetrieveRelevantChunksRequest.t) (w w1 : World)
    (vector_store : VectorStore.t) :
  OpenAIContextStore.ensure_vector_store self
    (RetrieveRelevantChunksRequest.vector_store_id request) None None w =
  (Ok vector_store, w1) ->
  exists cap filters,
    issued w1 (snd (OpenAIContextStore.retrieve self request w)) =
      [CallSearch (VectorStore.id vector_store)
         (RetrieveRelevantChunksRequest.query request) cap filters
         (RetrieveRelevantChunksRequest.rewrite_query request)] /\
    (RetrieveRelevantChunksRequest.max_results request = None ->
     cap = Settings.default_max_results (OpenAIContextStore._settings self)) /\
    (forall n,
       RetrieveRelevantChunksRequest.max_results request = Some n ->
       n <> 0%Z -> cap = n) /\
    (RetrieveRelevantChunksRequest.validate request = Ok request ->
     forall n,
       RetrieveRelevantChunksRequest.max_results request = Some n ->
       cap = n /\ (1 <= cap <= 50)%Z) /\
    (filters = None <->
     RetrieveRelevantChunksRequest.attributes_filter request = None \/
     RetrieveRelevantChunksRequest.attributes_filter request = Some ∅) /\
    (forall f, filters = Some f ->
               RetrieveRelevantChunksRequest.attributes_filter request = Some f).
Proof.
  intros Hres. eexists _, _. split.
  - apply issued_app. rewrite (retrieve_run _ _ _ _ _ Hres). cbv zeta.
    unfold search_call. destruct (search_answer _ _ _); reflexivity.
  - split; [now intros ->|]. split.
    { intros n -> Hn. destruct (Z.eqb_spec n 0); [contradiction|reflexivity]. }
    split.
    { intros Hv n Hn.
      destruct (proj1 (retrieve_validate_iff request) Hv) as [_ Hr].
      specialize (Hr n Hn). rewrite Hn.
      destruct (Z.eqb_spec n 0); [lia|]. split; [reflexivity|lia]. }
    unfold dict_truthy.
    destruct (RetrieveRelevantChunksRequest.attributes_filter request) as [f|].
    + case_bool_decide as E; simpl.
      * subst f. split; [|discriminate]. split; auto.
      * split; [|now intros f' [= <-]]. split; [discriminate|].
        intros [H|H]; congruence.
    + split; [|discriminate]. split; auto.
Qed.

Lemma retrieve_search_parameters_witness :
  let self := Fixture.seven (Example.client [Example.vs_7] []) in
  let w := Example.world [] in
  let request := Example.auth (Some 5%Z) None in
  exists cap filters,
    issued (snd (OpenAIContextStore.ensure_vector_store self None None None w))
      (snd (OpenAIContextStore.retrieve self request w)) =
      [CallSearch "vs_7" "auth" cap filters None] /\
    (RetrieveRelevantChunksRequest.max_results request = None -> cap = 10%Z) /\
    (forall n,
       RetrieveRelevantChunksRequest.max_results request = Some n ->
       n <> 0%Z -> cap = n) /\
    (RetrieveRelevantChunksRequest.validate request = Ok request ->
     forall n,
       RetrieveRelevantChunksRequest.max_results request = Some n ->
       cap = n /\ (1 <= cap <= 50)%Z) /\
    (filters = None <->
     RetrieveRelevantChunksRequest.attributes_filter request = None \/
     RetrieveRelevantChunksRequest.attributes_filter request = Some ∅) /\
    (forall f, filters = Some f ->
               RetrieveRelevantChunksRequest.attributes_filter request = Some f).
Proof.
  exact (retrieve_search_parameters
           (Fixture.seven (Example.client [Example.vs_7] []))
           (Example.auth (Some 5%Z) None) (Example.world [])
           (snd (OpenAIContextStore.ensure_vector_store
                   (Fixture.seven (Example.client [Example.vs_7] []))
                   None None None (Example.world [])))
           Example.vs_7 eq_refl).
Defined.

(** X13. Once the store is resolved and the search answers, [retrieve]
    returns a response that names the resolved store and repeats the
    query as given. Every chunk of it stems from a search result that is
    not below the threshold, with that result's file id, filename, score
    and attributes and the text assembled from its content. There are
    never more chunks than search results, and without a threshold there
    are exactly as many: [retrieve] applies no result cap of its own,
    whatever [max_results] is. *)
Theorem retrieve_response (self : OpenAIContextStore.t)
    (request : RetrieveRelevantChunksRequest.t) (w w1 : World)
    (vector_store : VectorStore.t) (search_results : list SearchResult.t) :
  OpenAIContextStore.ensure_vector_store self
    (RetrieveRelevantChunksRequest.vector_store_id request) None None w =
  (Ok vector_store, w1) ->
  search_answer self (calls w1) (search_call self request vector_store) =
  Ok search_results ->
  exists results,
    fst (OpenAIContextStore.retrieve self request w) =
      Ok (RetrieveRelevantChunksResponse.mk (VectorStore.id vector_store)
            (RetrieveRelevantChunksRequest.query request) results) /\
    length results <= length search_results /\
    (RetrieveRelevantChunksRequest.score_threshold request = None ->
     length results = length search_results) /\
    forall chunk,
      In chunk results ->
      exists result,
        In result search_results /\
        OpenAIContextStore.below_threshold
          (RetrieveRelevantChunksRequest.score_threshold request) result = false /\
        RetrievedChunk.file_id chunk = SearchResult.file_id result /\
        RetrievedChunk.filename chunk = SearchResult.filename result /\
        RetrievedChunk.score chunk = SearchResult.score result /\
        RetrievedChunk.attributes chunk = SearchResult.attributes result /\
        RetrievedChunk.text chunk =
          OpenAIContextStore.assemble_text (SearchResult.content result).
Proof.
  intros Hres Hs.
  exists (map OpenAIContextStore.to_chunk
            (kept (RetrieveRelevantChunksRequest.score_threshold request)
               search_results)).
  split; [|split; [|split]].
  - rewrite (retrieve_run _ _ _ _ _ Hres). cbv zeta. rewrite Hs. simpl.
    now rewrite (collect_kept _ search_results []).
  - rewrite length_map. unfold kept. apply filter_length_le.
  - intros ->. now rewrite kept_without_threshold, length_map.
  - intros chunk Hin. apply in_map_iff in Hin as (result & <- & Hin).
    unfold kept in Hin. apply filter_In in Hin as [Hin Hk].
    apply negb_true_iff in Hk. exists result. repeat split; auto.
Qed.

Lemma retrieve_response_witness :
  let hits :=
    [Example.hit "a" 0.5%float; Example.hit "b" 0.25%float;
     Example.hit "c" 0.9375%float] in
  let self := Fixture.seven (Example.client [Example.vs_7] hits) in
  let w := Example.world [] in
  let request := Example.auth (Some 1%Z) None in
  exists results,
    fst (OpenAIContextStore.retrieve self request w) =
      Ok (RetrieveRelevantChunksResponse.mk "vs_7" "auth" results) /\
    length results <= 3 /\
    (RetrieveRelevantChunksRequest.score_threshold request = None ->
     length results = 3%nat) /\
    forall chunk,
      In chunk results ->
      exists result,
        In result hits /\
        OpenAIContextStore.below_threshold None result = false /\
        RetrievedChunk.file_id chunk = SearchResult.file_id result /\
        RetrievedChunk.filename chunk = SearchResult.filename result /\
        RetrievedChunk.score chunk = SearchResult.score result /\
        RetrievedChunk.attributes chunk = SearchResult.attributes result /\
        RetrievedChunk.text chunk =
          OpenAIContextStore.assemble_text (SearchResult.content result).
Proof.
  exact (retrieve_response
           (Fixture.seven
              (Example.client [Example.vs_7]
                 [Example.hit "a" 0.5%float; Example.hit "b" 0.25%float;
                  Example.hit "c" 0.9375%float]))
           (Example.auth (Some 1%Z) None) (Example.world [])
           (snd (OpenAIContextStore.ensure_vector_store
                   (Fixture.seven
                      (Example.client [Example.vs_7]
                         [Example.hit "a" 0.5%float; Example.hit "b" 0.25%float;
                          Example.hit "c" 0.9375%float]))
                   None None None (Example.world [])))
           Example.vs_7
           [Example.hit "a" 0.5%float; Example.hit "b" 0.25%float;
            Example.hit "c" 0.9375%float]
           eq_refl eq_refl).
Defined.

(** X14. [retrieve] never uploads, never allocates or changes a dict
    object and never reads the clock. It issues exactly one search when
    the store is resolved and none when the resolution raises; and when
    the search raises, [retrieve] raises the same exception. *)
Theorem retrieve_footprint (self : OpenAIContextStore.t)
    (request : RetrieveRelevantChunksRequest.t) (w : World) :
  let resolution :=
    OpenAIContextStore.ensure_vector_store self
      (RetrieveRelevantChunksRequest.vector_store_id request) None None w in
  let outcome := OpenAIContextStore.retrieve self request w in
  heap (snd outcome) = heap w /\
  ticks (snd outcome) = ticks w /\
  uploaded_attributes (issued w (snd outcome)) = [] /\
  length (List.filter is_search (issued w (snd outcome))) =
    (if is_ok (fst resolution) then 1 else 0)%nat /\
  (forall vector_store w1 e,
     resolution = (Ok vector_store, w1) ->
     search_answer self (calls w1) (search_call self request vector_store) =
     Raise e ->
     fst outcome = Raise e).
Proof.
  cbv zeta.
  pose proof (ensure_issued_cases self
                (RetrieveRelevantChunksRequest.vector_store_id request)
                None None w) as Hcases.
  cbv zeta in Hcases.
  assert (Hno :
    uploaded_attributes
      (issued w (snd (OpenAIContextStore.ensure_vector_store self
                        (RetrieveRelevantChunksRequest.vector_store_id request)
                        None None w))) = [] /\
    List.filter is_search
      (issued w (snd (OpenAIContextStore.ensure_vector_store self
                        (RetrieveRelevantChunksRequest.vector_store_id request)
                        None None w))) = []).
  { destruct Hcases as [H|[[id H]|[H|(n & _ & H)]]]; now rewrite H. }
  destruct Hno as [Hup Hse].
  assert (Hsearch : forall vs,
            uploaded_attributes [search_call self request vs] = [] /\
            List.filter is_search [search_call self request vs] =
            [search_call self request vs]) by (intros vs; split; reflexivity).
  rewrite retrieve_issued. cbv zeta.
  unfold uploaded_attributes at 1. rewrite flat_map_app, List.filter_app.
  fold (uploaded_attributes
          (issued w (snd (OpenAIContextStore.ensure_vector_store self
                            (RetrieveRelevantChunksRequest.vector_store_id request)
                            None None w)))).
  rewrite Hup, Hse.
  destruct (OpenAIContextStore.ensure_vector_store self
              (RetrieveRelevantChunksRequest.vector_store_id request)
              None None w) as [[vs|e] w1] eqn:Hres; cbn [fst snd is_ok app].
  - destruct (ensure_frame _ _ _ _ _ _ _ Hres) as (Hh & _ & Ht & _).
    destruct (Hsearch vs) as [Hu Hf].
    fold (uploaded_attributes [search_call self request vs]).
    rewrite Hu, Hf, (retrieve_run _ _ _ _ _ Hres). cbv zeta.
    repeat split.
    + now destruct (search_answer _ _ _).
    + now destruct (search_answer _ _ _).
    + intros vs' w1' e [= <- <-] Hs. now rewrite Hs.
  - destruct (ensure_frame _ _ _ _ _ _ _ Hres) as (Hh & _ & Ht & _).
    rewrite (retrieve_unresolved _ _ _ _ _ Hres). simpl.
    repeat split; auto. discriminate.
Qed.

Lemma retrieve_footprint_witness :
  let self := Fixture.seven (Fixture.client_down [Example.vs_7]) in
  fst (OpenAIContextStore.retrieve self (Example.auth None None)
         (Example.world [])) =
  Raise (RemoteError "APITimeoutError" "Request timed out.").
Proof.
  destruct (retrieve_footprint
              (Fixture.seven (Fixture.client_down [Example.vs_7]))
              (Example.auth None None) (Example.world []))
    as (_ & _ & _ & _ & H).
  exact (H Example.vs_7
           (snd (OpenAIContextStore.ensure_vector_store
                   (Fixture.seven (Fixture.client_down [Example.vs_7]))
                   None None None (Example.world [])))
           (RemoteError "APITimeoutError" "Request timed out.")
           eq_refl eq_refl).
Defined.

(** ** Text assembly *)

Lemma string_app_assoc (a b c : string) : (a +:+ b) +:+ c = a +:+ (b +:+ c).
Proof.
  induction a as [|x a IH]; [reflexivity|].
  change (String x ((a +:+ b) +:+ c) = String x (a +:+ (b +:+ c))).
  now rewrite IH.
Qed.

Lemma string_app_nil_r (a : string) : a +:+ "" = a.
Proof.
  induction a as [|x a IH]; [reflexivity|].
  change (String x (a +:+ "") = String x a). now rewrite IH.
Qed.

Lemma join_app (sep : string) (a b : list string) :
  a <> [] -> b <> [] ->
  Py.join sep (a ++ b) = Py.join sep a +:+ sep +:+ Py.join sep b.
Proof.
  intros Ha Hb. induction a as [|p [|q a] IH]; [contradiction| |].
  - destruct b; [contradiction|]. reflexivity.
  - change (Py.join sep ((p :: q :: a) ++ b))
      with (p +:+ sep +:+ Py.join sep ((q :: a) ++ b)).
    rewrite IH by discriminate.
    change (Py.join sep (p :: q :: a))
      with (p +:+ sep +:+ Py.join sep (q :: a)).
    now rewrite !string_app_assoc.
Qed.

Lemma no_text_no_segment (content : list Content.t) :
  existsb is_text content = false <->
  List.filter (fun chunk => String.eqb (Content.type chunk) "text") content = [].
Proof.
  induction content as [|chunk content IH]; simpl; [tauto|].
  unfold is_text at 1.
  destruct (String.eqb (Content.type chunk) "text"); simpl;
    [split; discriminate | exact IH].
Qed.

(** X15. The text of a result is assembled from its "text" segments
    alone: a single text segment gives its own text, a segment of any
    other kind can be added or removed anywhere without changing the
    text, and a content without text segments gives the empty text. The
    text of two blocks of content put one after the other is the two
    texts joined by one blank line when both blocks have a text segment,
    and the text of the block that has one otherwise. *)
Theorem assemble_text_of_blocks (c1 c2 : list Content.t) :
  OpenAIContextStore.assemble_text (c1 ++ c2) =
    (if existsb is_text c1 && existsb is_text c2
     then OpenAIContextStore.assemble_text c1 +:+ (Py.LF +:+ Py.LF)
          +:+ OpenAIContextStore.assemble_text c2
     else OpenAIContextStore.assemble_text c1
          +:+ OpenAIContextStore.assemble_text c2) /\
  (forall chunk,
     is_text chunk = false ->
     OpenAIContextStore.assemble_text (c1 ++ chunk :: c2) =
     OpenAIContextStore.assemble_text (c1 ++ c2)) /\
  (existsb is_text c1 = false -> OpenAIContextStore.assemble_text c1 = "") /\
  (forall chunk,
     is_text chunk = true ->
     OpenAIContextStore.assemble_text [chunk] = Content.text chunk).
Proof.
  unfold OpenAIContextStore.assemble_text. split; [|split; [|split]].
  - rewrite List.filter_app, map_app.
    destruct (existsb is_text c1) eqn:E1.
    + destruct (existsb is_text c2) eqn:E2; simpl.
      * apply join_app; intros H; apply map_eq_nil in H;
          apply no_text_no_segment in H; congruence.
      * apply no_text_no_segment in E2. rewrite E2. simpl.
        now rewrite app_nil_r, string_app_nil_r.
    + apply no_text_no_segment in E1. now rewrite E1.
  - intros chunk Hc. rewrite !List.filter_app. simpl.
    unfold is_text in Hc. now rewrite Hc.
  - intros E1. apply no_text_no_segment in E1. now rewrite E1.
  - intros chunk Hc. simpl. unfold is_text in Hc. now rewrite Hc.
Qed.

Lemma assemble_text_of_blocks_witness :
  let image := Content.mk "image" "skipped" in
  let alpha := Content.mk "text" "alpha" in
  let beta := Content.mk "text" "beta" in
  OpenAIContextStore.assemble_text ([alpha] ++ image :: [beta]) =
    OpenAIContextStore.assemble_text ([alpha] ++ [beta]) /\
  OpenAIContextStore.assemble_text [image] = "" /\
  OpenAIContextStore.assemble_text [alpha] = "alpha".
Proof.
  cbv zeta.
  destruct (assemble_text_of_blocks [Content.mk "text" "alpha"]
              [Content.mk "text" "beta"]) as (_ & H & _ & H1).
  destruct (assemble_text_of_blocks [Content.mk "image" "skipped"] [])
    as (_ & _ & H0 & _).
  split; [|split].
  - exact (H (Content.mk "image" "skipped") eq_refl).
  - exact (H0 eq_refl).
  - exact (H1 (Content.mk "text" "alpha") eq_refl).
Defined.

(** ** Logging never matters *)

Lemma same_effects_refl (w : World) : same_effects w w.
Proof. repeat split. Qed.

Lemma same_effects_sym (w1 w2 : World) : same_effects w1 w2 -> same_effects w2 w1.
Proof. intros (? & ? & ? & ?). repeat split; auto. Qed.

Lemma same_effects_trans (w1 w2 w3 : World) :
  same_effects w1 w2 -> same_effects w2 w3 -> same_effects w1 w3.
Proof.
  intros (? & ? & ? & ?) (? & ? & ? & ?). repeat split; congruence.
Qed.

Lemma same_effects_add_log (r : LogRecord) (w : World) :
  same_effects (add_log r w) w.
Proof. repeat split. Qed.

Lemma lb_ret {A} (a : A) : log_blind (ret a).
Proof. intros w1 w2 H. auto. Qed.

Lemma lb_raise {A} (e : Exn) : log_blind (@raise A e).
Proof. intros w1 w2 H. auto. Qed.

Lemma lb_bind {A B} (m : M A) (k : A -> M B) :
  log_blind m -> (forall a, log_blind (k a)) -> log_blind (bind m k).
Proof.
  intros Hm Hk w1 w2 H. unfold bind.
  destruct (Hm w1 w2 H) as [Hf Hs].
  destruct (m w1) as [[a|e] w1'], (m w2) as [[a'|e'] w2']; simpl in *;
    try discriminate.
  - injection Hf as <-. now apply Hk.
  - injection Hf as <-. auto.
Qed.

Lemma lb_try_except {A} (m : M A) (h : Exn -> M A) :
  log_blind m -> (forall e, log_blind (h e)) -> log_blind (try_except m h).
Proof.
  intros Hm Hh w1 w2 H. unfold try_except.
  destruct (Hm w1 w2 H) as [Hf Hs].
  destruct (m w1) as [[a|e] w1'], (m w2) as [[a'|e'] w2']; simpl in *;
    try discriminate.
  - auto.
  - injection Hf as <-. now apply Hh.
Qed.

Lemma lb_log (level : Level) (fmt : string) (args : list LogArg) :
  log_blind (log level fmt args).
Proof. intros w1 w2 (? & ? & ? & ?). repeat split; auto. Qed.

Lemma lb_lift {A} (r : Result A) : log_blind (lift r).
Proof. intros w1 w2 H. auto. Qed.

Lemma lb_ctx_info (msg : string) : log_blind (ctx_info msg).
Proof. apply lb_ret. Qed.

Lemma lb_now : log_blind now.
Proof.
  intros w1 w2 (? & ? & Hk & Ht). unfold now. simpl.
  repeat split; simpl; auto; congruence.
Qed.

Lemma lb_dict_new (d : AttributesType) : log_blind (dict_new d).
Proof.
  intros w1 w2 (Hh & ? & ? & ?). unfold dict_new. simpl.
  repeat split; simpl; auto; congruence.
Qed.

Lemma lb_dict_read (r : ref) : log_blind (dict_read r).
Proof.
  intros w1 w2 (Hh & ? & ? & ?). unfold dict_read. simpl.
  repeat split; simpl; auto; congruence.
Qed.

Lemma lb_dict_setdefault (r : ref) (key : string) (value : AttrValue) :
  log_blind (dict_setdefault r key value).
Proof.
  intros w1 w2 (Hh & ? & ? & ?). unfold dict_setdefault. rewrite Hh.
  destruct (deref (heap w2) r !! key); simpl; repeat split; simpl; auto;
    congruence.
Qed.

Lemma lb_remote {A} (c : Call) (answer : list Call -> Result A) :
  log_blind (remote c answer).
Proof.
  intros w1 w2 (? & Hc & ? & ?). unfold remote. simpl.
  repeat split; simpl; auto; congruence.
Qed.

Lemma lb_when (b : bool) (m : M unit) : log_blind m -> log_blind (when b m).
Proof. intros H. destruct b; [exact H | apply lb_ret]. Qed.

Create HintDb log_blind.
#[local] Hint Resolve lb_ret lb_raise lb_lift lb_log lb_ctx_info lb_now lb_dict_new
  lb_dict_read lb_dict_setdefault lb_remote lb_when : log_blind.

Ltac log_blind_step :=
  match goal with
  | |- log_blind (bind _ _) => apply lb_bind; [|intros ?]
  | |- log_blind (try_except _ _) => apply lb_try_except; [|intros ?]
  | |- log_blind (match ?x with _ => _ end) => destruct x
  | |- log_blind _ => solve [auto with log_blind]
  end.

Lemma lb_find (self : OpenAIContextStore.t) (name : string) :
  log_blind (OpenAIContextStore._find_vector_store_by_name self name).
Proof.
  unfold OpenAIContextStore._find_vector_store_by_name,
    OpenAIContextStore.client_list.
  repeat log_blind_step.
Qed.

Lemma lb_ensure (self : OpenAIContextStore.t)
    (vector_store_id vector_store_name : option string)
    (metadata : option AttributesType) :
  log_blind (OpenAIContextStore.ensure_vector_store self vector_store_id
               vector_store_name metadata).
Proof.
  pose proof (lb_find self) as Hfind.
  unfold OpenAIContextStore.ensure_vector_store,
    OpenAIContextStore.client_retrieve, OpenAIContextStore.client_create.
  repeat log_blind_step.
Qed.

Lemma lb_ingest (self : OpenAIContextStore.t) (request : IngestDocumentRequest.t) :
  log_blind (OpenAIContextStore.ingest self request).
Proof.
  pose proof (lb_ensure self) as Hensure.
  unfold OpenAIContextStore.ingest, OpenAIContextStore._derive_filename,
    OpenAIContextStore.copy_attributes,
    OpenAIContextStore.client_upload_and_poll.
  cbv zeta. repeat log_blind_step.
Qed.

Lemma lb_retrieve (self : OpenAIContextStore.t)
    (request : RetrieveRelevantChunksRequest.t) :
  log_blind (OpenAIContextStore.retrieve self request).
Proof.
  pose proof (lb_ensure self) as Hensure.
  unfold OpenAIContextStore.retrieve, OpenAIContextStore.client_search.
  cbv zeta. repeat log_blind_step.
Qed.

Lemma lb_get_vector_store_info (self : OpenAIContextStore.t)
    (vector_store_id : option string) :
  log_blind (OpenAIContextStore.get_vector_store_info self vector_store_id).
Proof.
  pose proof (lb_ensure self) as Hensure.
  unfold OpenAIContextStore.get_vector_store_info.
  repeat log_blind_step.
Qed.

(** X16. Log records never influence the store: started in two worlds
    that differ at most in their logs, the resolution, [ingest],
    [retrieve] and [get_vector_store_info] return the same result (value
    or exception), issue the same calls, and leave the same dict objects
    and the same clock. *)
Theorem logs_never_matter (self : OpenAIContextStore.t) (w1 w2 : World) :
  same_effects w1 w2 ->
  (forall vector_store_id vector_store_name metadata,
     let m :=
       OpenAIContextStore.ensure_vector_store self vector_store_id
         vector_store_name metadata in
     fst (m w1) = fst (m w2) /\ same_effects (snd (m w1)) (snd (m w2))) /\
  (forall request,
     let m := OpenAIContextStore.ingest self request in
     fst (m w1) = fst (m w2) /\ same_effects (snd (m w1)) (snd (m w2))) /\
  (forall request,
     let m := OpenAIContextStore.retrieve self request in
     fst (m w1) = fst (m w2) /\ same_effects (snd (m w1)) (snd (m w2))) /\
  (forall vector_store_id,
     let m := OpenAIContextStore.get_vector_store_info self vector_store_id in
     fst (m w1) = fst (m w2) /\ same_effects (snd (m w1)) (snd (m w2))).
Proof.
  intros H. repeat split.
  all: try (now apply lb_ensure); try (now apply lb_ingest);
    try (now apply lb_retrieve); try (now apply lb_get_vector_store_info).
Qed.

Lemma logs_never_matter_witness :
  let self := OpenAIContextStore.mk Example.default_docs (Example.client [] []) in
  let quiet := Example.world [] in
  let noisy :=
    add_log (Log INFO "Creating vector store named %s" [ArgStr "earlier"])
      (Example.world []) in
  fst (OpenAIContextStore.ingest self Example.hello quiet) =
    fst (OpenAIContextStore.ingest self Example.hello noisy) /\
  calls (snd (OpenAIContextStore.ingest self Example.hello quiet)) =
    calls (snd (OpenAIContextStore.ingest self Example.hello noisy)).
Proof.
  cbv zeta.
  destruct (logs_never_matter
              (OpenAIContextStore.mk Example.default_docs (Example.client [] []))
              (Example.world [])
              (add_log (Log INFO "Creating vector store named %s"
                          [ArgStr "earlier"]) (Example.world [])))
    as (_ & H & _).
  - repeat split.
  - destruct (H Example.hello) as (Hf & _ & Hc & _). auto.
Defined.

(** ** The tools *)

(** X17. The three tool functions are transparent adapters of the store:
    called in any world, each returns exactly what the store method
    returns there (value or exception), issues the same remote calls, and
    leaves the same dict objects and clock; all they add is log records
    (the messages they build for the tool context are never sent). *)
Theorem tools_are_transparent (store : OpenAIContextStore.t) (w : World) :
  (forall request,
     let tool := Server.ingest_document store request w in
     let direct := OpenAIContextStore.ingest store request w in
     fst tool = fst direct /\ same_effects (snd tool) (snd direct)) /\
  (forall request,
     let tool := Server.retrieve_relevant_chunks store request w in
     let direct := OpenAIContextStore.retrieve store request w in
     fst tool = fst direct /\ same_effects (snd tool) (snd direct)) /\
  (forall vector_store_id,
     let tool := Server.get_vector_store_info store vector_store_id w in
     let direct :=
       OpenAIContextStore.get_vector_store_info store vector_store_id w in
     fst tool = fst direct /\ same_effects (snd tool) (snd direct)).
Proof.
  split; [|split]; intros x; cbv zeta.
  - unfold Server.ingest_document, bind, ctx_info, log, ret.
    destruct (OpenAIContextStore.ingest store x w) as [[a|e] w']; simpl;
      split; repeat split.
  - unfold Server.retrieve_relevant_chunks, bind, ctx_info, log, ret.
    destruct (OpenAIContextStore.retrieve store x w) as [[a|e] w']; simpl;
      split; repeat split.
  - unfold Server.get_vector_store_info, bind, ctx_info, log, ret.
    destruct (OpenAIContextStore.get_vector_store_info store x w)
      as [[a|e] w']; simpl; split; repeat split.
Qed.

(** ** The shape of a derived filename *)

Lemma slice_to_length (n : nat) (s : string) :
  String.length (Py.slice_to n s) = Nat.min n (String.length s).
Proof.
  revert s. induction n as [|n IH]; intros [|c s]; simpl; auto.
Qed.

Lemma occurs_slice (c : ascii) (n : nat) (s : string) :
  occurs c s = false -> occurs c (Py.slice_to n s) = false.
Proof.
  revert s. induction n as [|n IH]; intros [|c' s]; simpl; auto.
  intros H. apply orb_false_iff in H as [-> H]. simpl. now apply IH.
Qed.

Lemma replace_removes (old new : ascii) (s : string) :
  old <> new -> occurs old (Py.replace old new s) = false.
Proof.
  intros Hne. induction s as [|c s IH]; simpl; [reflexivity|].
  rewrite IH, orb_false_r.
  destruct (Ascii.eqb_spec c old) as [->|Hc].
  - apply Ascii.eqb_neq. congruence.
  - now apply Ascii.eqb_neq.
Qed.

Lemma lower_char_idempotent (c : ascii) :
  Py.lower_char (Py.lower_char c) = Py.lower_char c.
Proof. destruct c as [[] [] [] [] [] [] [] []]; reflexivity. Qed.

Lemma lower_char_space (c : ascii) :
  Ascii.eqb (Py.lower_char c) " " = Ascii.eqb c " ".
Proof. destruct c as [[] [] [] [] [] [] [] []]; reflexivity. Qed.

Lemma lower_slug (s : string) :
  Py.lower (Py.replace " " "-" (Py.lower s)) = Py.replace " " "-" (Py.lower s).
Proof.
  induction s as [|c s IH]; simpl; [reflexivity|].
  rewrite IH, lower_char_space. f_equal.
  destruct (Ascii.eqb c " "); [reflexivity | apply lower_char_idempotent].
Qed.

Lemma lower_slice (n : nat) (s : string) :
  Py.lower (Py.slice_to n s) = Py.slice_to n (Py.lower s).
Proof.
  revert s. induction n as [|n IH]; intros [|c s]; simpl; try reflexivity.
  now rewrite IH.
Qed.

(** X18. A derived filename is always a non-empty stem followed by
    ".txt". With a [document_id] the stem is the [document_id] as it is
    and the clock is not read. Without one, a summary gives the stem
    "{slug}-{seconds}" where the slug has between 1 and 40 characters,
    contains no space and is in lower case; and without a summary the
    stem is "context-{seconds}". *)
Theorem derived_filename_shape (request : IngestDocumentRequest.t) (w : World) :
  let outcome := OpenAIContextStore._derive_filename request w in
  let seconds := Py.str_of_int (unix_seconds (clock w (ticks w))) in
  exists stem,
    fst outcome = Ok (stem +:+ ".txt") /\
    stem <> "" /\
    (forall document_id,
       Py.present (IngestDocumentRequest.document_id request) = Some document_id ->
       stem = document_id /\ snd outcome = w) /\
    (Py.present (IngestDocumentRequest.document_id request) = None ->
     forall summary,
       Py.present (IngestDocumentRequest.summary request) = Some summary ->
       exists slug,
         stem = slug +:+ "-" +:+ seconds /\
         1 <= String.length slug <= 40 /\
         occurs " " slug = false /\
         Py.lower slug = slug) /\
    (Py.present (IngestDocumentRequest.document_id request) = None ->
     Py.present (IngestDocumentRequest.summary request) = None ->
     stem = "context-" +:+ seconds).
Proof.
  cbv zeta. unfold OpenAIContextStore._derive_filename.
  destruct (Py.present (IngestDocumentRequest.document_id request)) as [d|] eqn:Ed.
  { exists d. apply present_Some in Ed as [_ Ed]. simpl.
    split; [reflexivity|]. split; [now apply truthy_nonempty|].
    split; [now intros ? [= <-]|]. split; discriminate. }
  destruct (Py.present (IngestDocumentRequest.summary request)) as [s|] eqn:Es.
  - apply present_Some in Es as [_ Es].
    pose proof (slug_truthy s Es) as Hslug.
    exists (slug_of s +:+ "-"
            +:+ Py.str_of_int (unix_seconds (clock w (ticks w)))).
    split.
    { unfold bind, now, ret. simpl. fold (slug_of s).
      rewrite (str_or_truthy _ _ Hslug).
      now rewrite !string_app_assoc. }
    split.
    { destruct (slug_of s); discriminate. }
    split; [discriminate|]. split; [|discriminate].
    intros _ summary [= <-].
    exists (slug_of s).
    split; [reflexivity|].
    split.
    { split.
      - destruct (slug_of s); [discriminate|]. cbn [String.length]. lia.
      - unfold slug_of. rewrite slice_to_length. lia. }
    split.
    { apply occurs_slice, replace_removes. discriminate. }
    unfold slug_of. now rewrite lower_slice, lower_slug.
  - exists ("context-" +:+ Py.str_of_int (unix_seconds (clock w (ticks w)))).
    split; [unfold bind, now, ret; simpl; now rewrite !string_app_assoc|].
    split; [discriminate|]. split; [discriminate|]. split; [discriminate|].
    reflexivity.
Qed.

Lemma derived_filename_shape_witness :
  let outcome :=
    OpenAIContextStore._derive_filename Example.hello_summary (Example.world []) in
  exists stem slug,
    fst outcome = Ok (stem +:+ ".txt") /\
    stem = slug +:+ "-" +:+ "1700000000" /\
    1 <= String.length slug <= 40 /\
    occurs " " slug = false /\
    Py.lower slug = slug.
Proof.
  cbv zeta.
  destruct (derived_filename_shape Example.hello_summary (Example.world []))
    as (stem & Hf & _ & _ & Hs & _).
  destruct (Hs eq_refl _ eq_refl) as (slug & Hstem & Hlen & Ho & Hl).
  exists stem, slug. repeat split; auto; apply Hlen.
Defined.

(** ** Tool calls end to end *)

(** X19. A call of the ingestion tool runs the tool function on the
    arguments exactly as given when there is no unknown key and the
    content has a character that is not white space, and is otherwise
    rejected with a validation error in an unchanged world. The same
    holds for the retrieval tool, whose arguments are accepted when there
    is no unknown key, the query has a character that is not white space
    and [max_results], if given, lies in [1,50]. *)
Theorem tool_call_dispatch (store : OpenAIContextStore.t) (w : World) :
  (forall args : Server.ToolArguments IngestDocumentRequest.t,
     match Server.extra args,
           Py.all_space (IngestDocumentRequest.content (Server.fields args)) with
     | [], false =>
         Server.call_ingest_document store args w =
         Server.ingest_document store (Server.fields args) w
     | _, _ =>
         exists msg,
           Server.call_ingest_document store args w =
           (Raise (ValidationError msg), w)
     end) /\
  (forall args : Server.ToolArguments RetrieveRelevantChunksRequest.t,
     match Server.extra args,
           Py.all_space (RetrieveRelevantChunksRequest.query (Server.fields args)),
           match RetrieveRelevantChunksRequest.max_results (Server.fields args) with
           | Some n => ((1 <=? n) && (n <=? 50))%Z
           | None => true
           end with
     | [], false, true =>
         Server.call_retrieve_relevant_chunks store args w =
         Server.retrieve_relevant_chunks store (Server.fields args) w
     | _, _, _ =>
         exists msg,
           Server.call_retrieve_relevant_chunks store args w =
           (Raise (ValidationError msg), w)
     end).
Proof.
  split.
  - intros [raw extra]. simpl. unfold Server.call_ingest_document. simpl.
    destruct extra as [|x extra]; simpl.
    + destruct (Py.all_space (IngestDocumentRequest.content raw)) eqn:E.
      * rewrite (ingest_request_rejected raw E). eauto.
      * unfold IngestDocumentRequest.validate,
          IngestDocumentRequest.ensure_store_reference.
        destruct (Py.str_truthy (Py.strip (IngestDocumentRequest.content raw)))
          eqn:Es; [reflexivity|].
        apply strip_empty_iff in Es. congruence.
    + eauto.
  - intros [raw extra]. simpl. unfold Server.call_retrieve_relevant_chunks. simpl.
    destruct extra as [|x extra]; simpl.
    + destruct (Py.all_space (RetrieveRelevantChunksRequest.query raw)) eqn:E.
      * destruct (retrieve_request_rejected raw (or_introl E)) as [msg ->].
        eauto.
      * destruct (RetrieveRelevantChunksRequest.max_results raw) as [n|] eqn:En.
        -- destruct ((1 <=? n) && (n <=? 50))%Z eqn:Eb.
           ++ apply andb_true_iff in Eb as [H1 H2].
              apply Z.leb_le in H1, H2.
              rewrite (retrieve_request_accepted raw E); [reflexivity|].
              intros m Hm. rewrite En in Hm. injection Hm as <-. lia.
           ++ destruct (retrieve_request_rejected raw) as [msg ->]; [|eauto].
              right. exists n. split; [exact En|].
              apply andb_false_iff in Eb as [H|H]; apply Z.leb_gt in H; lia.
        -- rewrite (retrieve_request_accepted raw E); [reflexivity|].
           intros m Hm. rewrite En in Hm. discriminate.
    + eauto.
Qed.
